(** * DesafioBanc/main.py: the in-memory account ledger

    A shallow embedding of the banking classes of [src/DesafioBanc/main.py]
    ([Deposito], [Saque], [Historico], [Conta], [ContaCorrente], [Cliente])
    and the properties of the ledger proved on it.

    Modelling decisions.
    - Amounts are Python [float]s, that is IEEE-754 binary64 values.  They are
      modelled by [spec_float] at precision 53 and maximal exponent 1024, with
      the standard library's executable operations ([SFadd], [SFsub],
      [SFleb], [SFltb]): rounding, infinities and NaN are part of the model.
    - Python [int]s (the withdrawal counter and its limit, account numbers)
      are unbounded and modelled by [Z].
    - A method that mutates [self] and prints becomes a function from the
      object to a [Res]: the returned value, the object after the call and
      the lines printed, in order.
    - Accounts are compared by identity ([conta not in self.contas]), so the
      accounts a client refers to live in a store indexed by addresses. *)

From Stdlib Require Import ZArith String Ascii List Bool Lia DecimalString.
From Stdlib Require Import SpecFloat.
From stdpp Require Import base option list gmap strings.

Open Scope Z_scope.

(** ** Python floats: IEEE-754 binary64 *)

Module F64.

Definition prec : Z := 53.
Definition emax : Z := 1024.

Definition float : Type := spec_float.

(** [0.0] *)
Definition zero : float := S754_zero false.
Definition nan : float := S754_nan.
Definition inf : float := S754_infinity false.

(** [float(z)] for an integer [z]: the nearest binary64 value. *)
Definition of_Z (z : Z) : float := binary_normalize prec emax z 0 false.

(** The float a decimal literal [a/b] denotes (correctly rounded). *)
Definition of_frac (a b : Z) : float := SFdiv prec emax (of_Z a) (of_Z b).

Definition add (x y : float) : float := SFadd prec emax x y.
Definition sub (x y : float) : float := SFsub prec emax x y.
Definition opp (x : float) : float := SFopp x.

(** Python's comparison operators [x <= y], [x < y], [x > y], [x >= y],
    [x == y]; all are false as soon as one side is NaN. *)
Definition leb (x y : float) : bool := SFleb x y.
Definition ltb (x y : float) : bool := SFltb x y.
Definition gtb (x y : float) : bool := SFltb y x.
Definition geb (x y : float) : bool := SFleb y x.
Definition eqb (x y : float) : bool := SFeqb x y.

Definition is_nan (x : float) : bool :=
  match x with S754_nan => true | _ => false end.

(** Neither NaN nor an infinity. *)
Definition is_finite (x : float) : bool :=
  match x with S754_zero _ | S754_finite _ _ _ => true | _ => false end.

(** The values a binary64 variable can hold: the mantissa and exponent of
    a finite value are in canonical form and in range. *)
Definition valid (x : float) : bool := valid_binary prec emax x.

(** A result of rounding with sign [s]: a zero or an infinity of that sign,
    or a valid finite value of that sign. *)
Definition rounded (s : bool) (r : float) : bool :=
  match r with
  | S754_zero s' | S754_infinity s' => Bool.eqb s s'
  | S754_finite s' m e => Bool.eqb s s' && bounded prec emax m e
  | S754_nan => false
  end.

(** [+0.0], a valid positive finite value or [+inf]. *)
Definition nonneg (x : float) : bool :=
  match x with
  | S754_zero false | S754_infinity false => true
  | S754_finite false m e => bounded prec emax m e
  | _ => false
  end.

(** A valid positive finite value. *)
Definition pos_finite (x : float) : bool :=
  match x with
  | S754_finite false m e => bounded prec emax m e
  | _ => false
  end.

Definition nonneg_or_nan (x : float) : bool := is_nan x || nonneg x.

End F64.

Abbreviation float := F64.float.

(** ** Python string formatting *)

Definition nl : string := String (ascii_of_nat 10) EmptyString.

(** [str(n)] for an [int]. *)
Definition str_int (n : Z) : string := NilZero.string_of_int (Z.to_int n).

(** The magnitude [m * 2^e], in hundredths, rounded to the nearest integer
    with ties to even: the digits that the format [.2f] prints. *)
Definition centesimos (m : positive) (e : Z) : Z :=
  match e with
  | Zneg p =>
      let d := 2 ^ Zpos p in
      let q := (100 * Zpos m) / d in
      let r := (100 * Zpos m) mod d in
      match 2 * r ?= d with
      | Lt => q
      | Gt => q + 1
      | Eq => if Z.even q then q else q + 1
      end
  | _ => 100 * Zpos m * 2 ^ e
  end.

Definition sinal (s : bool) : string := if s then "-" else "".

Definition dois_digitos (n : Z) : string :=
  (if n <? 10 then "0" else "") +:+ str_int n.

(** [f"{x:.2f}"] *)
Definition fmt2 (x : float) : string :=
  match x with
  | S754_nan => "nan"
  | S754_infinity s => sinal s +:+ "inf"
  | S754_zero s => sinal s +:+ "0.00"
  | S754_finite s m e =>
      let n := centesimos m e in
      sinal s +:+ str_int (n / 100) +:+ "." +:+ dois_digitos (n mod 100)
  end.

(** ** Results of a method call *)

(** What a call of a method on [self : S] produces: the value returned, the
    object after the call and the lines written by [print]. *)
Record Res (S A : Type) : Type := mkRes {
  retorno : A;
  estado : S;
  saida : list string
}.
Arguments mkRes {S A} _ _ _.
Arguments retorno {S A} _.
Arguments estado {S A} _.
Arguments saida {S A} _.

(** ** The classes *)

(** [Deposito(valor)] and [Saque(valor)], the two implementations of the
    abstract class [Transacao]. *)
Inductive Transacao : Type :=
  | Deposito (valor : float)
  | Saque (valor : float).

Record Historico : Type := mkHistorico {
  transacoes : list Transacao
}.

(** [Conta]: the attribute [cliente] is a reference to the owner. *)
Record Conta : Type := mkConta {
  saldo : float;
  numero : Z;
  agencia : string;
  cliente : nat;
  historico : Historico
}.

(** [ContaCorrente(Conta)]: the inherited attributes and the three the
    subclass adds. *)
Record ContaCorrente : Type := mkContaCorrente {
  base : Conta;
  limite : float;
  limite_saques : Z;
  numero_saques_realizados : Z
}.

Definition com_base (f : Conta -> Conta) (cc : ContaCorrente) : ContaCorrente :=
  {| base := f (base cc);
     limite := limite cc;
     limite_saques := limite_saques cc;
     numero_saques_realizados := numero_saques_realizados cc |}.

(** [str(transacao)]: the methods [__str__] of [Deposito] and [Saque]. *)
Definition str (transacao : Transacao) : string :=
  match transacao with
  | Deposito valor => "[+] Depósito: R$ " +:+ fmt2 valor
  | Saque valor => "[-] Saque:    R$ " +:+ fmt2 valor
  end.

Module Historico.

(** [__init__] *)
Definition init : Historico := {| transacoes := [] |}.

Definition adicionar_transacao (transacao : Transacao) (self : Historico)
  : Historico :=
  {| transacoes := transacoes self ++ [transacao] |}.

(** The loop [for transacao in self._transacoes: relatorio += ...] is the
    left fold over the list. *)
Definition gerar_relatorio (self : Historico) : string :=
  match transacoes self with
  | [] => "Nenhuma transação realizada."
  | _ =>
      fold_left (fun relatorio transacao => relatorio +:+ (str transacao +:+ nl))
                (transacoes self)
                ("--- Extrato de Transações ---" +:+ nl)
  end.

End Historico.

Module Deposito.

(** [conta.saldo += self.valor; conta.historico.adicionar_transacao(self)] *)
Definition registrar (valor : float) (conta : Conta) : Conta :=
  {| saldo := F64.add (saldo conta) valor;
     numero := numero conta;
     agencia := agencia conta;
     cliente := cliente conta;
     historico := Historico.adicionar_transacao (Deposito valor) (historico conta) |}.

End Deposito.

Module Saque.

(** [conta.saldo -= self.valor; conta.historico.adicionar_transacao(self)] *)
Definition registrar (valor : float) (conta : Conta) : Conta :=
  {| saldo := F64.sub (saldo conta) valor;
     numero := numero conta;
     agencia := agencia conta;
     cliente := cliente conta;
     historico := Historico.adicionar_transacao (Saque valor) (historico conta) |}.

End Saque.

Module Transacao.

Definition valor (self : Transacao) : float :=
  match self with Deposito v | Saque v => v end.

(** [transacao.registrar(conta)]: the method of the class of [self]. *)
Definition registrar (self : Transacao) (conta : Conta) : Conta :=
  match self with
  | Deposito valor => Deposito.registrar valor conta
  | Saque valor => Saque.registrar valor conta
  end.

End Transacao.

Module Conta.

(** [__init__], with [agencia] at its default. *)
Definition init (numero : Z) (cliente : nat) : Conta :=
  {| saldo := F64.zero;
     numero := numero;
     agencia := "0001";
     cliente := cliente;
     historico := Historico.init |}.

Definition nova_conta (cliente : nat) (numero : Z) : Conta :=
  init numero cliente.

Definition depositar (valor : float) (self : Conta) : Res Conta bool :=
  if F64.leb valor F64.zero then
    mkRes false self ["Erro: O valor do depósito deve ser positivo."]
  else
    let deposito := Deposito valor in
    mkRes true (Transacao.registrar deposito self)
          ["Depósito realizado com sucesso."].

Definition sacar (valor : float) (self : Conta) : Res Conta bool :=
  if F64.leb valor F64.zero then
    mkRes false self ["Erro: O valor do saque deve ser positivo."]
  else if F64.gtb valor (saldo self) then
    mkRes false self ["Erro: Saldo insuficiente."]
  else
    let saque := Saque valor in
    mkRes true (Transacao.registrar saque self)
          ["Saque realizado com sucesso."].

End Conta.

Module ContaCorrente.

(** [__init__] *)
Definition init (numero : Z) (cliente : nat) (limite : float)
    (limite_saques : Z) : ContaCorrente :=
  {| base := Conta.init numero cliente;
     limite := limite;
     limite_saques := limite_saques;
     numero_saques_realizados := 0 |}.

(** The inherited class method, [limite] and [limite_saques] at their
    defaults [500.0] and [3]. *)
Definition nova_conta (cliente : nat) (numero : Z) : ContaCorrente :=
  init numero cliente (F64.of_Z 500) 3.

(** [depositar] is inherited from [Conta]. *)
Definition depositar (valor : float) (self : ContaCorrente)
  : Res ContaCorrente bool :=
  let r := Conta.depositar valor (base self) in
  mkRes (retorno r) (com_base (fun _ => estado r) self) (saida r).

Definition sacar (valor : float) (self : ContaCorrente)
  : Res ContaCorrente bool :=
  if F64.leb valor F64.zero then
    mkRes false self ["Erro: O valor do saque deve ser positivo."]
  else if numero_saques_realizados self >=? limite_saques self then
    mkRes false self
          ["Erro: Limite de " +:+ str_int (limite_saques self)
             +:+ " saques diários atingido."]
  else
    let saldo_total_disponivel := F64.add (saldo (base self)) (limite self) in
    if F64.gtb valor saldo_total_disponivel then
      mkRes false self
            ["Erro: Valor do saque excede o limite disponível (Saldo + Cheque Especial).";
             "Disponível: R$ " +:+ fmt2 saldo_total_disponivel]
    else
      let saque := Saque valor in
      let self1 := com_base (Transacao.registrar saque) self in
      let self2 :=
        {| base := base self1;
           limite := limite self1;
           limite_saques := limite_saques self1;
           numero_saques_realizados := numero_saques_realizados self1 + 1 |} in
      mkRes true self2 ["Saque realizado com sucesso."].

End ContaCorrente.

(** ** Accounts as objects: dynamic dispatch *)

(** An account object is an instance of [Conta] or of its subclass. *)
Inductive Objeto : Type :=
  | OConta (c : Conta)
  | OCorrente (cc : ContaCorrente).

Module Objeto.

(** The attributes every account has. *)
Definition conta (o : Objeto) : Conta :=
  match o with OConta c => c | OCorrente cc => base cc end.

(** [_numero_saques_realizados], which only a [ContaCorrente] has. *)
Definition contador (o : Objeto) : option Z :=
  match o with
  | OConta _ => None
  | OCorrente cc => Some (numero_saques_realizados cc)
  end.

Definition em {A : Type} (r : Res Conta A) : Res Objeto A :=
  mkRes (retorno r) (OConta (estado r)) (saida r).

Definition em_corrente {A : Type} (r : Res ContaCorrente A) : Res Objeto A :=
  mkRes (retorno r) (OCorrente (estado r)) (saida r).

(** [conta.depositar(valor)] *)
Definition depositar (valor : float) (o : Objeto) : Res Objeto bool :=
  match o with
  | OConta c => em (Conta.depositar valor c)
  | OCorrente cc => em_corrente (ContaCorrente.depositar valor cc)
  end.

(** [conta.sacar(valor)] *)
Definition sacar (valor : float) (o : Objeto) : Res Objeto bool :=
  match o with
  | OConta c => em (Conta.sacar valor c)
  | OCorrente cc => em_corrente (ContaCorrente.sacar valor cc)
  end.

(** [transacao.registrar(conta)] *)
Definition registrar (transacao : Transacao) (o : Objeto) : Objeto :=
  match o with
  | OConta c => OConta (Transacao.registrar transacao c)
  | OCorrente cc => OCorrente (com_base (Transacao.registrar transacao) cc)
  end.

End Objeto.

(** ** Clients and the store of accounts *)

(** Addresses of account objects. *)
Definition ref : Type := nat.

Record Cliente : Type := mkCliente {
  endereco : string;
  contas : list ref
}.

Module Cliente.

Definition init (endereco : string) : Cliente :=
  {| endereco := endereco; contas := [] |}.

Definition adicionar_conta (conta : ref) (self : Cliente) : Cliente :=
  {| endereco := endereco self; contas := contas self ++ [conta] |}.

(** [realizar_transacao] returns [None] on both paths; it mutates the
    account at address [conta] in the store. *)
Definition realizar_transacao (conta : ref) (transacao : Transacao)
    (self : Cliente) (mem : gmap ref Objeto) : Res (gmap ref Objeto) unit :=
  if bool_decide (conta ∈ contas self) then
    mkRes tt (alter (Objeto.registrar transacao) conta mem) []
  else
    mkRes tt mem ["Erro: O cliente não possui esta conta."].

End Cliente.

(** ** Sequences of calls *)

(** A call of one of the two validated operations of an account. *)
Inductive Chamada : Type :=
  | Depositar (valor : float)
  | Sacar (valor : float).

Definition chamar (c : Chamada) (o : Objeto) : Res Objeto bool :=
  match c with
  | Depositar valor => Objeto.depositar valor o
  | Sacar valor => Objeto.sacar valor o
  end.

Definition executar (cs : list Chamada) (o : Objeto) : Objeto :=
  fold_left (fun o c => estado (chamar c o)) cs o.

(** An operation on an account by either entry point: a validated call, or
    a transaction applied through [Cliente.realizar_transacao] by a client
    that has the account. *)
Inductive Operacao : Type :=
  | Validada (c : Chamada)
  | Direta (transacao : Transacao).

Definition operar (op : Operacao) (o : Objeto) : Objeto :=
  match op with
  | Validada c => estado (chamar c o)
  | Direta transacao => Objeto.registrar transacao o
  end.

Definition operar_todas (ops : list Operacao) (o : Objeto) : Objeto :=
  fold_left (fun o op => operar op o) ops o.

(** ** Signed sums *)

(** The signed amount of a transaction and the sum of a history, added in
    the order of the history from [0.0]. *)
Definition valor_assinado (t : Transacao) : float :=
  match t with
  | Deposito valor => valor
  | Saque valor => F64.opp valor
  end.

Definition soma_assinada (ts : list Transacao) : float :=
  fold_left (fun acc t => F64.add acc (valor_assinado t)) ts F64.zero.

(** ** Texts and lines *)

(** The text made of the lines [ls], each followed by a newline. *)
Definition em_linhas (ls : list string) : string :=
  fold_right (fun l resto => l +:+ (nl +:+ resto)) EmptyString ls.

(** The string holds no newline. *)
Fixpoint sem_nl (s : string) : bool :=
  match s with
  | EmptyString => true
  | String c s' => negb (Ascii.eqb c (ascii_of_nat 10)) && sem_nl s'
  end.

(** The lines of a text, cut at the newlines as [str.splitlines] does. *)
Fixpoint linhas (s : string) : list string :=
  match s with
  | EmptyString => []
  | String c s' =>
      if Ascii.eqb c (ascii_of_nat 10) then EmptyString :: linhas s'
      else match linhas s' with
           | [] => [String c EmptyString]
           | l :: ls => String c l :: ls
           end
  end.

(** ** Invariants and states used in the statements *)

(** The balance agrees with the history. *)
Definition coerente (c : Conta) : Prop :=
  saldo c = soma_assinada (transacoes (historico c)).

(** The state a [ContaCorrente] is in after a successful [sacar]. *)
Definition apos_saque (valor : float) (cc : ContaCorrente) : ContaCorrente :=
  {| base := Transacao.registrar (Saque valor) (base cc);
     limite := limite cc;
     limite_saques := limite_saques cc;
     numero_saques_realizados := numero_saques_realizados cc + 1 |}.

(** A fresh [ContaCorrente] after three successful withdrawals of [1.0]. *)
Definition tres_saques : ContaCorrente :=
  let um := F64.of_Z 1 in
  let cc := ContaCorrente.nova_conta 0 1 in
  let cc := estado (ContaCorrente.sacar um cc) in
  let cc := estado (ContaCorrente.sacar um cc) in
  estado (ContaCorrente.sacar um cc).

(** A fresh [ContaCorrente] after one successful withdrawal of [1.0]: the
    balance is [-1.0] and the counter is below its limit. *)
Definition um_saque : ContaCorrente :=
  estado (ContaCorrente.sacar (F64.of_Z 1) (ContaCorrente.nova_conta 0 1)).

(** A fresh [ContaCorrente] after the deposit of [12.07]. *)
Definition com_12_07 : ContaCorrente :=
  estado (ContaCorrente.depositar (F64.of_frac 1207 100)
                                  (ContaCorrente.nova_conta 0 1)).

(** The amount a call passes. *)
Definition valor_da_chamada (c : Chamada) : float :=
  match c with Depositar valor | Sacar valor => valor end.

(** ** Withdrawals counted, and what identifies an account *)

(** [isinstance(t, Saque)] *)
Definition e_saque (t : Transacao) : bool :=
  match t with Saque _ => true | Deposito _ => false end.

(** The number of withdrawals in a history. *)
Definition n_saques (ts : list Transacao) : Z :=
  Z.of_nat (length (filter (fun t => e_saque t = true) ts)).

(** The counter of a [ContaCorrente] counts the withdrawals of its history,
    and is within its limit. *)
Definition contado (cc : ContaCorrente) : Prop :=
  numero_saques_realizados cc = n_saques (transacoes (historico (base cc)))
  /\ 0 <= numero_saques_realizados cc <= Z.max 0 (limite_saques cc).

(** The two limits of a [ContaCorrente]; a [Conta] has none. *)
Definition limites (o : Objeto) : option (float * Z) :=
  match o with
  | OConta _ => None
  | OCorrente cc => Some (limite cc, limite_saques cc)
  end.

(** The attributes of an account that no method assigns after [__init__]. *)
Definition identidade (o : Objeto) : Z * string * nat * option (float * Z) :=
  (numero (Objeto.conta o), agencia (Objeto.conta o), cliente (Objeto.conta o),
   limites o).

(** [type(o) is type(o')] *)
Definition mesma_classe (o o' : Objeto) : bool :=
  match o, o' with
  | OConta _, OConta _ | OCorrente _, OCorrente _ => true
  | _, _ => false
  end.

(** ** Individuals *)

(** A [datetime.date]. *)
Record Data : Type := mkData {
  ano : Z;
  mes : Z;
  dia : Z
}.

(** [PessoaFisica(Cliente)]: the inherited attributes and the three the
    subclass adds. *)
Record PessoaFisica : Type := mkPessoaFisica {
  como_cliente : Cliente;
  cpf : string;
  nome : string;
  data_nascimento : Data
}.

Module PessoaFisica.

(** [__init__] *)
Definition init (cpf nome : string) (data_nascimento : Data)
    (endereco : string) : PessoaFisica :=
  {| como_cliente := Cliente.init endereco;
     cpf := cpf;
     nome := nome;
     data_nascimento := data_nascimento |}.

(** [__str__] *)
Definition str (self : PessoaFisica) : string :=
  "Cliente: " +:+ nome self +:+ " (CPF: " +:+ cpf self +:+ ")".

(** [adicionar_conta] is inherited from [Cliente]. *)
Definition adicionar_conta (conta : ref) (self : PessoaFisica) : PessoaFisica :=
  {| como_cliente := Cliente.adicionar_conta conta (como_cliente self);
     cpf := cpf self;
     nome := nome self;
     data_nascimento := data_nascimento self |}.

End PessoaFisica.

(** [Conta.__str__]; [titular] is the object that [self.cliente] refers to,
    when it is a [PessoaFisica], which has the attribute [nome]. *)
Definition str_conta (titular : option PessoaFisica) (self : Conta) : string :=
  let nome_cliente :=
    match titular with Some p => nome p | None => "Cliente" end in
  "Agência: " +:+ agencia self +:+ " | Conta: " +:+ str_int (numero self)
    +:+ " | Titular: " +:+ nome_cliente.

(** ** Builtins of the interpreter *)

(** [int(s)] and [float(s)] on a string, [None] standing for [ValueError].
    The development is parametric in them. *)
Record Builtins : Type := mkBuiltins {
  py_int : string -> option Z;
  py_float : string -> option float
}.

(** [s.split(sep)] for a separator of one character. *)
Fixpoint split (sep : ascii) (s : string) : list string :=
  match s with
  | EmptyString => [EmptyString]
  | String c s' =>
      if Ascii.eqb c sep then EmptyString :: split sep s'
      else match split sep s' with
           | [] => [String c EmptyString]
           | p :: ps => String c p :: ps
           end
  end.

(** What the constructor [date(ano, mes, dia)] does: an argument that does
    not fit a C [int] raises [OverflowError]; otherwise, a date outside the
    calendar raises [ValueError]. *)
Inductive ResData : Type :=
  | DataOk (d : Data)
  | DataValueError
  | DataOverflowError.

Definition cabe_em_int (z : Z) : bool := (- 2 ^ 31 <=? z) && (z <=? 2 ^ 31 - 1).

Definition bissexto (a : Z) : bool :=
  (a mod 4 =? 0) && (negb (a mod 100 =? 0) || (a mod 400 =? 0)).

Definition dias_no_mes (a m : Z) : Z :=
  if m =? 2 then (if bissexto a then 29 else 28)
  else if (m =? 4) || (m =? 6) || (m =? 9) || (m =? 11) then 30
  else 31.

Definition data_valida (d : Data) : bool :=
  (1 <=? ano d) && (ano d <=? 9999) && (1 <=? mes d) && (mes d <=? 12)
  && (1 <=? dia d) && (dia d <=? dias_no_mes (ano d) (mes d)).

Definition date (ano mes dia : Z) : ResData :=
  if negb (cabe_em_int ano && cabe_em_int mes && cabe_em_int dia)
  then DataOverflowError
  else if data_valida (mkData ano mes dia) then DataOk (mkData ano mes dia)
  else DataValueError.

(** ** The console *)

(** What the program does on the terminal: [print(linha)] and the prompt of
    [input(prompt)]. *)
Inductive Evento : Type :=
  | Escreve (linha : string)
  | Pergunta (prompt : string).

(** The lines still to be read and what was written so far. *)
Record Console : Type := mkConsole {
  stdin : list string;
  stdout : list Evento
}.

(** The exceptions that no handler of the program catches: [input] at the
    end of the input, [date] on an argument out of the range of [int], and,
    in the model only, the use of a reference to no object. *)
Inductive Excecao : Type :=
  | EOFError
  | OverflowError
  | SemObjeto.

Inductive Resultado (A : Type) : Type :=
  | Normal (a : A)
  | Levanta (e : Excecao).
Arguments Normal {A} _.
Arguments Levanta {A} _.

(** A computation that reads and writes on the console and may raise. *)
Definition IO (A : Type) : Type := Console -> Resultado A * Console.

#[global] Instance io_ret : MRet IO := fun A a c => (Normal a, c).

#[global] Instance io_bind : MBind IO := fun A B f m c =>
  match m c with
  | (Normal a, c') => f a c'
  | (Levanta e, c') => (Levanta e, c')
  end.

Definition levantar {A : Type} (e : Excecao) : IO A := fun c => (Levanta e, c).

Definition print (linha : string) : IO unit := fun c =>
  (Normal tt, {| stdin := stdin c; stdout := stdout c ++ [Escreve linha] |}).

Definition input (prompt : string) : IO string := fun c =>
  let saida := stdout c ++ [Pergunta prompt] in
  match stdin c with
  | [] => (Levanta EOFError, {| stdin := []; stdout := saida |})
  | linha :: resto => (Normal linha, {| stdin := resto; stdout := saida |})
  end.

(** [for x in l: f(x)] *)
Fixpoint para_cada {A : Type} (f : A -> IO unit) (l : list A) : IO unit :=
  match l with
  | [] => mret tt
  | x :: l' => f x ;; para_cada f l'
  end.

(** ** The menu program *)

(** The state of [main]: the list [clientes], the list [contas] and the
    account objects the references denote.  A client is referred to by its
    position in [clientes]. *)
Record Banco : Type := mkBanco {
  clientes : list PessoaFisica;
  contas_main : list ref;
  mem : gmap ref Objeto
}.

Definition banco_vazio : Banco :=
  {| clientes := []; contas_main := []; mem := ∅ |}.

Definition menu : IO string :=
  print (nl +:+ "--- Sistema Bancário v2 (POO) ---") ;;
  print "1. Criar Novo Cliente" ;;
  print "2. Criar Nova Conta Corrente" ;;
  print "3. Listar Contas de um Cliente" ;;
  print "4. Depositar" ;;
  print "5. Sacar" ;;
  print "6. Ver Extrato" ;;
  print "0. Sair" ;;
  input "Escolha uma opção: ".

(** The client found, with its position, which is the reference to it. *)
Definition filtrar_cliente_por_cpf (cpf_procurado : string)
    (clientes : list PessoaFisica) : option (nat * PessoaFisica) :=
  let clientes_encontrados :=
    filter (fun ic : nat * PessoaFisica => cpf ic.2 = cpf_procurado)
           (imap pair clientes) in
  head clientes_encontrados.

(** The object a reference denotes. *)
Definition objeto (b : Banco) (conta : ref) : IO Objeto :=
  match mem b !! conta with
  | Some o => mret o
  | None => levantar SemObjeto
  end.

(** [str(conta)] *)
Definition str_da_conta (b : Banco) (conta : ref) : IO string :=
  o ← objeto b conta;
  mret (str_conta (clientes b !! cliente (Objeto.conta o)) (Objeto.conta o)).

Definition get_conta_cliente (B : Builtins) (b : Banco) (pessoa : PessoaFisica)
  : IO (option ref) :=
  let contas := contas (como_cliente pessoa) in
  match contas with
  | [] => print "Erro: Este cliente não possui contas." ;; mret None
  | [conta] => mret (Some conta)
  | _ =>
      print "Selecione a conta:" ;;
      para_cada (fun ic : nat * ref =>
                   s ← str_da_conta b ic.2;
                   print (str_int (Z.of_nat ic.1 + 1) +:+ ". " +:+ s))
                (imap pair contas) ;;
      linha ← input "Número da conta: ";
      match py_int B linha with
      | Some n =>
          let idx := n - 1 in
          if (0 <=? idx) && (idx <? Z.of_nat (length contas))
          then mret (contas !! Z.to_nat idx)
          else print "Seleção inválida." ;; mret None
      | None => print "Entrada inválida." ;; mret None
      end
  end.

(** [date(2000, 1, 1)] *)
Definition data_padrao : Data := mkData 2000 1 1.

(** The [try] block of option 1: [ValueError] (a wrong number of fields, a
    field that is no integer, a date outside the calendar) is caught and
    gives the default date; [OverflowError] is not caught. *)
Definition ler_data (B : Builtins) (dt_nasc_str : string) : IO Data :=
  let padrao :=
    print "Formato de data inválido. Usando data padrão." ;; mret data_padrao in
  match split "-" dt_nasc_str with
  | [d; m; a] =>
      match py_int B d, py_int B m, py_int B a with
      | Some dia, Some mes, Some ano =>
          match date ano mes dia with
          | DataOk data_nascimento => mret data_nascimento
          | DataValueError => padrao
          | DataOverflowError => levantar OverflowError
          end
      | _, _, _ => padrao
      end
  | _ => padrao
  end.

(** Option 1 of [main]. *)
Definition criar_cliente (B : Builtins) (b : Banco) : IO Banco :=
  print "--- Novo Cliente (Pessoa Física) ---" ;;
  cpf ← input "CPF (só números): ";
  match filtrar_cliente_por_cpf cpf (clientes b) with
  | Some _ => print "Erro: Já existe um cliente com este CPF." ;; mret b
  | None =>
      nome ← input "Nome completo: ";
      dt_nasc_str ← input "Data de Nascimento (DD-MM-AAAA): ";
      data_nascimento ← ler_data B dt_nasc_str;
      endereco ← input "Endereço (Rua, N - Bairro, Cidade/Sigla): ";
      let novo_cliente := PessoaFisica.init cpf nome data_nascimento endereco in
      print ("Cliente '" +:+ nome +:+ "' criado com sucesso!") ;;
      mret {| clientes := clientes b ++ [novo_cliente];
              contas_main := contas_main b;
              mem := mem b |}
  end.

(** Option 2 of [main].  The new account object gets a reference that no
    object has. *)
Definition criar_conta (b : Banco) : IO Banco :=
  print "--- Nova Conta Corrente ---" ;;
  cpf_cliente ← input "CPF do titular: ";
  match filtrar_cliente_por_cpf cpf_cliente (clientes b) with
  | None => print "Erro: Cliente não encontrado. Crie o cliente primeiro." ;; mret b
  | Some (i, pessoa) =>
      let numero_conta := Z.of_nat (length (contas_main b)) + 1 in
      let nova_conta := ContaCorrente.nova_conta i numero_conta in
      let r : ref := fresh (dom (mem b)) in
      print ("Conta Corrente " +:+ str_int (numero (base nova_conta))
               +:+ " criada para " +:+ nome pessoa +:+ ".") ;;
      mret {| clientes := alter (PessoaFisica.adicionar_conta r) i (clientes b);
              contas_main := contas_main b ++ [r];
              mem := <[r := OCorrente nova_conta]> (mem b) |}
  end.

(** Option 3 of [main]. *)
Definition listar_contas (b : Banco) : IO Banco :=
  cpf_cliente ← input "CPF do titular: ";
  match filtrar_cliente_por_cpf cpf_cliente (clientes b) with
  | None => print "Erro: Cliente não encontrado." ;; mret b
  | Some (_, pessoa) =>
      match contas (como_cliente pessoa) with
      | [] =>
          print ("Cliente " +:+ nome pessoa +:+ " não possui contas cadastradas.") ;;
          mret b
      | contas_do_cliente =>
          print ("--- Contas de " +:+ nome pessoa +:+ " ---") ;;
          para_cada (fun conta => s ← str_da_conta b conta; print ("  > " +:+ s))
                    contas_do_cliente ;;
          mret b
      end
  end.

(** Options 4 and 5 of [main]: [metodo] is [conta.depositar] or
    [conta.sacar], and [prompt] the question on the amount. *)
Definition movimentar (B : Builtins) (prompt : string)
    (metodo : float -> Objeto -> Res Objeto bool) (b : Banco) : IO Banco :=
  cpf_cliente ← input "CPF do titular: ";
  match filtrar_cliente_por_cpf cpf_cliente (clientes b) with
  | None => print "Erro: Cliente não encontrado." ;; mret b
  | Some (_, pessoa) =>
      conta ← get_conta_cliente B b pessoa;
      match conta with
      | None => mret b
      | Some r =>
          linha ← input prompt;
          match py_float B linha with
          | None => print "Erro: Valor inválido." ;; mret b
          | Some valor =>
              o ← objeto b r;
              let res := metodo valor o in
              para_cada print (saida res) ;;
              mret {| clientes := clientes b;
                      contas_main := contas_main b;
                      mem := <[r := estado res]> (mem b) |}
          end
      end
  end.

Definition depositar_main (B : Builtins) : Banco -> IO Banco :=
  movimentar B "Valor do depósito: R$ " Objeto.depositar.

Definition sacar_main (B : Builtins) : Banco -> IO Banco :=
  movimentar B "Valor do saque: R$ " Objeto.sacar.

(** Option 6 of [main]. *)
Definition ver_extrato (B : Builtins) (b : Banco) : IO Banco :=
  cpf_cliente ← input "CPF do titular: ";
  match filtrar_cliente_por_cpf cpf_cliente (clientes b) with
  | None => print "Erro: Cliente não encontrado." ;; mret b
  | Some (_, pessoa) =>
      conta ← get_conta_cliente B b pessoa;
      match conta with
      | None => mret b
      | Some r =>
          o ← objeto b r;
          let c := Objeto.conta o in
          print (nl +:+ "--- Extrato da Conta " +:+ str_int (numero c) +:+ " ---") ;;
          print ("Titular: " +:+ nome pessoa) ;;
          print (Historico.gerar_relatorio (historico c)) ;;
          print "---------------------------------" ;;
          print ("Saldo Atual:     R$ " +:+ fmt2 (saldo c)) ;;
          match o with
          | OCorrente cc =>
              print ("Cheque Especial: R$ " +:+ fmt2 (limite cc)) ;;
              print ("Disponível total: R$ "
                       +:+ fmt2 (F64.add (saldo c) (limite cc))) ;;
              mret b
          | OConta _ => mret b
          end
      end
  end.

(** One turn of the loop of [main]: the state after it, and whether the
    loop goes on. *)
Definition iteracao (B : Builtins) (b : Banco) : IO (Banco * bool) :=
  opcao ← menu;
  if String.eqb opcao "1" then b' ← criar_cliente B b; mret (b', true)
  else if String.eqb opcao "2" then b' ← criar_conta b; mret (b', true)
  else if String.eqb opcao "3" then b' ← listar_contas b; mret (b', true)
  else if String.eqb opcao "4" then b' ← depositar_main B b; mret (b', true)
  else if String.eqb opcao "5" then b' ← sacar_main B b; mret (b', true)
  else if String.eqb opcao "6" then b' ← ver_extrato B b; mret (b', true)
  else if String.eqb opcao "0" then
    print "Obrigado por usar o sistema!" ;; mret (b, false)
  else print "Opção inválida. Tente novamente." ;; mret (b, true).

(** The loop [while True], for at most [turnos] turns: [None] when the turns
    are used up before the loop is left. *)
Fixpoint laco (B : Builtins) (turnos : nat) (b : Banco) : IO (option Banco) :=
  match turnos with
  | O => mret None
  | S turnos' =>
      r ← iteracao B b;
      let '(b', continuar) := (r : Banco * bool) in
      if continuar then laco B turnos' b' else mret (Some b')
  end.

(** [main()], with the state in which it returns. *)
Definition main (B : Builtins) (turnos : nat) : IO (option Banco) :=
  laco B turnos banco_vazio.

(** The states of [main] at the start of a turn of its loop. *)
Inductive alcancavel (B : Builtins) : Banco -> Prop :=
  | alcancavel_inicio : alcancavel B banco_vazio
  | alcancavel_turno (b b' : Banco) (c c' : Console) :
      alcancavel B b ->
      iteracao B b c = (Normal (b', true), c') ->
      alcancavel B b'.

(** Parsers of plain decimal numerals (digits, with [-] before them or
    not), for the examples.  They accept fewer strings than [int] and
    [float]; on those they accept they give what [int] gives, and what
    [float] gives but for the sign of a zero. *)
Definition int_decimal (s : string) : option Z :=
  Z.of_int <$> NilZero.int_of_string s.

Definition builtins_de_exemplo : Builtins :=
  {| py_int := int_decimal;
     py_float := fun s => F64.of_Z <$> int_decimal s |}.

(** The computation reads the input in order: what is left to be read is
    an end of what there was. *)
Definition nao_cresce {A : Type} (m : IO A) : Prop :=
  forall (c c' : Console) (r : Resultado A),
    m c = (r, c') -> stdin c' `suffix_of` stdin c.

(** What holds of the state of [main] at every turn. *)
Record consistente (b : Banco) : Prop := mkConsistente {
  cs_cpf : NoDup (cpf <$> clientes b);
  cs_registro : NoDup (contas_main b);
  cs_dom : forall r : ref, r ∈ contas_main b <-> is_Some (mem b !! r);
  cs_conta : forall (i : nat) (r : ref),
      contas_main b !! i = Some r ->
      exists cc : ContaCorrente,
        mem b !! r = Some (OCorrente cc)
        /\ numero (base cc) = Z.of_nat i + 1
        /\ agencia (base cc) = "0001"
        /\ limite cc = F64.of_Z 500 /\ limite_saques cc = 3
        /\ coerente (base cc) /\ contado cc
        /\ exists p : PessoaFisica,
             clientes b !! cliente (base cc) = Some p
             /\ r ∈ contas (como_cliente p);
  cs_dono : forall (i : nat) (p : PessoaFisica) (r : ref),
      clientes b !! i = Some p -> r ∈ contas (como_cliente p) ->
      exists cc : ContaCorrente,
        mem b !! r = Some (OCorrente cc) /\ cliente (base cc) = i;
  cs_sem_repeticao : forall (i : nat) (p : PessoaFisica),
      clientes b !! i = Some p -> NoDup (contas (como_cliente p));
  cs_data : forall p : PessoaFisica,
      p ∈ clientes b -> data_valida (data_nascimento p) = true
}.

(** The computation raises nothing but [EOFError], with the input used up,
    and [OverflowError]. *)
Definition so_fim_ou_overflow {A : Type} (m : IO A) : Prop :=
  forall (c c' : Console) (e : Excecao),
    m c = (Levanta e, c') ->
    (e = EOFError /\ stdin c' = []) \/ e = OverflowError.

(** A session for the examples: two clients, three accounts, a deposit, a
    withdrawal, a statement, and the exit. *)
Definition sessao_de_exemplo : list string :=
  ["1"; "111"; "Ana"; "29-02-2000"; "Rua A, 1";
   "1"; "222"; "Bia"; "31-04-2001"; "Rua B, 2";
   "1"; "111"; 
   "2"; "111"; "2"; "222"; "2"; "111";
   "4"; "111"; "2"; "100";
   "5"; "111"; "2"; "30";
   "6"; "222";
   "9"; "0"].

(** The state in which [main] returns on that session. *)
Definition banco_de_exemplo : Banco :=
  match main builtins_de_exemplo 100 (mkConsole sessao_de_exemplo []) with
  | (Normal (Some b), _) => b
  | _ => banco_vazio
  end.

(** The computation reads nothing. *)
Definition nao_le {A : Type} (m : IO A) : Prop :=
  forall (c c' : Console) (r : Resultado A), m c = (r, c') -> stdin c' = stdin c.

(** The client Ana of [banco_de_exemplo], who has two accounts. *)
Definition ana : PessoaFisica :=
  default (PessoaFisica.init "" "" data_padrao "") (clientes banco_de_exemplo !! 0%nat).

(** What [menu] writes: its eight lines and its question. *)
Definition tela_do_menu : list Evento :=
  stdout (menu {| stdin := []; stdout := [] |}).2.

(** The last line of a turn that refuses the CPF typed in. *)
Definition erro_de_cpf (opcao : string) : string :=
  if String.eqb opcao "1" then "Erro: Já existe um cliente com este CPF."
  else if String.eqb opcao "2"
       then "Erro: Cliente não encontrado. Crie o cliente primeiro."
       else "Erro: Cliente não encontrado.".

(** The number of the account that [conta] denotes. *)
Definition numero_de (b : Banco) (conta : ref) : Z :=
  match mem b !! conta with
  | Some o => numero (Objeto.conta o)
  | None => 0
  end.

(** * Properties *)

(** ** Binary64 arithmetic *)

Module F64Facts.

(** Subtracting is adding the opposite, on every pair of values. *)
Lemma sub_add_opp (x y : float) : F64.sub x y = F64.add x (F64.opp y).
Proof.
  unfold F64.sub, F64.add, F64.opp.
  destruct x as [sx|sx| |sx mx ex], y as [sy|sy| |sy my ey];
    try reflexivity;
    destruct sx, sy; reflexivity.
Qed.

(** [x == x] holds for every value but NaN. *)
Lemma eqb_refl (x : float) : F64.is_nan x = false -> F64.eqb x x = true.
Proof.
  unfold F64.eqb, SFeqb.
  destruct x as [s|s| |s m e]; cbn; try reflexivity; try discriminate.
  - destruct s; reflexivity.
  - intros _. rewrite Z.compare_refl.
    assert (H : Pos.compare_cont Eq m m = Eq) by apply Pos.compare_cont_refl.
    destruct s; rewrite H; reflexivity.
Qed.

(** *** The number of binary digits *)

Lemma fexp_eq (z : Z) : fexp F64.prec F64.emax z = Z.max (z - 53) (-1074).
Proof. reflexivity. Qed.

Lemma digits2_log2 (m : positive) :
  Zpos (digits2_pos m) = Z.log2 (Zpos m) + 1.
Proof.
  assert (H : forall p, digits2_pos p = Pos.size p).
  { induction p as [p IH|p IH|]; cbn; congruence. }
  rewrite H. destruct m as [p|p|]; cbn; try reflexivity; lia.
Qed.

Lemma Zdigits2_bounds (m : Z) :
  0 < m -> 2 ^ (Zdigits2 m - 1) <= m < 2 ^ Zdigits2 m /\ 1 <= Zdigits2 m.
Proof.
  intros H. destruct m as [|p|p]; try lia. cbn [Zdigits2].
  rewrite digits2_log2.
  pose proof (Z.log2_spec (Zpos p) H) as S.
  pose proof (Z.log2_nonneg (Zpos p)) as N.
  replace (Z.log2 (Zpos p) + 1 - 1) with (Z.log2 (Zpos p)) by lia.
  replace (Z.log2 (Zpos p) + 1) with (Z.succ (Z.log2 (Zpos p))) by lia.
  split; [exact S | lia].
Qed.

Lemma Zdigits2_unique (m d : Z) :
  1 <= d -> 2 ^ (d - 1) <= m < 2 ^ d -> Zdigits2 m = d.
Proof.
  intros Hd H.
  assert (Hm : 0 < m) by (pose proof (Z.pow_pos_nonneg 2 (d - 1)); lia).
  destruct m as [|p|p]; try lia. cbn [Zdigits2]. rewrite digits2_log2.
  assert (Z.log2 (Zpos p) = d - 1); [|lia].
  apply Z.log2_unique; [lia|]. replace (Z.succ (d - 1)) with d by lia. exact H.
Qed.

Lemma Zdigits2_nonneg (m : Z) : 0 <= Zdigits2 m.
Proof. destruct m; cbn; lia. Qed.

(** dropping the [n] low bits *)
Lemma Zdigits2_div (m n : Z) :
  0 < m -> 0 <= n < Zdigits2 m -> Zdigits2 (m / 2 ^ n) = Zdigits2 m - n.
Proof.
  intros Hm Hn. destruct (Zdigits2_bounds m Hm) as [[Hlo Hhi] Hd].
  assert (P : 0 < 2 ^ n) by (apply Z.pow_pos_nonneg; lia).
  apply Zdigits2_unique; [lia|]. split.
  - apply Z.div_le_lower_bound; [lia|].
    rewrite <- Z.pow_add_r by lia.
    replace (n + (Zdigits2 m - n - 1)) with (Zdigits2 m - 1) by lia. exact Hlo.
  - apply Z.div_lt_upper_bound; [lia|].
    rewrite <- Z.pow_add_r by lia.
    replace (n + (Zdigits2 m - n)) with (Zdigits2 m) by lia. exact Hhi.
Qed.

Lemma div_pow2_small (m n : Z) :
  0 <= m -> Zdigits2 m <= n -> m / 2 ^ n = 0.
Proof.
  intros Hm Hn. destruct (Z.eq_dec m 0) as [->|Hne].
  - apply Z.div_0_l. pose proof (Z.pow_pos_nonneg 2 n). pose proof (Zdigits2_nonneg 0). lia.
  - apply Z.div_small. destruct (Zdigits2_bounds m) as [[_ Hhi] Hd]; [lia|].
    split; [lia|]. eapply Z.lt_le_trans; [exact Hhi|].
    apply Z.pow_le_mono_r; lia.
Qed.

Lemma Zdigits2_mul (m d : Z) :
  0 < m -> 0 <= d -> Zdigits2 (m * 2 ^ d) = Zdigits2 m + d.
Proof.
  intros Hm Hd. destruct (Zdigits2_bounds m Hm) as [[Hlo Hhi] H1].
  assert (P : 0 < 2 ^ d) by (apply Z.pow_pos_nonneg; lia).
  apply Zdigits2_unique; [lia|].
  replace (Zdigits2 m + d - 1) with ((Zdigits2 m - 1) + d) by lia.
  rewrite !Z.pow_add_r by lia. split; nia.
Qed.

(** adding one adds at most one digit, and then yields a power of two *)
Lemma Zdigits2_succ (m : Z) :
  0 < m ->
  Zdigits2 (m + 1) = Zdigits2 m
  \/ (Zdigits2 (m + 1) = Zdigits2 m + 1 /\ m + 1 = 2 ^ Zdigits2 m).
Proof.
  intros Hm. destruct (Zdigits2_bounds m Hm) as [[Hlo Hhi] H1].
  destruct (Z.eq_dec (m + 1) (2 ^ Zdigits2 m)) as [E|N].
  - right. split; [|exact E]. apply Zdigits2_unique; [lia|].
    replace (Zdigits2 m + 1 - 1) with (Zdigits2 m) by lia.
    rewrite Z.pow_add_r by lia. lia.
  - left. apply Zdigits2_unique; lia.
Qed.

(** *** Shifting a mantissa right *)
Lemma shr_1_m (mrs : shr_record) :
  0 <= shr_m mrs -> shr_m (shr_1 mrs) = shr_m mrs / 2.
Proof.
  destruct mrs as [m r s]. cbn [shr_m]. intros H. unfold shr_1.
  destruct m as [|[p|p|]|p]; cbn [shr_m]; try lia.
  - reflexivity.
  - rewrite Pos2Z.inj_xI. apply Z.div_unique with (r := 1); lia.
  - rewrite Pos2Z.inj_xO. apply Z.div_unique with (r := 0); lia.
  - reflexivity.
Qed.

Lemma iter_shr_1_m (p : positive) (mrs : shr_record) :
  0 <= shr_m mrs ->
  shr_m (SpecFloat.iter_pos shr_1 p mrs) = shr_m mrs / 2 ^ Zpos p.
Proof.
  revert mrs. induction p as [p IH|p IH|]; intros mrs H; cbn [SpecFloat.iter_pos].
  - assert (H1 : 0 <= shr_m (shr_1 mrs)).
    { rewrite shr_1_m by assumption. apply Z.div_pos; lia. }
    assert (P : 0 < 2 ^ Zpos p) by (apply Z.pow_pos_nonneg; lia).
    assert (H2 : 0 <= shr_m (SpecFloat.iter_pos shr_1 p (shr_1 mrs))).
    { rewrite IH by assumption. apply Z.div_pos; lia. }
    rewrite IH, IH, shr_1_m by assumption.
    rewrite !Z.div_div by lia.
    f_equal. replace (Zpos p~1) with (Zpos p + Zpos p + 1) by lia.
    rewrite !Z.pow_add_r by lia. change (2 ^ 1) with 2. lia.
  - assert (P : 0 < 2 ^ Zpos p) by (apply Z.pow_pos_nonneg; lia).
    assert (H2 : 0 <= shr_m (SpecFloat.iter_pos shr_1 p mrs)).
    { rewrite IH by assumption. apply Z.div_pos; lia. }
    rewrite IH, IH by assumption.
    rewrite !Z.div_div by lia.
    f_equal. replace (Zpos p~0) with (Zpos p + Zpos p) by lia.
    rewrite !Z.pow_add_r by lia. reflexivity.
  - rewrite shr_1_m by assumption. reflexivity.
Qed.

Lemma shr_record_of_loc_m (m : Z) (l : location) :
  shr_m (shr_record_of_loc m l) = m.
Proof. destruct l as [|[]]; reflexivity. Qed.

(** [shr_fexp] on a non-negative mantissa: the shift and the new exponent *)
Lemma shr_fexp_spec (m e : Z) (l : location) :
  0 <= m ->
  let n := fexp F64.prec F64.emax (Zdigits2 m + e) - e in
  shr_m (fst (shr_fexp F64.prec F64.emax m e l)) = (if 0 <? n then m / 2 ^ n else m)
  /\ snd (shr_fexp F64.prec F64.emax m e l) = (if 0 <? n then e + n else e).
Proof.
  intros Hm n. unfold shr_fexp, shr. fold n.
  destruct n as [|p|p] eqn:E; cbn [fst snd Z.ltb Z.compare].
  - split; [apply shr_record_of_loc_m | reflexivity].
  - split; [|reflexivity].
    rewrite iter_shr_1_m; rewrite shr_record_of_loc_m; [reflexivity | assumption].
  - split; [apply shr_record_of_loc_m | reflexivity].
Qed.


(** *** Rounding to the format *)

Lemma round_nearest_even_cases (m : Z) (l : location) :
  round_nearest_even m l = m \/ round_nearest_even m l = m + 1.
Proof.
  unfold round_nearest_even. destruct l as [|[]]; auto.
  destruct (Z.even m); auto.
Qed.

(** Truncating a mantissa that has at least as many digits as its exponent
    allows: the result is in canonical form, or it is zero at the least
    exponent. *)
Lemma shr_fexp_canonical (m e : Z) (l : location) :
  0 < m ->
  e <= fexp F64.prec F64.emax (Zdigits2 m + e) ->
  let m' := shr_m (fst (shr_fexp F64.prec F64.emax m e l)) in
  let e' := snd (shr_fexp F64.prec F64.emax m e l) in
  (0 < m' /\ fexp F64.prec F64.emax (Zdigits2 m' + e') = e')
  \/ (m' = 0 /\ e' = -1074 /\ e < -1074).
Proof.
  intros Hm Hpre m' e'.
  destruct (shr_fexp_spec m e l ltac:(lia)) as [M X].
  fold m' in M. fold e' in X. rewrite fexp_eq in *.
  destruct (Zdigits2_bounds m Hm) as [_ Hd].
  destruct (0 <? Z.max (Zdigits2 m + e - 53) (-1074) - e) eqn:N.
  - apply Z.ltb_lt in N.
    set (n := Z.max (Zdigits2 m + e - 53) (-1074) - e) in *.
    destruct (Z_lt_le_dec n (Zdigits2 m)) as [Hlt|Hge].
    + left. assert (D : Zdigits2 m' = Zdigits2 m - n).
      { rewrite M. apply Zdigits2_div; lia. }
      split.
      * destruct (Z.eq_dec m' 0) as [Z0|NZ].
        -- rewrite Z0 in D. cbn in D. lia.
        -- assert (0 <= m'); [|lia]. rewrite M. apply Z.div_pos; [lia|].
           apply Z.pow_pos_nonneg; lia.
      * rewrite D, X. lia.
    + right. split; [|lia]. rewrite M. apply div_pow2_small; lia.
  - apply Z.ltb_ge in N. left. rewrite M, X. split; [lia|]. lia.
Qed.


Lemma finish_ok (s : bool) (m3 e3 : Z) :
  0 < m3 -> fexp F64.prec F64.emax (Zdigits2 m3 + e3) = e3 ->
  let r := match m3 with
           | 0 => S754_zero s
           | Zpos m => if e3 <=? F64.emax - F64.prec then S754_finite s m e3
                       else S754_infinity s
           | Zneg _ => S754_nan
           end in
  F64.rounded s r = true /\ forall s', r <> S754_zero s'.
Proof.
  intros Hm Hc r. subst r. destruct m3 as [|p|p]; try lia.
  destruct (e3 <=? F64.emax - F64.prec) eqn:Hr; cbn [F64.rounded].
  - split; [|discriminate]. rewrite eqb_reflx. cbn [andb].
    unfold bounded, canonical_mantissa. cbn [Zdigits2] in Hc.
    rewrite Hc, Z.eqb_refl, Hr. reflexivity.
  - split; [apply eqb_reflx | discriminate].
Qed.

Lemma binary_round_aux_ok (s : bool) (mz : positive) (ez : Z) :
  ez <= fexp F64.prec F64.emax (Zpos (digits2_pos mz) + ez) ->
  let r := binary_round_aux F64.prec F64.emax s (Zpos mz) ez loc_Exact in
  F64.rounded s r = true /\ (-1074 <= ez -> forall s', r <> S754_zero s').
Proof.
  intros Hpre r. subst r. unfold binary_round_aux.
  pose proof (shr_fexp_canonical (Zpos mz) ez loc_Exact ltac:(lia) Hpre) as T1.
  cbv zeta in T1.
  destruct (shr_fexp F64.prec F64.emax (Zpos mz) ez loc_Exact) as [mrs1 e1].
  cbn [fst snd] in T1.
  set (m1 := shr_m mrs1) in *.
  set (m2 := round_nearest_even m1 (loc_of_shr_record mrs1)).
  assert (R : m2 = m1 \/ m2 = m1 + 1) by apply round_nearest_even_cases.
  clearbody m2 m1.
  assert (Step : 0 < m2 -> e1 <= fexp F64.prec F64.emax (Zdigits2 m2 + e1) ->
                 -1074 <= e1 ->
                 let r := (let '(mrs3, e3) := shr_fexp F64.prec F64.emax m2 e1 loc_Exact in
                           match shr_m mrs3 with
                           | 0 => S754_zero s
                           | Zpos m => if e3 <=? F64.emax - F64.prec
                                       then S754_finite s m e3 else S754_infinity s
                           | Zneg _ => S754_nan
                           end) in
                 F64.rounded s r = true /\ forall s', r <> S754_zero s').
  { intros Hm2 Hpre2 He1.
    pose proof (shr_fexp_canonical m2 e1 loc_Exact Hm2 Hpre2) as T2.
    cbv zeta in T2.
    destruct (shr_fexp F64.prec F64.emax m2 e1 loc_Exact) as [mrs3 e3].
    cbn [fst snd] in T2. destruct T2 as [[Hm3 Hc3]|[_ [_ Hlt]]]; [|lia].
    apply finish_ok; assumption. }
  destruct T1 as [[Hm1 Hc1]|[Hm1 [He1 Hez]]].
  - assert (Hm2 : 0 < m2) by lia.
    assert (Hd : Zdigits2 m1 <= Zdigits2 m2).
    { destruct R as [->| ->]; [lia|].
      destruct (Zdigits2_succ m1 Hm1) as [E|[E _]]; lia. }
    rewrite fexp_eq in Hc1.
    destruct Step as [S1 S2]; [assumption| rewrite fexp_eq; lia | lia |].
    split; [exact S1 | intros _; exact S2].
  - subst m1 e1. destruct R as [->| ->].
    + split; [|lia]. cbn. apply eqb_reflx.
    + destruct Step as [S1 S2]; [lia | rewrite fexp_eq; cbn; lia | lia |].
      split; [exact S1 | intros _; exact S2].
Qed.

Lemma iter_xO (m d : positive) : Zpos (Pos.iter xO m d) = Zpos m * 2 ^ Zpos d.
Proof.
  rewrite (Pos.iter_swap_gen _ _ Zpos xO (Z.mul 2)) by reflexivity.
  change (Pos.iter (Z.mul 2) (Zpos m) d) with (Z.shiftl (Zpos m) (Zpos d)).
  apply Z.shiftl_mul_pow2. lia.
Qed.

(** The mantissa [shl_align] returns, for a target exponent [e']. *)
Lemma shl_align_spec (m : positive) (e e' : Z) :
  (e' < e -> Zpos (fst (shl_align m e e')) = Zpos m * 2 ^ (e - e')
             /\ snd (shl_align m e e') = e')
  /\ (e <= e' -> shl_align m e e' = (m, e)).
Proof.
  unfold shl_align. destruct (e' - e) as [|d|d] eqn:E; cbn [fst snd];
    (split; [intros H|intros H]); try lia; try reflexivity.
  rewrite iter_xO. split; [|reflexivity]. f_equal. f_equal. lia.
Qed.

Lemma binary_round_ok (s : bool) (m : positive) (e : Z) :
  let r := binary_round F64.prec F64.emax s m e in
  F64.rounded s r = true /\ (-1074 <= e -> forall s', r <> S754_zero s').
Proof.
  intros r. subst r. unfold binary_round.
  set (e' := fexp F64.prec F64.emax (Zpos (digits2_pos m) + e)).
  destruct (shl_align_spec m e e') as [Hlt Hge].
  destruct (Z_lt_le_dec e' e) as [H|H].
  - destruct (Hlt H) as [Hm He]. clear Hlt Hge.
    destruct (shl_align m e e') as [mz ez]. cbn [fst snd] in Hm, He. subst ez.
    assert (D : Zpos (digits2_pos mz) = Zpos (digits2_pos m) + (e - e')).
    { change (Zdigits2 (Zpos mz) = Zdigits2 (Zpos m) + (e - e')).
      rewrite Hm. apply Zdigits2_mul; lia. }
    destruct (binary_round_aux_ok s mz e') as [A B].
    + rewrite D. replace (Zpos (digits2_pos m) + (e - e') + e')
        with (Zpos (digits2_pos m) + e) by lia. fold e'. lia.
    + split; [exact A|]. intros _. apply B. unfold e'. rewrite fexp_eq. lia.
  - rewrite (Hge H). destruct (binary_round_aux_ok s m e) as [A B].
    + fold e'. exact H.
    + split; assumption.
Qed.

(** [binary_normalize] rounds an integer mantissa, keeping its sign; from
    the least exponent up, a mantissa that is not zero does not round to
    zero. *)
Lemma binary_normalize_ok (z e : Z) :
  let r := binary_normalize F64.prec F64.emax z e false in
  (0 <= z -> F64.rounded false r = true)
  /\ (z < 0 -> -1074 <= e -> F64.rounded true r = true /\ forall s', r <> S754_zero s').
Proof.
  intros r. subst r. unfold binary_normalize. destruct z as [|p|p]; split; try lia.
  - reflexivity.
  - intros _. apply binary_round_ok.
  - intros _ He. destruct (binary_round_ok true p e) as [A B]. split; [exact A|].
    apply B. exact He.
Qed.

(** *** The order of canonical values *)

Lemma bounded_spec (m : positive) (e : Z) :
  bounded F64.prec F64.emax m e = true ->
  -1074 <= e <= 971
  /\ Zdigits2 (Zpos m) <= 53
  /\ (-1074 < e -> Zdigits2 (Zpos m) = 53).
Proof.
  unfold bounded, canonical_mantissa. intros H.
  apply andb_prop in H. destruct H as [C R].
  apply Z.eqb_eq in C. apply Z.leb_le in R. rewrite fexp_eq in C.
  change (F64.emax - F64.prec) with 971 in R. cbn [Zdigits2]. lia.
Qed.

Lemma aligned (m : positive) (e ez : Z) :
  ez <= e -> Zpos (fst (shl_align m e ez)) = Zpos m * 2 ^ (e - ez).
Proof.
  intros H. destruct (shl_align_spec m e ez) as [Hlt Hge].
  destruct (Z_lt_le_dec ez e) as [L|G].
  - apply Hlt. exact L.
  - rewrite (Hge G). cbn [fst]. replace (e - ez) with 0 by lia. lia.
Qed.

(** The order of two positive canonical values, as [SFcompare] computes it
    from exponents and mantissas, is the order of the aligned mantissas. *)
Lemma compare_aligned (mx my : positive) (ex ey : Z) :
  bounded F64.prec F64.emax mx ex = true ->
  bounded F64.prec F64.emax my ey = true ->
  let ez := Z.min ex ey in
  let ax := Zpos (fst (shl_align mx ex ez)) in
  let ay := Zpos (fst (shl_align my ey ez)) in
  match (match ex ?= ey with
         | Eq => Pos.compare_cont Eq mx my
         | Lt => Lt
         | Gt => Gt
         end) with
  | Lt => ax < ay
  | Eq => ax = ay
  | Gt => ax > ay
  end.
Proof.
  intros Bx By ez ax ay. subst ax ay.
  rewrite !aligned by (subst ez; lia).
  destruct (bounded_spec mx ex Bx) as [Rx [Dx Nx]].
  destruct (bounded_spec my ey By) as [Ry [Dy Ny]].
  destruct (Zdigits2_bounds (Zpos mx)) as [[Lx Ux] _]; [lia|].
  destruct (Zdigits2_bounds (Zpos my)) as [[Ly Uy] _]; [lia|].
  destruct (Z.compare_spec ex ey) as [E|L|G].
  - subst ey. replace ez with ex by (subst ez; lia).
    replace (ex - ex) with 0 by lia. change (2 ^ 0) with 1.
    change (Pos.compare_cont Eq mx my) with (Zpos mx ?= Zpos my).
    destruct (Z.compare_spec (Zpos mx) (Zpos my)); lia.
  - replace ez with ex by (subst ez; lia).
    replace (ex - ex) with 0 by lia. change (2 ^ 0) with 1.
    rewrite (Ny ltac:(lia)) in Ly.
    assert (P : 2 ^ 1 <= 2 ^ (ey - ex)) by (apply Z.pow_le_mono_r; lia).
    assert (Q : 2 ^ Zdigits2 (Zpos mx) <= 2 ^ 53) by (apply Z.pow_le_mono_r; lia).
    change (2 ^ (53 - 1)) with 4503599627370496 in Ly.
    change (2 ^ 53) with 9007199254740992 in Q.
    change (2 ^ 1) with 2 in P. nia.
  - replace ez with ey by (subst ez; lia).
    replace (ey - ey) with 0 by lia. change (2 ^ 0) with 1.
    rewrite (Nx ltac:(lia)) in Lx.
    assert (P : 2 ^ 1 <= 2 ^ (ex - ey)) by (apply Z.pow_le_mono_r; lia).
    assert (Q : 2 ^ Zdigits2 (Zpos my) <= 2 ^ 53) by (apply Z.pow_le_mono_r; lia).
    change (2 ^ (53 - 1)) with 4503599627370496 in Lx.
    change (2 ^ 53) with 9007199254740992 in Q.
    change (2 ^ 1) with 2 in P. nia.
Qed.

(** *** Signs of sums and differences *)

Lemma rounded_nonneg (r : float) :
  F64.rounded false r = true -> F64.nonneg r = true.
Proof. destruct r as [[]|[]| |[] m e]; cbn; congruence. Qed.

Lemma rounded_neg (r : float) :
  F64.rounded true r = true -> (forall s, r <> S754_zero s) ->
  F64.ltb r F64.zero = true.
Proof.
  destruct r as [s|[]| |[] m e]; cbn; try congruence; try reflexivity.
  intros _ H. exfalso. apply (H s). reflexivity.
Qed.

Lemma add_finite (sx sy : bool) (mx my : positive) (ex ey : Z) :
  F64.add (S754_finite sx mx ex) (S754_finite sy my ey)
  = binary_normalize F64.prec F64.emax
      (cond_Zopp sx (Zpos (fst (shl_align mx ex (Z.min ex ey))))
       + cond_Zopp sy (Zpos (fst (shl_align my ey (Z.min ex ey)))))
      (Z.min ex ey) false.
Proof. reflexivity. Qed.

Lemma sub_finite (sx sy : bool) (mx my : positive) (ex ey : Z) :
  F64.sub (S754_finite sx mx ex) (S754_finite sy my ey)
  = binary_normalize F64.prec F64.emax
      (cond_Zopp sx (Zpos (fst (shl_align mx ex (Z.min ex ey))))
       - cond_Zopp sy (Zpos (fst (shl_align my ey (Z.min ex ey)))))
      (Z.min ex ey) false.
Proof. reflexivity. Qed.

Lemma nonneg_geb (x : float) :
  F64.nonneg x = true -> F64.geb x F64.zero = true.
Proof. destruct x as [[]|[]| |[] m e]; cbn; congruence. Qed.

(** An amount that is finite, valid and not [<= 0] is a positive finite
    value. *)
Lemma pos_finite_intro (v : float) :
  F64.is_finite v = true -> F64.valid v = true ->
  F64.leb v F64.zero = false -> F64.pos_finite v = true.
Proof. destruct v as [[]|[]| |[] m e]; cbn; congruence. Qed.

Lemma add_nonneg (x v : float) :
  F64.nonneg x = true -> F64.pos_finite v = true ->
  F64.nonneg (F64.add x v) = true.
Proof.
  destruct x as [[]|[]| |[] mx ex]; cbn [F64.nonneg]; try discriminate;
    destruct v as [sv|sv| |[] mv ev]; cbn [F64.pos_finite]; try discriminate;
    intros Hx Hv.
  - exact Hv.
  - reflexivity.
  - rewrite add_finite. cbn [cond_Zopp].
    apply rounded_nonneg.
    apply (binary_normalize_ok _ _). lia.
Qed.

Lemma sub_nonneg (x v : float) :
  F64.nonneg x = true -> F64.pos_finite v = true ->
  F64.gtb v x = false ->
  F64.nonneg (F64.sub x v) = true.
Proof.
  destruct x as [[]|[]| |[] mx ex]; cbn [F64.nonneg]; try discriminate;
    destruct v as [sv|sv| |[] mv ev]; cbn [F64.pos_finite]; try discriminate;
    intros Hx Hv Hgt.
  - reflexivity.
  - rewrite sub_finite. cbn [cond_Zopp].
    apply rounded_nonneg.
    apply (binary_normalize_ok _ _).
    pose proof (compare_aligned mx mv ex ev Hx Hv) as C. cbv zeta in C.
    unfold F64.gtb, SFltb, SFcompare in Hgt.
    destruct (ex ?= ev); [destruct (Pos.compare_cont Eq mx mv)| |];
      try discriminate Hgt; lia.
Qed.

(** Withdrawing more than the balance leaves a negative balance. *)
Lemma sub_lt_neg (x v : float) :
  F64.valid x = true -> F64.valid v = true ->
  F64.leb v F64.zero = false -> F64.ltb x v = true ->
  F64.ltb (F64.sub x v) F64.zero = true.
Proof.
  intros Vx Vv Hpos Hlt.
  destruct v as [sv|[]| |[] mv ev]; try discriminate Hpos;
    try (destruct x as [[]|[]| |[] mx ex]; discriminate Hlt).
  - destruct x as [[]|[]| |[] mx ex]; try discriminate Hlt; reflexivity.
  - destruct x as [sx|[]| |sx mx ex]; try discriminate Hlt; try reflexivity.
    rewrite sub_finite. cbn [cond_Zopp].
    cbn in Vx, Vv.
    destruct (bounded_spec mx ex Vx) as [Rx _].
    destruct (bounded_spec mv ev Vv) as [Rv _].
    assert (N : cond_Zopp sx (Zpos (fst (shl_align mx ex (Z.min ex ev))))
                - Zpos (fst (shl_align mv ev (Z.min ex ev))) < 0).
    { destruct sx; cbn [cond_Zopp]; [lia|].
      pose proof (compare_aligned mx mv ex ev Vx Vv) as C. cbv zeta in C.
      unfold F64.ltb, SFltb, SFcompare in Hlt.
      destruct (ex ?= ev); [destruct (Pos.compare_cont Eq mx mv)| |];
        try discriminate Hlt; lia. }
    destruct (binary_normalize_ok
                (cond_Zopp sx (Zpos (fst (shl_align mx ex (Z.min ex ev))))
                 - Zpos (fst (shl_align mv ev (Z.min ex ev))))
                (Z.min ex ev)) as [_ B].
    destruct B as [A NZ]; [exact N | lia |].
    apply rounded_neg; assumption.
Qed.

(** The same with NaN allowed: what a balance can be when amounts may be
    NaN or infinite. *)
Lemma add_nonneg_or_nan (x v : float) :
  F64.nonneg_or_nan x = true -> F64.valid v = true ->
  F64.leb v F64.zero = false ->
  F64.nonneg_or_nan (F64.add x v) = true.
Proof.
  intros Hx Vv Hpos.
  destruct v as [sv|[]| |[] mv ev]; try discriminate Hpos.
  - destruct x as [[]|[]| |[] mx ex]; try discriminate Hx; reflexivity.
  - destruct x as [[]|[]| |[] mx ex]; reflexivity.
  - destruct (F64.is_nan x) eqn:N.
    + destruct x; try discriminate N. reflexivity.
    + unfold F64.nonneg_or_nan in Hx. rewrite N in Hx. cbn [orb] in Hx.
      unfold F64.nonneg_or_nan. rewrite add_nonneg; [apply orb_true_r | exact Hx | exact Vv].
Qed.

Lemma sub_nonneg_or_nan (x v : float) :
  F64.nonneg_or_nan x = true -> F64.valid v = true ->
  F64.leb v F64.zero = false -> F64.gtb v x = false ->
  F64.nonneg_or_nan (F64.sub x v) = true.
Proof.
  intros Hx Vv Hpos Hgt.
  destruct v as [sv|[]| |[] mv ev]; try discriminate Hpos.
  - destruct x as [[]|[]| |[] mx ex]; try discriminate Hx;
      try discriminate Hgt; reflexivity.
  - destruct x as [[]|[]| |[] mx ex]; reflexivity.
  - destruct (F64.is_nan x) eqn:N.
    + destruct x; try discriminate N. reflexivity.
    + unfold F64.nonneg_or_nan in Hx. rewrite N in Hx. cbn [orb] in Hx.
      unfold F64.nonneg_or_nan.
      rewrite sub_nonneg; [apply orb_true_r | exact Hx | exact Vv | exact Hgt].
Qed.

Lemma nonneg_or_nan_not_lt (x : float) :
  F64.nonneg_or_nan x = true -> F64.ltb x F64.zero = false.
Proof. destruct x as [[]|[]| |[] m e]; cbn; congruence. Qed.

(** [SFcompare] is antisymmetric, on every pair of values. *)
Lemma compare_antisym (x y : float) :
  SFcompare y x = option_map CompOpp (SFcompare x y).
Proof.
  destruct x as [sx|sx| |sx mx ex], y as [sy|sy| |sy my ey]; cbn;
    try reflexivity;
    try (destruct sx; reflexivity);
    try (destruct sy; reflexivity);
    try (destruct sx, sy; reflexivity).
  rewrite (Z.compare_antisym ex ey).
  assert (P : Pos.compare_cont Eq my mx = CompOpp (Pos.compare_cont Eq mx my)).
  { rewrite Pos.compare_cont_antisym. reflexivity. }
  destruct sx, sy; try reflexivity;
    destruct (ex ?= ey); cbn [CompOpp option_map]; try reflexivity;
    rewrite P; reflexivity.
Qed.

(** [x <= y] excludes [x > y]. *)
Lemma leb_gtb (x y : float) : F64.leb x y = true -> F64.gtb x y = false.
Proof.
  unfold F64.leb, F64.gtb, SFleb, SFltb. rewrite (compare_antisym x y).
  destruct (SFcompare x y) as [[]|]; cbn; congruence.
Qed.

(** *** Validity *)

Lemma rounded_valid (s : bool) (r : float) :
  F64.rounded s r = true -> F64.valid r = true.
Proof.
  destruct r as [s'|s'| |s' m e]; cbn; try reflexivity; try discriminate.
  intros H. apply andb_prop in H. apply H.
Qed.

Lemma binary_normalize_valid (z e : Z) :
  F64.valid (binary_normalize F64.prec F64.emax z e false) = true.
Proof.
  destruct z as [|p|p]; [reflexivity| |].
  - apply (rounded_valid false). apply binary_round_ok.
  - apply (rounded_valid true). apply binary_round_ok.
Qed.

(** Sums and differences of binary64 values are binary64 values. *)
Lemma add_valid (x y : float) :
  F64.valid x = true -> F64.valid y = true -> F64.valid (F64.add x y) = true.
Proof.
  intros Vx Vy.
  destruct x as [sx|sx| |sx mx ex], y as [sy|sy| |sy my ey];
    try reflexivity; try assumption;
    try (destruct sx, sy; reflexivity).
  rewrite add_finite. apply binary_normalize_valid.
Qed.

Lemma sub_valid (x y : float) :
  F64.valid x = true -> F64.valid y = true -> F64.valid (F64.sub x y) = true.
Proof.
  intros Vx Vy.
  destruct x as [sx|sx| |sx mx ex], y as [sy|sy| |sy my ey];
    try reflexivity; try assumption;
    try (destruct sx, sy; reflexivity).
  rewrite sub_finite. apply binary_normalize_valid.
Qed.

End F64Facts.

(** ** Transactions and histories *)

Lemma soma_assinada_snoc (ts : list Transacao) (t : Transacao) :
  soma_assinada (ts ++ [t]) = F64.add (soma_assinada ts) (valor_assinado t).
Proof. unfold soma_assinada. rewrite fold_left_app. reflexivity. Qed.

(** Applying a transaction: the balance moves by the signed amount and the
    transaction is appended to the history; nothing is validated. *)
Lemma registrar_saldo (t : Transacao) (c : Conta) :
  saldo (Transacao.registrar t c) = F64.add (saldo c) (valor_assinado t).
Proof.
  destruct t as [v|v]; cbn; [reflexivity|].
  apply F64Facts.sub_add_opp.
Qed.

Lemma registrar_transacoes (t : Transacao) (c : Conta) :
  transacoes (historico (Transacao.registrar t c))
  = transacoes (historico c) ++ [t].
Proof. destruct t; reflexivity. Qed.

Lemma registrar_conta (t : Transacao) (o : Objeto) :
  Objeto.conta (Objeto.registrar t o) = Transacao.registrar t (Objeto.conta o).
Proof. destruct o; reflexivity. Qed.

Lemma registrar_contador (t : Transacao) (o : Objeto) :
  Objeto.contador (Objeto.registrar t o) = Objeto.contador o.
Proof. destruct o; reflexivity. Qed.

Lemma registrar_coerente (t : Transacao) (c : Conta) :
  coerente c -> coerente (Transacao.registrar t c).
Proof.
  unfold coerente. intros H.
  rewrite registrar_saldo, registrar_transacoes, soma_assinada_snoc, H.
  reflexivity.
Qed.

(** ** The validated operations, case by case *)

Lemma depositar_rejeita (valor : float) (o : Objeto) :
  F64.leb valor F64.zero = true ->
  Objeto.depositar valor o
  = mkRes false o ["Erro: O valor do depósito deve ser positivo."].
Proof.
  intros H. destruct o as [c|cc]; cbn.
  - unfold Conta.depositar. rewrite H. reflexivity.
  - unfold ContaCorrente.depositar, Conta.depositar. rewrite H.
    destruct cc; reflexivity.
Qed.

Lemma depositar_aceita (valor : float) (o : Objeto) :
  F64.leb valor F64.zero = false ->
  Objeto.depositar valor o
  = mkRes true (Objeto.registrar (Deposito valor) o)
          ["Depósito realizado com sucesso."].
Proof.
  intros H. destruct o as [c|cc]; cbn.
  - unfold Conta.depositar. rewrite H. reflexivity.
  - unfold ContaCorrente.depositar, Conta.depositar. rewrite H. reflexivity.
Qed.

(** The outcomes of [sacar] on a [Conta] and on a [ContaCorrente]: the call
    fails and returns the object as it was, or it succeeds. *)
Lemma conta_sacar_casos (valor : float) (c : Conta) :
  (Conta.sacar valor c).(retorno) = false /\ (Conta.sacar valor c).(estado) = c
  \/ Conta.sacar valor c
     = mkRes true (Transacao.registrar (Saque valor) c)
             ["Saque realizado com sucesso."].
Proof.
  unfold Conta.sacar.
  destruct (F64.leb valor F64.zero); [left; split; reflexivity|].
  destruct (F64.gtb valor (saldo c)); [left; split; reflexivity|].
  right; reflexivity.
Qed.

Lemma corrente_sacar_casos (valor : float) (cc : ContaCorrente) :
  (ContaCorrente.sacar valor cc).(retorno) = false
    /\ (ContaCorrente.sacar valor cc).(estado) = cc
  \/ ContaCorrente.sacar valor cc
     = mkRes true (apos_saque valor cc) ["Saque realizado com sucesso."].
Proof.
  unfold ContaCorrente.sacar.
  destruct (F64.leb valor F64.zero); [left; split; reflexivity|].
  destruct (numero_saques_realizados cc >=? limite_saques cc);
    [left; split; reflexivity|].
  destruct (F64.gtb valor _); [left; split; reflexivity|].
  right; reflexivity.
Qed.

(** Every operation on an account, by either entry point, leaves the pair
    of balance and history as it was or applies one transaction to it. *)
Lemma operar_conta (op : Operacao) (o : Objeto) :
  Objeto.conta (operar op o) = Objeto.conta o
  \/ exists t, Objeto.conta (operar op o) = Transacao.registrar t (Objeto.conta o).
Proof.
  destruct op as [[valor|valor]|t]; cbn.
  - destruct (F64.leb valor F64.zero) eqn:H.
    + rewrite depositar_rejeita by assumption. left; reflexivity.
    + rewrite depositar_aceita by assumption. right.
      exists (Deposito valor). apply registrar_conta.
  - destruct o as [c|cc]; cbn.
    + destruct (conta_sacar_casos valor c) as [[_ H]|H]; rewrite H;
        [left; reflexivity | right; exists (Saque valor); reflexivity].
    + destruct (corrente_sacar_casos valor cc) as [[_ H]|H]; rewrite H;
        [left; reflexivity | right; exists (Saque valor); reflexivity].
  - right. exists t. apply registrar_conta.
Qed.

Lemma operar_coerente (op : Operacao) (o : Objeto) :
  coerente (Objeto.conta o) -> coerente (Objeto.conta (operar op o)).
Proof.
  intros H. destruct (operar_conta op o) as [E|[t E]]; rewrite E.
  - assumption.
  - apply registrar_coerente; assumption.
Qed.

Lemma operar_todas_coerente (ops : list Operacao) (o : Objeto) :
  coerente (Objeto.conta o) -> coerente (Objeto.conta (operar_todas ops o)).
Proof.
  revert o. induction ops as [|op ops IH]; intros o H; cbn.
  - assumption.
  - apply IH. apply operar_coerente. assumption.
Qed.

(** ** Signs of balances *)

Lemma chamar_conta (c : Chamada) (k : Conta) :
  estado (chamar c (OConta k))
  = OConta (match c with
            | Depositar valor => estado (Conta.depositar valor k)
            | Sacar valor => estado (Conta.sacar valor k)
            end).
Proof. destruct c; reflexivity. Qed.

(** A validated call on a [Conta] whose balance is not negative, or is NaN,
    leaves such a balance, whatever the amount. *)
Lemma chamar_nonneg_or_nan (c : Chamada) (k : Conta) :
  F64.valid (valor_da_chamada c) = true ->
  F64.nonneg_or_nan (saldo k) = true ->
  F64.nonneg_or_nan (saldo (Objeto.conta (estado (chamar c (OConta k))))) = true.
Proof.
  intros V H. rewrite chamar_conta. cbn [Objeto.conta].
  destruct c as [valor|valor]; cbn [valor_da_chamada] in V.
  - unfold Conta.depositar. destruct (F64.leb valor F64.zero) eqn:P; [exact H|].
    cbn [estado Transacao.registrar Deposito.registrar saldo].
    apply F64Facts.add_nonneg_or_nan; assumption.
  - unfold Conta.sacar. destruct (F64.leb valor F64.zero) eqn:P; [exact H|].
    destruct (F64.gtb valor (saldo k)) eqn:G; [exact H|].
    cbn [estado Transacao.registrar Saque.registrar saldo].
    apply F64Facts.sub_nonneg_or_nan; assumption.
Qed.

(** With a finite amount the balance stays a number. *)
Lemma chamar_nonneg (c : Chamada) (k : Conta) :
  F64.valid (valor_da_chamada c) = true ->
  F64.is_finite (valor_da_chamada c) = true ->
  F64.nonneg (saldo k) = true ->
  F64.nonneg (saldo (Objeto.conta (estado (chamar c (OConta k))))) = true.
Proof.
  intros V F H. rewrite chamar_conta. cbn [Objeto.conta].
  destruct c as [valor|valor]; cbn [valor_da_chamada] in V, F.
  - unfold Conta.depositar. destruct (F64.leb valor F64.zero) eqn:P; [exact H|].
    cbn [estado Transacao.registrar Deposito.registrar saldo].
    apply F64Facts.add_nonneg; [exact H|].
    apply F64Facts.pos_finite_intro; assumption.
  - unfold Conta.sacar. destruct (F64.leb valor F64.zero) eqn:P; [exact H|].
    destruct (F64.gtb valor (saldo k)) eqn:G; [exact H|].
    cbn [estado Transacao.registrar Saque.registrar saldo].
    apply F64Facts.sub_nonneg; [exact H| |exact G].
    apply F64Facts.pos_finite_intro; assumption.
Qed.

Lemma executar_nonneg_or_nan (cs : list Chamada) (k : Conta) :
  Forall (fun c => F64.valid (valor_da_chamada c) = true) cs ->
  F64.nonneg_or_nan (saldo k) = true ->
  F64.nonneg_or_nan (saldo (Objeto.conta (executar cs (OConta k)))) = true.
Proof.
  intros HV. revert k. induction HV as [|c cs V HV IH]; intros k H.
  - exact H.
  - cbn [executar fold_left].
    pose proof (chamar_nonneg_or_nan c k V H) as S.
    rewrite chamar_conta in S |- *. cbn [Objeto.conta] in S.
    apply IH. exact S.
Qed.

Lemma executar_nonneg (cs : list Chamada) (k : Conta) :
  Forall (fun c => F64.valid (valor_da_chamada c) = true) cs ->
  Forall (fun c => F64.is_finite (valor_da_chamada c) = true) cs ->
  F64.nonneg (saldo k) = true ->
  F64.nonneg (saldo (Objeto.conta (executar cs (OConta k)))) = true.
Proof.
  intros HV. revert k. induction HV as [|c cs V HV IH]; intros k HF H.
  - exact H.
  - inversion HF as [|? ? F HF']; subst.
    cbn [executar fold_left].
    pose proof (chamar_nonneg c k V F H) as S.
    rewrite chamar_conta in S |- *. cbn [Objeto.conta] in S.
    apply IH; assumption.
Qed.

(** Balances are binary64 values: an operation with a valid amount on a
    valid balance leaves a valid balance. *)
Lemma operar_valido (op : Operacao) (o : Objeto) :
  F64.valid (match op with
             | Validada c => valor_da_chamada c
             | Direta t => Transacao.valor t
             end) = true ->
  F64.valid (saldo (Objeto.conta o)) = true ->
  F64.valid (saldo (Objeto.conta (operar op o))) = true.
Proof.
  intros V H. destruct (operar_conta op o) as [E|[t E]].
  - rewrite E. exact H.
  - destruct op as [[valor|valor]|t']; cbn [valor_da_chamada] in V.
    + cbn [operar chamar]. destruct (F64.leb valor F64.zero) eqn:P.
      * rewrite depositar_rejeita by assumption. exact H.
      * rewrite depositar_aceita by assumption. cbn [estado].
        rewrite registrar_conta. cbn.
        apply F64Facts.add_valid; assumption.
    + cbn [operar chamar]. destruct o as [k|cc]; cbn [Objeto.sacar].
      * destruct (conta_sacar_casos valor k) as [[_ R]|R].
        -- cbn. rewrite R. exact H.
        -- rewrite R. cbn. apply F64Facts.sub_valid; assumption.
      * destruct (corrente_sacar_casos valor cc) as [[_ R]|R].
        -- cbn. rewrite R. exact H.
        -- rewrite R. cbn. apply F64Facts.sub_valid; assumption.
    + cbn [operar]. rewrite registrar_conta.
      destruct t' as [v|v]; cbn in V |- *;
        [apply F64Facts.add_valid | apply F64Facts.sub_valid]; assumption.
Qed.

(** ** The report *)

Lemma append_cons (c : ascii) (a b : string) :
  String c a +:+ b = String c (a +:+ b).
Proof. reflexivity. Qed.

Lemma append_assoc (a b c : string) : (a +:+ b) +:+ c = a +:+ (b +:+ c).
Proof.
  induction a as [|x a IH]; [reflexivity|].
  rewrite !append_cons, IH. reflexivity.
Qed.

Lemma append_nil_r (a : string) : a +:+ EmptyString = a.
Proof.
  induction a as [|x a IH]; [reflexivity|].
  rewrite append_cons, IH. reflexivity.
Qed.

(** The loop of [gerar_relatorio] appends one line per transaction. *)
Lemma relatorio_fold (ts : list Transacao) (inicio : string) :
  fold_left (fun relatorio transacao => relatorio +:+ (str transacao +:+ nl))
            ts inicio
  = inicio +:+ em_linhas (map str ts).
Proof.
  revert inicio. induction ts as [|t ts IH]; intros inicio.
  - cbn [fold_left map em_linhas fold_right]. symmetry. apply append_nil_r.
  - cbn [fold_left map em_linhas fold_right]. rewrite IH.
    rewrite !append_assoc. reflexivity.
Qed.

Lemma sem_nl_app (a b : string) : sem_nl (a +:+ b) = sem_nl a && sem_nl b.
Proof.
  induction a as [|c a IH]; [reflexivity|].
  rewrite append_cons. cbn [sem_nl]. rewrite IH. apply andb_assoc.
Qed.

Lemma sem_nl_uint (d : Decimal.uint) :
  sem_nl (NilEmpty.string_of_uint d) = true.
Proof.
  induction d; cbn [NilEmpty.string_of_uint sem_nl];
    try rewrite IHd; reflexivity.
Qed.

Lemma sem_nl_str_int (n : Z) : sem_nl (str_int n) = true.
Proof.
  unfold str_int, NilZero.string_of_int.
  assert (U : forall d, sem_nl (NilZero.string_of_uint d) = true).
  { intros d. unfold NilZero.string_of_uint.
    destruct d; try apply sem_nl_uint. reflexivity. }
  destruct (Z.to_int n) as [d|d]; [apply U|].
  cbn [sem_nl]. rewrite U. reflexivity.
Qed.

Lemma sem_nl_fmt2 (x : float) : sem_nl (fmt2 x) = true.
Proof.
  assert (S : forall s, sem_nl (sinal s) = true) by (intros []; reflexivity).
  destruct x as [s|s| |s m e]; cbn [fmt2];
    rewrite ?sem_nl_app, ?S; try reflexivity.
  unfold dois_digitos. rewrite sem_nl_app, !sem_nl_str_int.
  destruct (_ <? 10); reflexivity.
Qed.

(** The text of a transaction is one line. *)
Lemma sem_nl_str (t : Transacao) : sem_nl (str t) = true.
Proof.
  destruct t as [v|v]; unfold str; rewrite sem_nl_app, sem_nl_fmt2; reflexivity.
Qed.

Lemma sem_nl_map_str (ts : list Transacao) :
  Forall (fun l => sem_nl l = true) (map str ts).
Proof.
  induction ts as [|t ts IH]; constructor; [apply sem_nl_str | exact IH].
Qed.

(** [linhas] cuts a text built by [em_linhas] back into its lines. *)
Lemma linhas_linha (l resto : string) :
  sem_nl l = true -> linhas (l +:+ (nl +:+ resto)) = l :: linhas resto.
Proof.
  induction l as [|c l IH]; intros H.
  - reflexivity.
  - cbn [sem_nl] in H. apply andb_prop in H. destruct H as [Hc Hl].
    rewrite append_cons. cbn [linhas].
    apply negb_true_iff in Hc. rewrite Hc, (IH Hl). reflexivity.
Qed.

Lemma linhas_em_linhas (ls : list string) :
  Forall (fun l => sem_nl l = true) ls -> linhas (em_linhas ls) = ls.
Proof.
  induction 1 as [|l ls H _ IH]; [reflexivity|].
  cbn [em_linhas fold_right]. rewrite linhas_linha by exact H.
  f_equal. exact IH.
Qed.

(** ** The claims *)

(** C1 (balance invariant).  Start from a freshly created account, a
    [Conta] or a [ContaCorrente] of any limits, and run any sequence of
    operations on it: calls of [depositar] and [sacar], accepted or not, and
    transactions applied through [Cliente.realizar_transacao].  The balance
    is then the sum of the signed amounts of the history, added from [0.0]
    in the order of the history (deposits positive, withdrawals negative):
    the two are the same binary64 value, and Python's [==] holds between
    them unless the balance is NaN.  Moreover an operation changes the
    balance only by applying a transaction. *)
Theorem C1_saldo_soma_do_historico :
  forall (ops : list Operacao) (numero : Z) (cliente : nat)
         (limite : float) (limite_saques : Z),
    let P (o : Objeto) :=
      let saldo_final := saldo (Objeto.conta o) in
      let soma := soma_assinada (transacoes (historico (Objeto.conta o))) in
      saldo_final = soma
      /\ (F64.is_nan saldo_final = false -> F64.eqb saldo_final soma = true) in
    P (operar_todas ops (OConta (Conta.init numero cliente)))
    /\ P (operar_todas ops
            (OCorrente (ContaCorrente.init numero cliente limite limite_saques)))
    /\ (forall (op : Operacao) (o : Objeto),
          Objeto.conta (operar op o) = Objeto.conta o
          \/ exists t : Transacao,
               Objeto.conta (operar op o)
               = Transacao.registrar t (Objeto.conta o)).
Proof.
  intros ops numero cliente limite limite_saques P.
  assert (HP : forall o, coerente (Objeto.conta o) -> P o).
  { intros o H. unfold P. cbv zeta. unfold coerente in H. split.
    - exact H.
    - intros Hn. rewrite <- H. apply F64Facts.eqb_refl. exact Hn. }
  split; [|split].
  - apply HP, operar_todas_coerente. reflexivity.
  - apply HP, operar_todas_coerente. reflexivity.
  - intros op o. apply operar_conta.
Qed.

(** C2 (atomicity of rejection).  A call of [depositar] or [sacar] on a
    [Conta] or a [ContaCorrente] that returns [False] leaves the object as it
    was: balance, history and withdrawal counter.  A call that returns [True]
    has applied one transaction, so the history is one longer, and on a
    [ContaCorrente] a successful [sacar] has also counted the withdrawal. *)
Theorem C2_rejeicao_atomica :
  forall (c : Chamada) (o : Objeto),
    let r := chamar c o in
    (retorno r = false -> estado r = o)
    /\ (retorno r = true ->
        length (transacoes (historico (Objeto.conta (estado r))))
        = S (length (transacoes (historico (Objeto.conta o))))
        /\ (exists t : Transacao,
              Objeto.conta (estado r) = Transacao.registrar t (Objeto.conta o))
        /\ Objeto.contador (estado r)
           = match c with
             | Depositar _ => Objeto.contador o
             | Sacar _ => Z.succ <$> Objeto.contador o
             end).
Proof.
  intros c o r. subst r.
  assert (L : forall t (k : Conta),
             length (transacoes (historico (Transacao.registrar t k)))
             = S (length (transacoes (historico k)))).
  { intros t k. rewrite registrar_transacoes, length_app. cbn. lia. }
  destruct c as [valor|valor]; cbn [chamar].
  - destruct (F64.leb valor F64.zero) eqn:H.
    + rewrite depositar_rejeita by assumption. cbn. split; [reflexivity|discriminate].
    + rewrite depositar_aceita by assumption. cbn. split; [discriminate|].
      intros _. rewrite registrar_conta, registrar_contador.
      repeat split; [apply L | exists (Deposito valor); reflexivity].
  - destruct o as [k|cc]; cbn [Objeto.sacar].
    + destruct (conta_sacar_casos valor k) as [[Hr He]|H].
      * cbn. rewrite Hr, He. split; [reflexivity|discriminate].
      * rewrite H. cbn. split; [discriminate|]. intros _.
        repeat split; [apply (L (Saque valor)) | exists (Saque valor); reflexivity].
    + destruct (corrente_sacar_casos valor cc) as [[Hr He]|H].
      * cbn. rewrite Hr, He. split; [reflexivity|discriminate].
      * rewrite H. cbn. split; [discriminate|]. intros _.
        repeat split; [apply (L (Saque valor)) | exists (Saque valor); reflexivity].
Qed.

(** C3 (withdrawal count ceiling and error precedence), as amended: on a
    [ContaCorrente] whose counter has reached [limite_saques], [sacar] of an
    amount that passes the amount check prints the limit error, returns
    [False] and changes nothing, whatever the balance and the overdraft
    limit are: the counter is tested before the funds, so the limit error is
    the one reported also when the funds would not suffice. *)
Theorem C3_limite_de_saques :
  forall (valor : float) (cc : ContaCorrente),
    F64.leb valor F64.zero = false ->
    (numero_saques_realizados cc >= limite_saques cc)%Z ->
    ContaCorrente.sacar valor cc
    = mkRes false cc
            ["Erro: Limite de " +:+ str_int (limite_saques cc)
               +:+ " saques diários atingido."].
Proof.
  intros valor cc Hpos Hlim. unfold ContaCorrente.sacar. rewrite Hpos.
  assert (H : (numero_saques_realizados cc >=? limite_saques cc) = true)
    by (apply Z.geb_le; lia).
  rewrite H. reflexivity.
Qed.

(** After three withdrawals of [1.0] the fourth asks for more than balance
    and overdraft limit together; the limit error is reported. *)
Lemma C3_limite_de_saques_witness :
  ContaCorrente.sacar (F64.of_Z 1000) tres_saques
  = mkRes false tres_saques ["Erro: Limite de 3 saques diários atingido."]
  /\ F64.gtb (F64.of_Z 1000)
             (F64.add (saldo (base tres_saques)) (limite tres_saques)) = true.
Proof.
  split.
  - apply (C3_limite_de_saques (F64.of_Z 1000) tres_saques).
    + vm_compute. reflexivity.
    + vm_compute. discriminate.
  - vm_compute. reflexivity.
Defined.

(** C3 as stated fails for an amount that is not positive: with the counter
    at its limit, [sacar(-1.0)] reports the invalid amount, not the limit. *)
Lemma C3_contraexemplo :
  numero_saques_realizados tres_saques = limite_saques tres_saques
  /\ ContaCorrente.sacar (F64.of_Z (-1)) tres_saques
     = mkRes false tres_saques ["Erro: O valor do saque deve ser positivo."]
  /\ saida (ContaCorrente.sacar (F64.of_Z (-1)) tres_saques)
     <> ["Erro: Limite de 3 saques diários atingido."].
Proof.
  split; [|split].
  - vm_compute. reflexivity.
  - vm_compute. reflexivity.
  - vm_compute. discriminate.
Qed.

(** C4 (overdraft), as amended.  On a [ContaCorrente] whose counter is below
    [limite_saques], for an amount that passes the amount check: [sacar]
    succeeds whenever [valor <= saldo + limite]; the balance is then
    [saldo - valor], which is negative when [saldo < valor]; and [sacar]
    prints the error on the available funds, returns [False] and changes
    nothing whenever [valor > saldo + limite].  (Balance and amount are
    binary64 values: the hypotheses of validity hold of every Python
    float.) *)
Theorem C4_cheque_especial :
  forall (valor : float) (cc : ContaCorrente),
    F64.leb valor F64.zero = false ->
    (numero_saques_realizados cc < limite_saques cc)%Z ->
    let disponivel := F64.add (saldo (base cc)) (limite cc) in
    (F64.leb valor disponivel = true ->
       ContaCorrente.sacar valor cc
       = mkRes true (apos_saque valor cc) ["Saque realizado com sucesso."]
       /\ saldo (base (apos_saque valor cc)) = F64.sub (saldo (base cc)) valor
       /\ (F64.valid (saldo (base cc)) = true -> F64.valid valor = true ->
           F64.ltb (saldo (base cc)) valor = true ->
           F64.ltb (saldo (base (apos_saque valor cc))) F64.zero = true))
    /\ (F64.gtb valor disponivel = true ->
          ContaCorrente.sacar valor cc
          = mkRes false cc
                  ["Erro: Valor do saque excede o limite disponível (Saldo + Cheque Especial).";
                   "Disponível: R$ " +:+ fmt2 disponivel]).
Proof.
  intros valor cc Hpos Hcount disponivel.
  assert (C : (numero_saques_realizados cc >=? limite_saques cc) = false)
    by (rewrite Z.geb_leb; apply Z.leb_gt; lia).
  split.
  - intros Hle. apply F64Facts.leb_gtb in Hle. split; [|split].
    + unfold ContaCorrente.sacar. rewrite Hpos, C. fold disponivel.
      rewrite Hle. reflexivity.
    + reflexivity.
    + intros Vs Vv Hlt.
      cbn [apos_saque base Transacao.registrar Saque.registrar saldo].
      apply F64Facts.sub_lt_neg; assumption.
  - intros Hgt. unfold ContaCorrente.sacar. rewrite Hpos, C. fold disponivel.
    rewrite Hgt. reflexivity.
Qed.

(** Scenario 1 of the specification: a fresh account with the default limits
    lends [500.0], and then nothing more. *)
Lemma C4_cheque_especial_witness :
  let cc := ContaCorrente.nova_conta 0 1 in
  let cc' := apos_saque (F64.of_Z 500) cc in
  ContaCorrente.sacar (F64.of_Z 500) cc
  = mkRes true cc' ["Saque realizado com sucesso."]
  /\ saldo (base cc') = F64.of_Z (-500)
  /\ F64.ltb (saldo (base cc')) F64.zero = true
  /\ ContaCorrente.sacar (F64.of_Z 1) cc'
     = mkRes false cc'
             ["Erro: Valor do saque excede o limite disponível (Saldo + Cheque Especial).";
              "Disponível: R$ 0.00"].
Proof.
  cbv zeta.
  destruct (C4_cheque_especial (F64.of_Z 500) (ContaCorrente.nova_conta 0 1))
    as [[A [B D]] _];
    [vm_compute; reflexivity | vm_compute; reflexivity | vm_compute; reflexivity |].
  destruct (C4_cheque_especial (F64.of_Z 1)
              (apos_saque (F64.of_Z 500) (ContaCorrente.nova_conta 0 1)))
    as [_ E]; [vm_compute; reflexivity | vm_compute; reflexivity |].
  split; [exact A|]. split; [vm_compute; reflexivity|]. split.
  - apply D; vm_compute; reflexivity.
  - apply E. vm_compute. reflexivity.
Defined.

(** C4 as stated fails in four ways.  With the counter at its limit, a
    withdrawal within the available funds is refused, and one beyond them is
    refused with the limit error.  With a negative balance, an amount that is
    not positive and lies between the balance and the available funds is
    refused as invalid.  And after the deposit of [12.07] the withdrawal of
    [512.07] passes the test on [saldo + limite], which rounds to [512.07],
    and leaves a balance below [-500.0]. *)
Lemma C4_contraexemplo :
  (let valor := F64.of_Z 100 in
   let cc := tres_saques in
   F64.ltb (saldo (base cc)) valor = true
   /\ F64.leb valor (F64.add (saldo (base cc)) (limite cc)) = true
   /\ ContaCorrente.sacar valor cc
      = mkRes false cc ["Erro: Limite de 3 saques diários atingido."])
  /\ (let valor := F64.of_Z 1000 in
      let cc := tres_saques in
      F64.gtb valor (F64.add (saldo (base cc)) (limite cc)) = true
      /\ ContaCorrente.sacar valor cc
         = mkRes false cc ["Erro: Limite de 3 saques diários atingido."])
  /\ (let valor := F64.of_frac (-1) 2 in
      let cc := um_saque in
      F64.ltb (saldo (base cc)) valor = true
      /\ F64.leb valor (F64.add (saldo (base cc)) (limite cc)) = true
      /\ ContaCorrente.sacar valor cc
         = mkRes false cc ["Erro: O valor do saque deve ser positivo."])
  /\ (let valor := F64.of_frac 51207 100 in
      let cc := com_12_07 in
      numero_saques_realizados cc = 0
      /\ F64.ltb (saldo (base cc)) valor = true
      /\ F64.leb valor (F64.add (saldo (base cc)) (limite cc)) = true
      /\ retorno (ContaCorrente.sacar valor cc) = true
      /\ F64.geb (saldo (base (estado (ContaCorrente.sacar valor cc))))
                 (F64.opp (limite cc)) = false).
Proof. cbv zeta. repeat split; vm_compute; reflexivity. Qed.

(** C5 (base-account insufficiency), as amended: on a [Conta], for an amount
    that passes the amount check (not [valor <= 0]), [sacar] prints the
    insufficient-funds error, returns [False] and changes neither balance nor
    history whenever [valor > saldo]. *)
Theorem C5_saldo_insuficiente :
  forall (valor : float) (c : Conta),
    F64.leb valor F64.zero = false ->
    F64.gtb valor (saldo c) = true ->
    Conta.sacar valor c = mkRes false c ["Erro: Saldo insuficiente."].
Proof.
  intros valor c Hpos Hgt. unfold Conta.sacar. rewrite Hpos, Hgt. reflexivity.
Qed.

Lemma C5_saldo_insuficiente_witness :
  Conta.sacar (F64.of_Z 50) (Conta.nova_conta 0 1)
  = mkRes false (Conta.nova_conta 0 1) ["Erro: Saldo insuficiente."].
Proof.
  apply (C5_saldo_insuficiente (F64.of_Z 50) (Conta.nova_conta 0 1));
    vm_compute; reflexivity.
Defined.

(** C5 as stated fails where the balance is negative.  A client applies
    [Saque(10.0)] to its fresh [Conta] through [realizar_transacao]; the
    balance is then [-10.0], the amount [-5.0] exceeds it, and [sacar(-5.0)]
    reports the invalid amount, not insufficient funds. *)
Lemma C5_contraexemplo :
  let pessoa := Cliente.adicionar_conta 0%nat (Cliente.init "Rua A, 1") in
  let mem : gmap ref Objeto := {[ 0%nat := OConta (Conta.nova_conta 0 1) ]} in
  let mem' :=
    estado (Cliente.realizar_transacao 0%nat (Saque (F64.of_Z 10)) pessoa mem) in
  let c := Saque.registrar (F64.of_Z 10) (Conta.nova_conta 0 1) in
  let valor := F64.of_Z (-5) in
  mem' !! 0%nat = Some (OConta c)
  /\ F64.gtb valor (saldo c) = true
  /\ Conta.sacar valor c
     = mkRes false c ["Erro: O valor do saque deve ser positivo."]
  /\ saida (Conta.sacar valor c) <> ["Erro: Saldo insuficiente."].
Proof.
  cbv zeta. split; [|split; [|split]].
  - unfold Cliente.realizar_transacao.
    cbn [contas Cliente.adicionar_conta Cliente.init].
    rewrite bool_decide_eq_true_2 by (apply list_elem_of_In; left; reflexivity).
    cbn [estado]. rewrite lookup_alter_eq, lookup_singleton_eq. reflexivity.
  - vm_compute. reflexivity.
  - vm_compute. reflexivity.
  - vm_compute. discriminate.
Qed.

(** C6 (deposit contract).  On a [Conta] or a [ContaCorrente], and for every
    amount, [depositar] prints the invalid-amount error, returns [False] and
    changes nothing when [valor <= 0]; otherwise it applies the transaction
    [Deposito(valor)] (the amount is added to the balance, the transaction is
    appended to the history, the withdrawal counter is untouched) and returns
    [True].  There is no other way for it to fail. *)
Theorem C6_depositar_contrato :
  forall (valor : float) (o : Objeto),
    let r := Objeto.depositar valor o in
    (F64.leb valor F64.zero = true ->
       r = mkRes false o ["Erro: O valor do depósito deve ser positivo."])
    /\ (F64.leb valor F64.zero = false ->
          r = mkRes true (Objeto.registrar (Deposito valor) o)
                    ["Depósito realizado com sucesso."]
          /\ saldo (Objeto.conta (estado r))
             = F64.add (saldo (Objeto.conta o)) valor
          /\ transacoes (historico (Objeto.conta (estado r)))
             = transacoes (historico (Objeto.conta o)) ++ [Deposito valor]
          /\ Objeto.contador (estado r) = Objeto.contador o)
    /\ (retorno r = false <-> F64.leb valor F64.zero = true).
Proof.
  intros valor o r. subst r. repeat split.
  - apply depositar_rejeita.
  - apply depositar_aceita; assumption.
  - rewrite depositar_aceita by assumption. cbn.
    rewrite registrar_conta. reflexivity.
  - rewrite depositar_aceita by assumption. cbn.
    rewrite registrar_conta. reflexivity.
  - rewrite depositar_aceita by assumption. cbn. apply registrar_contador.
  - destruct (F64.leb valor F64.zero) eqn:H; [reflexivity|].
    rewrite depositar_aceita by assumption. discriminate.
  - intros H. rewrite depositar_rejeita by assumption. reflexivity.
Qed.

(** C7 (shape of the report).  [gerar_relatorio] only reads the list of
    transactions and builds a new string, so its embedding is a function of
    the history: two calls on the same history return the same text and the
    history is what it was.  On an empty history the text is the single line
    saying that there is no transaction, without the header; otherwise its
    lines are the header and then, for each transaction in the order of
    insertion, the line [str(transacao)], each line ended by a newline. *)
Theorem C7_gerar_relatorio :
  (forall h : Historico,
     transacoes h = [] ->
     Historico.gerar_relatorio h = "Nenhuma transação realizada."
     /\ linhas (Historico.gerar_relatorio h) = ["Nenhuma transação realizada."])
  /\ (forall h : Historico,
        transacoes h <> [] ->
        Historico.gerar_relatorio h
        = em_linhas ("--- Extrato de Transações ---" :: map str (transacoes h))
        /\ linhas (Historico.gerar_relatorio h)
           = "--- Extrato de Transações ---" :: map str (transacoes h)).
Proof.
  split.
  - intros h H. unfold Historico.gerar_relatorio. rewrite H.
    split; reflexivity.
  - intros h H.
    assert (E : Historico.gerar_relatorio h
                = em_linhas ("--- Extrato de Transações ---"
                               :: map str (transacoes h))).
    { unfold Historico.gerar_relatorio.
      destruct (transacoes h) as [|t ts]; [congruence|].
      rewrite relatorio_fold.
      cbn [em_linhas fold_right]. rewrite append_assoc. reflexivity. }
    split; [exact E|]. rewrite E. apply linhas_em_linhas.
    constructor; [reflexivity | apply sem_nl_map_str].
Qed.

(** C8 (ownership gate).  [realizar_transacao] on an account that is not in
    [self.contas] prints the error on ownership and leaves the store as it
    was.  On an account that is in the list it prints nothing and calls
    [transacao.registrar(conta)]: the account at that address has the
    transaction applied, with none of the tests of [depositar] and [sacar]
    (the balance moves by the signed amount whatever the amount and the
    balance are), and every other account is untouched. *)
Theorem C8_realizar_transacao :
  forall (conta : ref) (transacao : Transacao) (pessoa : Cliente)
         (mem : gmap ref Objeto),
    let r := Cliente.realizar_transacao conta transacao pessoa mem in
    (conta ∉ contas pessoa ->
       r = mkRes tt mem ["Erro: O cliente não possui esta conta."])
    /\ (conta ∈ contas pessoa ->
          saida r = []
          /\ estado r !! conta = Objeto.registrar transacao <$> mem !! conta
          /\ (forall o : Objeto,
                mem !! conta = Some o ->
                exists o' : Objeto,
                  estado r !! conta = Some o'
                  /\ saldo (Objeto.conta o')
                     = F64.add (saldo (Objeto.conta o)) (valor_assinado transacao)
                  /\ transacoes (historico (Objeto.conta o'))
                     = transacoes (historico (Objeto.conta o)) ++ [transacao])
          /\ (forall outra : ref, outra <> conta ->
                estado r !! outra = mem !! outra)).
Proof.
  intros conta transacao pessoa mem r. subst r.
  unfold Cliente.realizar_transacao. split.
  - intros H. rewrite bool_decide_eq_false_2 by assumption. reflexivity.
  - intros H. rewrite bool_decide_eq_true_2 by assumption. cbn [saida estado].
    split; [reflexivity|]. split; [apply lookup_alter_eq|]. split.
    + intros o Ho. exists (Objeto.registrar transacao o).
      rewrite lookup_alter_eq, Ho, registrar_conta.
      split; [reflexivity|]. split.
      * apply registrar_saldo.
      * apply registrar_transacoes.
    + intros outra Hne. apply lookup_alter_ne. congruence.
Qed.

(** C9 (the direct path does not count withdrawals).  When a client applies
    [Saque(valor)] through [realizar_transacao] to a [ContaCorrente] it has,
    the balance has [valor] subtracted and the history has the withdrawal
    appended, while [_numero_saques_realizados], [limite] and [limite_saques]
    keep their values.  The counter moves only in [ContaCorrente.sacar], by
    one on each successful call; [depositar] leaves it alone. *)
Theorem C9_saque_direto_nao_conta :
  (forall (conta : ref) (valor : float) (pessoa : Cliente)
          (mem : gmap ref Objeto) (cc : ContaCorrente),
     conta ∈ contas pessoa ->
     mem !! conta = Some (OCorrente cc) ->
     exists cc' : ContaCorrente,
       estado (Cliente.realizar_transacao conta (Saque valor) pessoa mem) !! conta
       = Some (OCorrente cc')
       /\ saldo (base cc') = F64.sub (saldo (base cc)) valor
       /\ transacoes (historico (base cc'))
          = transacoes (historico (base cc)) ++ [Saque valor]
       /\ numero_saques_realizados cc' = numero_saques_realizados cc
       /\ limite_saques cc' = limite_saques cc
       /\ limite cc' = limite cc)
  /\ (forall (valor : float) (cc : ContaCorrente),
        let r := ContaCorrente.sacar valor cc in
        numero_saques_realizados (estado r)
        = if retorno r then numero_saques_realizados cc + 1
          else numero_saques_realizados cc)
  /\ (forall (valor : float) (cc : ContaCorrente),
        numero_saques_realizados (estado (ContaCorrente.depositar valor cc))
        = numero_saques_realizados cc).
Proof.
  split; [|split].
  - intros conta valor pessoa mem cc Hin Hmem.
    exists (com_base (Saque.registrar valor) cc).
    unfold Cliente.realizar_transacao.
    rewrite bool_decide_eq_true_2 by assumption. cbn [estado].
    rewrite lookup_alter_eq, Hmem. cbn. repeat split; reflexivity.
  - intros valor cc r. subst r.
    destruct (corrente_sacar_casos valor cc) as [[Hr He]|H].
    + rewrite Hr, He. reflexivity.
    + rewrite H. reflexivity.
  - intros valor cc. unfold ContaCorrente.depositar. reflexivity.
Qed.

(** C10 (the balance of a [Conta] is never negative), as amended.  From a
    freshly created [Conta], after any sequence of calls of [depositar] and
    [sacar], the balance is never below zero ([saldo < 0] is false); and
    [saldo >= 0] holds when every amount passed is finite.  (The amounts are
    binary64 values: the hypothesis of validity holds of every Python
    float.) *)
Theorem C10_saldo_nunca_negativo :
  forall (cs : list Chamada) (pessoa : nat) (numero : Z),
    Forall (fun c => F64.valid (valor_da_chamada c) = true) cs ->
    let final :=
      Objeto.conta (executar cs (OConta (Conta.nova_conta pessoa numero))) in
    F64.ltb (saldo final) F64.zero = false
    /\ (Forall (fun c => F64.is_finite (valor_da_chamada c) = true) cs ->
        F64.geb (saldo final) F64.zero = true).
Proof.
  intros cs pessoa numero HV final. subst final. split.
  - apply F64Facts.nonneg_or_nan_not_lt.
    apply executar_nonneg_or_nan; [exact HV | reflexivity].
  - intros HF. apply F64Facts.nonneg_geb.
    apply executar_nonneg; [exact HV | exact HF | reflexivity].
Qed.

(** Deposit [100.0], withdraw [30.0], then try to withdraw [100.0]. *)
Lemma C10_saldo_nunca_negativo_witness :
  let cs := [Depositar (F64.of_Z 100); Sacar (F64.of_Z 30); Sacar (F64.of_Z 100)] in
  let final := Objeto.conta (executar cs (OConta (Conta.nova_conta 0 1))) in
  F64.ltb (saldo final) F64.zero = false
  /\ F64.geb (saldo final) F64.zero = true
  /\ saldo final = F64.of_Z 70.
Proof.
  cbv zeta.
  destruct (C10_saldo_nunca_negativo
              [Depositar (F64.of_Z 100); Sacar (F64.of_Z 30); Sacar (F64.of_Z 100)]
              0%nat 1) as [A B].
  - repeat constructor.
  - split; [exact A|]. split; [|vm_compute; reflexivity].
    apply B. repeat constructor.
Defined.

(** C10 as stated fails on amounts that are not finite: [depositar(nan)] is
    accepted, since [nan <= 0] is false, and leaves the balance NaN; and
    after [depositar(inf)] the call [sacar(inf)] is accepted and leaves
    [inf - inf].  In both cases [saldo >= 0] is false. *)
Lemma C10_contraexemplo :
  let k := Conta.nova_conta 0 1 in
  retorno (Conta.depositar F64.nan k) = true
  /\ F64.geb (saldo (Objeto.conta (executar [Depositar F64.nan] (OConta k))))
             F64.zero = false
  /\ F64.geb (saldo (Objeto.conta
                       (executar [Depositar F64.inf; Sacar F64.inf] (OConta k))))
             F64.zero = false.
Proof. cbv zeta. repeat split; vm_compute; reflexivity. Qed.

(** ** The scenarios of the specification *)

(** Scenario 2: a deposit of [100.0] on a fresh [Conta] succeeds; a deposit
    of [-5.0] is then refused and changes nothing. *)
Example cenario_2 :
  let r1 := Conta.depositar (F64.of_Z 100) (Conta.nova_conta 0 1) in
  let r2 := Conta.depositar (F64.of_Z (-5)) (estado r1) in
  retorno r1 = true
  /\ saldo (estado r1) = F64.of_Z 100
  /\ length (transacoes (historico (estado r1))) = 1%nat
  /\ r2 = mkRes false (estado r1) ["Erro: O valor do depósito deve ser positivo."].
Proof. cbv zeta. repeat split; vm_compute; reflexivity. Qed.

(** Scenario 3: after three withdrawals of [1.0] a fourth one is refused,
    although the funds suffice. *)
Example cenario_3 :
  numero_saques_realizados tres_saques = 3
  /\ saldo (base tres_saques) = F64.of_Z (-3)
  /\ ContaCorrente.sacar (F64.of_Z 1) tres_saques
     = mkRes false tres_saques ["Erro: Limite de 3 saques diários atingido."].
Proof. repeat split; vm_compute; reflexivity. Qed.

(** Scenario 4: a client with the accounts at addresses 0 and 1; a deposit
    applied to the account at 1 goes through, one applied to the foreign
    account at 2 is refused and the store is untouched. *)
Example cenario_4 :
  let pessoa :=
    Cliente.adicionar_conta 1%nat
      (Cliente.adicionar_conta 0%nat (Cliente.init "Rua A, 1")) in
  let mem : gmap ref Objeto :=
    <[2%nat := OConta (Conta.nova_conta 1 3)]>
      (<[1%nat := OCorrente (ContaCorrente.nova_conta 0 2)]>
         {[ 0%nat := OConta (Conta.nova_conta 0 1) ]}) in
  let t := Deposito (F64.of_Z 25) in
  (saldo <$> (Objeto.conta
                <$> estado (Cliente.realizar_transacao 1%nat t pessoa mem) !! 1%nat))
  = Some (F64.of_Z 25)
  /\ Cliente.realizar_transacao 2%nat t pessoa mem
     = mkRes tt mem ["Erro: O cliente não possui esta conta."].
Proof.
  cbv zeta. split.
  - unfold Cliente.realizar_transacao.
    rewrite bool_decide_eq_true_2
      by (cbn; apply list_elem_of_In; right; left; reflexivity).
    cbn [estado]. rewrite lookup_alter_eq.
    rewrite lookup_insert_ne by discriminate. rewrite lookup_insert_eq.
    vm_compute. reflexivity.
  - unfold Cliente.realizar_transacao.
    rewrite bool_decide_eq_false_2; [reflexivity|].
    cbn. intros H. apply list_elem_of_In in H.
    destruct H as [H|[H|[]]]; discriminate H.
Qed.

(** * Properties of the accounts over time and of the menu program *)

(** ** Histories, identity and the counter of withdrawals *)

Lemma operar_historico (op : Operacao) (o : Objeto) :
  exists novas : list Transacao,
    transacoes (historico (Objeto.conta (operar op o)))
    = transacoes (historico (Objeto.conta o)) ++ novas.
Proof.
  destruct (operar_conta op o) as [E|[t E]]; rewrite E.
  - exists []. symmetry. apply app_nil_r.
  - exists [t]. apply registrar_transacoes.
Qed.

(** X1.  Whatever is done to an account, by [depositar], by [sacar] or by a
    transaction applied through [realizar_transacao], its history only
    grows: the entries there were stay, in their order, and the new ones
    come after them. *)
Theorem X1_historico_so_cresce :
  forall (ops : list Operacao) (o : Objeto),
    exists novas : list Transacao,
      transacoes (historico (Objeto.conta (operar_todas ops o)))
      = transacoes (historico (Objeto.conta o)) ++ novas.
Proof.
  intros ops. induction ops as [|op ops IH]; intros o.
  - exists []. symmetry. apply app_nil_r.
  - cbn [operar_todas fold_left].
    destruct (IH (operar op o)) as [n2 E2].
    destruct (operar_historico op o) as [n1 E1].
    exists (n1 ++ n2). unfold operar_todas in E2. rewrite E2, E1.
    symmetry. apply app_assoc.
Qed.

Lemma registrar_identidade (t : Transacao) (o : Objeto) :
  identidade (Objeto.registrar t o) = identidade o
  /\ mesma_classe o (Objeto.registrar t o) = true.
Proof. destruct o, t; split; reflexivity. Qed.

Lemma operar_identidade (op : Operacao) (o : Objeto) :
  identidade (operar op o) = identidade o
  /\ mesma_classe o (operar op o) = true.
Proof.
  assert (R : identidade o = identidade o /\ mesma_classe o o = true)
    by (destruct o; split; reflexivity).
  destruct op as [[valor|valor]|t]; cbn [operar chamar].
  - destruct (F64.leb valor F64.zero) eqn:H.
    + rewrite depositar_rejeita by assumption. exact R.
    + rewrite depositar_aceita by assumption. apply registrar_identidade.
  - destruct o as [k|cc]; cbn [Objeto.sacar].
    + destruct (conta_sacar_casos valor k) as [[_ H]|H].
      * cbn. rewrite H. split; reflexivity.
      * rewrite H. split; reflexivity.
    + destruct (corrente_sacar_casos valor cc) as [[_ H]|H].
      * cbn. rewrite H. split; reflexivity.
      * rewrite H. split; reflexivity.
  - apply registrar_identidade.
Qed.

Lemma mesma_classe_trans (a b c : Objeto) :
  mesma_classe a b = true -> mesma_classe b c = true -> mesma_classe a c = true.
Proof. destruct a, b, c; cbn; congruence. Qed.

(** X2.  No operation on an account changes its number, its agency or its
    holder, nor, for a [ContaCorrente], its overdraft or its limit of
    withdrawals; a [Conta] stays a [Conta] and a [ContaCorrente] a
    [ContaCorrente]. *)
Theorem X2_operacoes_preservam_identidade :
  forall (ops : list Operacao) (o : Objeto),
    let o' := operar_todas ops o in
    numero (Objeto.conta o') = numero (Objeto.conta o)
    /\ agencia (Objeto.conta o') = agencia (Objeto.conta o)
    /\ cliente (Objeto.conta o') = cliente (Objeto.conta o)
    /\ limites o' = limites o
    /\ mesma_classe o o' = true.
Proof.
  intros ops o o'. subst o'.
  assert (H : identidade (operar_todas ops o) = identidade o
              /\ mesma_classe o (operar_todas ops o) = true).
  { revert o. induction ops as [|op ops IH]; intros o.
    - destruct o; split; reflexivity.
    - cbn [operar_todas fold_left].
      destruct (IH (operar op o)) as [I2 C2].
      destruct (operar_identidade op o) as [I1 C1].
      unfold operar_todas in I2, C2. split.
      + rewrite I2. exact I1.
      + eapply mesma_classe_trans; eassumption. }
  destruct H as [I C]. unfold identidade in I.
  injection I as E1 E2 E3 E4. repeat split; assumption.
Qed.

Lemma n_saques_snoc (ts : list Transacao) (t : Transacao) :
  n_saques (ts ++ [t]) = n_saques ts + (if e_saque t then 1 else 0).
Proof.
  unfold n_saques. rewrite filter_app, length_app, Nat2Z.inj_add.
  f_equal. destruct t as [v|v]; reflexivity.
Qed.

Lemma chamar_corrente (c : Chamada) (cc : ContaCorrente) :
  estado (chamar c (OCorrente cc))
  = OCorrente (match c with
               | Depositar valor => estado (ContaCorrente.depositar valor cc)
               | Sacar valor => estado (ContaCorrente.sacar valor cc)
               end).
Proof. destruct c; reflexivity. Qed.

Lemma chamar_contado (c : Chamada) (cc : ContaCorrente) :
  contado cc ->
  let cc' := match c with
             | Depositar valor => estado (ContaCorrente.depositar valor cc)
             | Sacar valor => estado (ContaCorrente.sacar valor cc)
             end in
  contado cc' /\ limite_saques cc' = limite_saques cc.
Proof.
  intros [E L] cc'. subst cc'. destruct c as [valor|valor].
  - unfold ContaCorrente.depositar, Conta.depositar.
    destruct (F64.leb valor F64.zero); cbn [estado retorno saida].
    + destruct cc; split; [split; assumption | reflexivity].
    + split; [|reflexivity]. unfold contado.
      cbn [com_base base numero_saques_realizados limite_saques].
      rewrite registrar_transacoes, n_saques_snoc. cbn [e_saque]. split; lia.
  - unfold ContaCorrente.sacar.
    destruct (F64.leb valor F64.zero); [split; [split; assumption | reflexivity]|].
    destruct (numero_saques_realizados cc >=? limite_saques cc) eqn:G;
      [split; [split; assumption | reflexivity]|].
    destruct (F64.gtb valor _); [split; [split; assumption | reflexivity]|].
    rewrite Z.geb_leb in G. apply Z.leb_gt in G.
    split; [|reflexivity]. unfold contado.
    cbn [estado com_base base numero_saques_realizados limite_saques].
    rewrite registrar_transacoes, n_saques_snoc. cbn [e_saque]. split; lia.
Qed.

Lemma executar_contado (cs : list Chamada) (cc : ContaCorrente) :
  contado cc ->
  exists cc' : ContaCorrente,
    executar cs (OCorrente cc) = OCorrente cc'
    /\ contado cc' /\ limite_saques cc' = limite_saques cc.
Proof.
  revert cc. induction cs as [|c cs IH]; intros cc H.
  - exists cc. repeat split; apply H.
  - cbn [executar fold_left]. rewrite chamar_corrente.
    destruct (chamar_contado c cc H) as [H1 L1].
    destruct (IH _ H1) as [cc' [E [C L]]].
    exists cc'. split; [exact E|]. split; [exact C|]. congruence.
Qed.

(** X3.  On a [ContaCorrente] used only through [depositar] and [sacar],
    from its creation on, the counter of withdrawals is the number of
    [Saque] entries of the history, and never exceeds [limite_saques] (nor
    [0], when the limit is negative). *)
Theorem X3_contador_de_saques :
  forall (cs : list Chamada) (numero : Z) (pessoa : nat) (limite : float)
         (limite_saques : Z),
    exists cc : ContaCorrente,
      executar cs (OCorrente (ContaCorrente.init numero pessoa limite limite_saques))
      = OCorrente cc
      /\ numero_saques_realizados cc
         = n_saques (transacoes (historico (base cc)))
      /\ 0 <= numero_saques_realizados cc <= Z.max 0 limite_saques.
Proof.
  intros cs numero pessoa limite limite_saques.
  destruct (executar_contado cs
              (ContaCorrente.init numero pessoa limite limite_saques))
    as [cc' [E [[C1 C2] L]]].
  - split; cbn; [reflexivity|lia].
  - exists cc'. cbn in L. rewrite L in C2. repeat split; try assumption; lia.
Qed.

(** ** The console monad *)

Lemma bind_normal {A C : Type} (m : IO A) (f : A -> IO C) (c c' : Console) (x : C) :
  (m ≫= f) c = (Normal x, c') ->
  exists (a : A) (c1 : Console), m c = (Normal a, c1) /\ f a c1 = (Normal x, c').
Proof.
  unfold mbind, io_bind. destruct (m c) as [[a|e] c1]; intros H.
  - exists a, c1. split; [reflexivity | exact H].
  - discriminate H.
Qed.

Lemma ret_normal {A : Type} (a x : A) (c c' : Console) :
  (mret a : IO A) c = (Normal x, c') -> x = a /\ c' = c.
Proof. unfold mret, io_ret. intros H. injection H as <- <-. split; reflexivity. Qed.

Lemma print_normal (l : string) (c c' : Console) (x : unit) :
  print l c = (Normal x, c') ->
  stdin c' = stdin c /\ stdout c' = stdout c ++ [Escreve l].
Proof. unfold print. intros H. injection H as H. subst c'. split; reflexivity. Qed.

Lemma input_normal (p : string) (c c' : Console) (x : string) :
  input p c = (Normal x, c') ->
  stdin c = x :: stdin c' /\ stdout c' = stdout c ++ [Pergunta p].
Proof.
  unfold input. destruct (stdin c) as [|l r]; intros H; [discriminate H|].
  injection H as <- <-. split; reflexivity.
Qed.

Lemma nc_ret {A : Type} (a : A) : nao_cresce (mret a : IO A).
Proof. intros c c' r H. injection H as <- <-. reflexivity. Qed.

Lemma nc_levantar {A : Type} (e : Excecao) : nao_cresce (levantar e : IO A).
Proof. intros c c' r H. injection H as <- <-. reflexivity. Qed.

Lemma nc_print (l : string) : nao_cresce (print l).
Proof. intros c c' r H. injection H as <- <-. reflexivity. Qed.

Lemma nc_input (p : string) : nao_cresce (input p).
Proof.
  intros c c' r H. unfold input in H.
  destruct (stdin c) as [|l rest]; injection H as <- <-; cbn.
  - reflexivity.
  - apply suffix_cons_r. reflexivity.
Qed.

Lemma nc_bind {A C : Type} (m : IO A) (f : A -> IO C) :
  nao_cresce m -> (forall a, nao_cresce (f a)) -> nao_cresce (m ≫= f).
Proof.
  intros Hm Hf c c' r H. unfold mbind, io_bind in H.
  destruct (m c) as [[a|e] c1] eqn:E.
  - apply Hm in E. apply Hf in H. etrans; eassumption.
  - injection H as <- <-. apply Hm in E. exact E.
Qed.

Lemma nc_para_cada {A : Type} (f : A -> IO unit) (l : list A) :
  (forall a, nao_cresce (f a)) -> nao_cresce (para_cada f l).
Proof.
  intros Hf. induction l as [|x l IH]; cbn [para_cada].
  - apply nc_ret.
  - apply nc_bind; [apply Hf | intros _; exact IH].
Qed.

Lemma nc_objeto (b : Banco) (r : ref) : nao_cresce (objeto b r).
Proof. unfold objeto. destruct (mem b !! r); [apply nc_ret | apply nc_levantar]. Qed.

Ltac nc :=
  repeat first
    [ apply nc_ret | apply nc_levantar | apply nc_print | apply nc_input
    | apply nc_objeto
    | apply nc_para_cada; intros ?
    | apply nc_bind; [|intros ?]
    | match goal with
      | |- nao_cresce (match ?x with _ => _ end) => destruct x
      | |- nao_cresce (if ?x then _ else _) => destruct x
      | |- nao_cresce (let '(_, _) := ?x in _) => destruct x
      end ].

Lemma nc_str_da_conta (b : Banco) (r : ref) : nao_cresce (str_da_conta b r).
Proof. unfold str_da_conta. nc. Qed.

Lemma nc_get_conta_cliente (B : Builtins) (b : Banco) (p : PessoaFisica) :
  nao_cresce (get_conta_cliente B b p).
Proof. unfold get_conta_cliente. nc; apply nc_str_da_conta. Qed.

Lemma nc_ler_data (B : Builtins) (s : string) : nao_cresce (ler_data B s).
Proof. unfold ler_data. nc. Qed.

Lemma nc_criar_cliente (B : Builtins) (b : Banco) : nao_cresce (criar_cliente B b).
Proof. unfold criar_cliente. nc. apply nc_ler_data. Qed.

Lemma nc_criar_conta (b : Banco) : nao_cresce (criar_conta b).
Proof. unfold criar_conta. nc. Qed.

Lemma nc_listar_contas (b : Banco) : nao_cresce (listar_contas b).
Proof. unfold listar_contas. nc; apply nc_str_da_conta. Qed.

Lemma nc_movimentar (B : Builtins) (prompt : string)
    (metodo : float -> Objeto -> Res Objeto bool) (b : Banco) :
  nao_cresce (movimentar B prompt metodo b).
Proof. unfold movimentar. nc; apply nc_get_conta_cliente. Qed.

Lemma nc_ver_extrato (B : Builtins) (b : Banco) : nao_cresce (ver_extrato B b).
Proof. unfold ver_extrato. nc; apply nc_get_conta_cliente. Qed.

(** ** Looking a client up *)

Lemma filtrar_desde (k : nat) (x : string) (l : list PessoaFisica) :
  head (filter (fun ic : nat * PessoaFisica => cpf ic.2 = x)
               (imap (fun i p => (k + i, p)%nat) l))
  = prod_map (Nat.add k) id <$> list_find (fun p => cpf p = x) l.
Proof.
  revert k. induction l as [|p l IH]; intros k; [reflexivity|].
  rewrite imap_cons. cbn [list_find].
  rewrite filter_cons. cbn [snd].
  destruct (decide (cpf p = x)) as [E|N].
  - cbn. rewrite Nat.add_0_r. reflexivity.
  - rewrite (imap_ext _ (fun i q => (S k + i, q)%nat)).
    + rewrite IH. destruct (list_find _ l) as [[i q]|]; cbn; [|reflexivity].
      do 2 f_equal. lia.
    + intros i q _. cbn. f_equal. lia.
Qed.

Lemma filtrar_list_find (x : string) (l : list PessoaFisica) :
  filtrar_cliente_por_cpf x l = list_find (fun p => cpf p = x) l.
Proof.
  unfold filtrar_cliente_por_cpf.
  rewrite (imap_ext pair (fun i p => (0 + i, p)%nat)) by reflexivity.
  rewrite filtrar_desde. destruct (list_find _ l) as [[i q]|]; reflexivity.
Qed.

(** X4.  [filtrar_cliente_por_cpf] gives [None] exactly when no client of
    the list has the CPF, and otherwise the first client of the list that
    has it: the clients before it have another CPF. *)
Theorem X4_filtrar_cliente_por_cpf :
  forall (x : string) (l : list PessoaFisica),
    (filtrar_cliente_por_cpf x l = None <-> forall p, p ∈ l -> cpf p <> x)
    /\ (forall (i : nat) (p : PessoaFisica),
          filtrar_cliente_por_cpf x l = Some (i, p) <->
          l !! i = Some p /\ cpf p = x
          /\ forall (j : nat) (q : PessoaFisica),
               l !! j = Some q -> (j < i)%nat -> cpf q <> x).
Proof.
  intros x l. rewrite filtrar_list_find. split.
  - rewrite list_find_None. rewrite Forall_forall. reflexivity.
  - intros i p. rewrite list_find_Some. reflexivity.
Qed.

(** ** What each option does to the state *)

Tactic Notation "passo" hyp(H) "as" ident(a) ident(c1) ident(H1) :=
  apply bind_normal in H; destruct H as (a & c1 & H1 & H).

Ltac pula H :=
  let a := fresh "u" in
  let c1 := fresh "k" in
  let H1 := fresh "Hp" in
  apply bind_normal in H; destruct H as (a & c1 & H1 & H).

Ltac fim H :=
  let Hc := fresh "Hc" in
  apply ret_normal in H; destruct H as [H Hc].

Lemma get_conta_cliente_in (B : Builtins) (b : Banco) (p : PessoaFisica)
    (c c' : Console) (r : ref) :
  get_conta_cliente B b p c = (Normal (Some r), c') ->
  r ∈ contas (como_cliente p).
Proof.
  unfold get_conta_cliente.
  destruct (contas (como_cliente p)) as [|r1 [|r2 l]] eqn:E; intros H.
  - pula H. fim H. discriminate H.
  - fim H. injection H as ->. apply list_elem_of_here.
  - pula H. pula H. passo H as linha c3 Hl.
    destruct (py_int B linha) as [n|].
    + destruct ((0 <=? n - 1) && (n - 1 <? Z.of_nat (length (r1 :: r2 :: l)))).
      * fim H. eapply list_elem_of_lookup_2. symmetry. exact H.
      * pula H. fim H. discriminate H.
    + pula H. fim H. discriminate H.
Qed.

Lemma ler_data_valida (B : Builtins) (s : string) (c c' : Console) (d : Data) :
  ler_data B s c = (Normal d, c') -> data_valida d = true.
Proof.
  unfold ler_data.
  assert (P : forall c c' d,
             (print "Formato de data inválido. Usando data padrão." ;;
              mret data_padrao) c = (Normal d, c') -> data_valida d = true).
  { intros k k' x H. pula H. fim H. subst x. reflexivity. }
  destruct (split "-" s) as [|f1 [|f2 [|f3 [|f4 l]]]]; try apply P.
  destruct (py_int B f1); [|apply P].
  destruct (py_int B f2); [|apply P].
  destruct (py_int B f3); [|apply P].
  unfold date.
  destruct (negb _); [intros H; discriminate H|].
  destruct (data_valida _) eqn:V; [|apply P].
  intros H. fim H. subst d. exact V.
Qed.

Lemma criar_cliente_normal (B : Builtins) (b b' : Banco) (c c' : Console) :
  criar_cliente B b c = (Normal b', c') ->
  b' = b
  \/ exists (x n e : string) (d : Data),
       filtrar_cliente_por_cpf x (clientes b) = None
       /\ data_valida d = true
       /\ b' = {| clientes := clientes b ++ [PessoaFisica.init x n d e];
                  contas_main := contas_main b;
                  mem := mem b |}.
Proof.
  unfold criar_cliente. intros H. pula H. passo H as x c2 Hx.
  destruct (filtrar_cliente_por_cpf x (clientes b)) as [[i p]|] eqn:F.
  - pula H. fim H. left. exact H.
  - passo H as n c3 Hn. passo H as s c4 Hs. passo H as d c5 Hd.
    passo H as e c6 He. pula H. fim H.
    right. exists x, n, e, d. split; [exact F|]. split; [|exact H].
    eapply ler_data_valida. exact Hd.
Qed.

Lemma criar_conta_normal (b b' : Banco) (c c' : Console) :
  criar_conta b c = (Normal b', c') ->
  b' = b
  \/ exists (x : string) (i : nat) (p : PessoaFisica),
       filtrar_cliente_por_cpf x (clientes b) = Some (i, p)
       /\ let r : ref := fresh (dom (mem b)) in
          b' = {| clientes := alter (PessoaFisica.adicionar_conta r) i (clientes b);
                  contas_main := contas_main b ++ [r];
                  mem := <[r := OCorrente
                                   (ContaCorrente.nova_conta i
                                      (Z.of_nat (length (contas_main b)) + 1))]>
                           (mem b) |}.
Proof.
  unfold criar_conta. intros H. pula H. passo H as x c2 Hx.
  destruct (filtrar_cliente_por_cpf x (clientes b)) as [[i p]|] eqn:F.
  - pula H. fim H. right. exists x, i, p. split; [exact F | exact H].
  - pula H. fim H. left. exact H.
Qed.

Lemma listar_contas_normal (b b' : Banco) (c c' : Console) :
  listar_contas b c = (Normal b', c') -> b' = b.
Proof.
  unfold listar_contas. intros H. passo H as x c2 Hx.
  destruct (filtrar_cliente_por_cpf x (clientes b)) as [[i p]|].
  - destruct (contas (como_cliente p)).
    + pula H. fim H. exact H.
    + pula H. pula H. fim H. exact H.
  - pula H. fim H. exact H.
Qed.

Lemma movimentar_normal (B : Builtins) (prompt : string)
    (metodo : float -> Objeto -> Res Objeto bool) (b b' : Banco) (c c' : Console) :
  movimentar B prompt metodo b c = (Normal b', c') ->
  b' = b
  \/ exists (x : string) (i : nat) (p : PessoaFisica) (r : ref) (o : Objeto)
            (valor : float),
       filtrar_cliente_por_cpf x (clientes b) = Some (i, p)
       /\ r ∈ contas (como_cliente p)
       /\ mem b !! r = Some o
       /\ b' = {| clientes := clientes b;
                  contas_main := contas_main b;
                  mem := <[r := estado (metodo valor o)]> (mem b) |}.
Proof.
  unfold movimentar. intros H. passo H as x c2 Hx.
  destruct (filtrar_cliente_por_cpf x (clientes b)) as [[i p]|] eqn:F.
  - passo H as conta c3 Hg. destruct conta as [r|].
    + passo H as linha c4 Hl. destruct (py_float B linha) as [valor|].
      * passo H as o c5 Ho. pula H. fim H.
        unfold objeto in Ho. destruct (mem b !! r) as [o'|] eqn:M;
          [|discriminate Ho].
        fim Ho. subst o. right. exists x, i, p, r, o', valor.
        split; [exact F|]. split; [|split; [exact M | exact H]].
        eapply get_conta_cliente_in. exact Hg.
      * pula H. fim H. left. exact H.
    + fim H. left. exact H.
  - pula H. fim H. left. exact H.
Qed.

Lemma ver_extrato_normal (B : Builtins) (b b' : Banco) (c c' : Console) :
  ver_extrato B b c = (Normal b', c') -> b' = b.
Proof.
  unfold ver_extrato. intros H. passo H as x c2 Hx.
  destruct (filtrar_cliente_por_cpf x (clientes b)) as [[i p]|].
  - passo H as conta c3 Hg. destruct conta as [r|].
    + passo H as o c4 Ho. do 5 pula H. destruct o.
      * fim H. exact H.
      * pula H. pula H. fim H. exact H.
    + fim H. exact H.
  - pula H. fim H. exact H.
Qed.

(** ** What a validated call keeps of an account *)

(** A call of [depositar] or [sacar] on a [ContaCorrente]: what it keeps. *)
Lemma chamar_corrente_mantem (c : Chamada) (cc : ContaCorrente) :
  exists cc' : ContaCorrente,
    estado (chamar c (OCorrente cc)) = OCorrente cc'
    /\ numero (base cc') = numero (base cc)
    /\ agencia (base cc') = agencia (base cc)
    /\ cliente (base cc') = cliente (base cc)
    /\ limite cc' = limite cc
    /\ limite_saques cc' = limite_saques cc
    /\ (coerente (base cc) -> coerente (base cc'))
    /\ (contado cc -> contado cc').
Proof.
  rewrite chamar_corrente. eexists. split; [reflexivity|].
  destruct (operar_identidade (Validada c) (OCorrente cc)) as [I _].
  cbn [operar] in I. rewrite chamar_corrente in I.
  unfold identidade in I. cbn [Objeto.conta limites] in I.
  injection I as I1 I2 I3 I4 I5.
  repeat (split; [assumption|]). split.
  - intros H. pose proof (operar_coerente (Validada c) (OCorrente cc) H) as K.
    cbn [operar] in K. rewrite chamar_corrente in K. exact K.
  - intros H. apply (chamar_contado c cc H).
Qed.

(** ** The state of [main] stays consistent *)

Lemma consistente_vazio : consistente banco_vazio.
Proof.
  split; cbn.
  - constructor.
  - constructor.
  - intros r. rewrite lookup_empty. split.
    + intros H. apply elem_of_nil in H. destruct H.
    + intros [x H]. discriminate H.
  - intros i r H. discriminate H.
  - intros i p r H. discriminate H.
  - intros i p H. discriminate H.
  - intros p H. apply elem_of_nil in H. destruct H.
Qed.

Lemma filtrar_some (x : string) (l : list PessoaFisica) (i : nat) (p : PessoaFisica) :
  filtrar_cliente_por_cpf x l = Some (i, p) -> l !! i = Some p /\ cpf p = x.
Proof.
  rewrite filtrar_list_find. intros H. apply list_find_Some in H.
  destruct H as [H1 [H2 _]]. split; assumption.
Qed.

Lemma filtrar_none (x : string) (l : list PessoaFisica) :
  filtrar_cliente_por_cpf x l = None -> x ∉ cpf <$> l.
Proof.
  rewrite filtrar_list_find. intros H. rewrite list_find_None in H.
  rewrite Forall_forall in H. intros E. apply list_elem_of_fmap in E.
  destruct E as [p [-> Hp]]. apply (H p Hp). reflexivity.
Qed.

Lemma consistente_criar_cliente (b : Banco) (x n e : string) (d : Data) :
  consistente b ->
  filtrar_cliente_por_cpf x (clientes b) = None ->
  data_valida d = true ->
  consistente {| clientes := clientes b ++ [PessoaFisica.init x n d e];
                 contas_main := contas_main b;
                 mem := mem b |}.
Proof.
  intros [C1 C2 C3 C4 C5 C6 C7] F V. split; cbn [clientes contas_main mem].
  - rewrite fmap_app. apply NoDup_app. split; [exact C1|]. split.
    + intros y Hy Hy'. cbn in Hy'. apply list_elem_of_singleton in Hy'. subst y.
      exact (filtrar_none _ _ F Hy).
    + cbn. apply NoDup_singleton.
  - exact C2.
  - exact C3.
  - intros i r H. destruct (C4 i r H) as (cc & M & N & A & L & LS & Co & Ct & p & P & R).
    exists cc. repeat (split; [assumption|]). exists p. split; [|exact R].
    apply lookup_app_l_Some. exact P.
  - intros i p r H R. apply lookup_app_Some in H. destruct H as [H|[_ H]].
    + exact (C5 i p r H R).
    + apply list_lookup_singleton_Some in H. destruct H as [_ <-].
      cbn in R. apply elem_of_nil in R. destruct R.
  - intros i p H. apply lookup_app_Some in H. destruct H as [H|[_ H]].
    + exact (C6 i p H).
    + apply list_lookup_singleton_Some in H. destruct H as [_ <-]. constructor.
  - intros p H. apply elem_of_app in H. destruct H as [H|H].
    + exact (C7 p H).
    + apply list_elem_of_singleton in H. subst p. exact V.
Qed.

Lemma consistente_movimentar (b : Banco) (i : nat) (p : PessoaFisica) (r : ref)
    (o : Objeto) (c : Chamada) :
  consistente b ->
  clientes b !! i = Some p ->
  r ∈ contas (como_cliente p) ->
  mem b !! r = Some o ->
  consistente {| clientes := clientes b;
                 contas_main := contas_main b;
                 mem := <[r := estado (chamar c o)]> (mem b) |}.
Proof.
  intros [C1 C2 C3 C4 C5 C6 C7] P R M.
  destruct (C5 i p r P R) as (cc & Mcc & Dcc).
  assert (o = OCorrente cc) by congruence. subst o.
  destruct (chamar_corrente_mantem c cc)
    as (cc' & E & K1 & K2 & K3 & K4 & K5 & K6 & K7).
  rewrite E. split; cbn [clientes contas_main mem].
  - exact C1.
  - exact C2.
  - intros r'. rewrite C3. destruct (decide (r' = r)) as [->|N].
    + rewrite lookup_insert_eq, M. split; intros _; eexists; reflexivity.
    + rewrite lookup_insert_ne by congruence. reflexivity.
  - intros j r' H.
    destruct (C4 j r' H) as (cj & Mj & Nj & Aj & Lj & LSj & Coj & Ctj & pj & Pj & Rj).
    destruct (decide (r' = r)) as [->|N].
    + assert (cj = cc) by congruence. subst cj.
      exists cc'. rewrite lookup_insert_eq. split; [reflexivity|].
      rewrite K1, K2, K3, K4, K5.
      repeat (split; [auto|]). exists pj. split; assumption.
    + exists cj. rewrite lookup_insert_ne by congruence.
      repeat (split; [assumption|]). exists pj. split; assumption.
  - intros j pj r' Hj Rj. destruct (C5 j pj r' Hj Rj) as (cj & Mj & Dj).
    destruct (decide (r' = r)) as [->|N].
    + assert (cj = cc) by congruence. subst cj.
      exists cc'. rewrite lookup_insert_eq. split; [reflexivity | congruence].
    + exists cj. rewrite lookup_insert_ne by congruence. split; assumption.
  - exact C6.
  - exact C7.
Qed.

Lemma alter_adicionar_lookup (r : ref) (i j : nat) (l : list PessoaFisica)
    (q : PessoaFisica) :
  alter (PessoaFisica.adicionar_conta r) i l !! j = Some q ->
  exists p : PessoaFisica,
    l !! j = Some p
    /\ cpf q = cpf p /\ nome q = nome p /\ data_nascimento q = data_nascimento p
    /\ ((j = i /\ contas (como_cliente q) = contas (como_cliente p) ++ [r])
        \/ (j <> i /\ q = p)).
Proof.
  destruct (decide (j = i)) as [->|N].
  - rewrite list_lookup_alter_eq. destruct (l !! i) as [p|]; [|discriminate].
    intros H. injection H as <-. exists p. split; [reflexivity|].
    repeat (split; [reflexivity|]). left. split; reflexivity.
  - rewrite list_lookup_alter_ne by congruence. intros H. exists q.
    split; [exact H|]. repeat (split; [reflexivity|]). right. split; [exact N | reflexivity].
Qed.

Lemma consistente_criar_conta (b : Banco) (x : string) (i : nat) (p : PessoaFisica) :
  consistente b ->
  filtrar_cliente_por_cpf x (clientes b) = Some (i, p) ->
  let r : ref := fresh (dom (mem b)) in
  consistente
    {| clientes := alter (PessoaFisica.adicionar_conta r) i (clientes b);
       contas_main := contas_main b ++ [r];
       mem := <[r := OCorrente
                        (ContaCorrente.nova_conta i
                           (Z.of_nat (length (contas_main b)) + 1))]>
                (mem b) |}.
Proof.
  intros [C1 C2 C3 C4 C5 C6 C7] F r.
  apply filtrar_some in F. destruct F as [P _].
  assert (Fr : mem b !! r = None).
  { apply not_elem_of_dom. apply is_fresh. }
  assert (Nr : r ∉ contas_main b).
  { intros H. apply C3 in H. rewrite Fr in H. destruct H as [y H]. discriminate H. }
  assert (Nc : forall j q, clientes b !! j = Some q -> r ∉ contas (como_cliente q)).
  { intros j q Hq H. destruct (C5 j q r Hq H) as (cc & M & _). congruence. }
  split; cbn [clientes contas_main mem].
  - replace (cpf <$> alter (PessoaFisica.adicionar_conta r) i (clientes b))
      with (cpf <$> clientes b); [exact C1|].
    apply list_eq. intros j. rewrite !list_lookup_fmap.
    destruct (decide (j = i)) as [->|N].
    + rewrite list_lookup_alter_eq, P. reflexivity.
    + rewrite list_lookup_alter_ne by congruence. reflexivity.
  - apply NoDup_app. split; [exact C2|]. split.
    + intros y Hy Hy'. apply list_elem_of_singleton in Hy'. subst y. exact (Nr Hy).
    + apply NoDup_singleton.
  - intros r'. rewrite elem_of_app, list_elem_of_singleton, C3.
    destruct (decide (r' = r)) as [->|N].
    + rewrite lookup_insert_eq. split; [intros _; eexists; reflexivity | right; reflexivity].
    + rewrite lookup_insert_ne by congruence. split; [intros [H|H]; [exact H | congruence] | left; assumption].
  - intros j r' H. apply lookup_app_Some in H. destruct H as [H|[Hl H]].
    + destruct (C4 j r' H) as (cj & Mj & Nj & Aj & Lj & LSj & Coj & Ctj & pj & Pj & Rj).
      assert (r' <> r).
      { intros ->. apply Nr. eapply list_elem_of_lookup_2. exact H. }
      exists cj. rewrite lookup_insert_ne by congruence.
      repeat (split; [assumption|]).
      destruct (decide (cliente (base cj) = i)) as [E|N].
      * exists (PessoaFisica.adicionar_conta r pj).
        rewrite E, list_lookup_alter_eq. rewrite E in Pj. rewrite Pj.
        split; [reflexivity|]. cbn. apply elem_of_app. left. exact Rj.
      * exists pj. rewrite list_lookup_alter_ne by congruence. split; assumption.
    + apply list_lookup_singleton_Some in H. destruct H as [Hj <-].
      eexists. rewrite lookup_insert_eq. split; [reflexivity|].
      cbn [ContaCorrente.nova_conta ContaCorrente.init Conta.init base numero
           agencia limite limite_saques cliente].
      split; [lia|]. split; [reflexivity|]. split; [reflexivity|].
      split; [reflexivity|]. split; [reflexivity|]. split.
      * split; cbn; [reflexivity | lia].
      * exists (PessoaFisica.adicionar_conta r p).
        rewrite list_lookup_alter_eq, P. split; [reflexivity|].
        cbn. apply elem_of_app. right. apply list_elem_of_singleton. reflexivity.
  - intros j q r' Hq Rq.
    destruct (alter_adicionar_lookup r i j _ q Hq) as (p0 & P0 & _ & _ & _ & D).
    destruct D as [[-> Ec]|[N ->]].
    + rewrite Ec in Rq. apply elem_of_app in Rq. destruct Rq as [Rq|Rq].
      * destruct (C5 i p0 r' P0 Rq) as (cc & M & Dc).
        exists cc. rewrite lookup_insert_ne by congruence. split; assumption.
      * apply list_elem_of_singleton in Rq. subst r'.
        eexists. rewrite lookup_insert_eq. split; reflexivity.
    + destruct (C5 j p0 r' P0 Rq) as (cc & M & Dc).
      exists cc. rewrite lookup_insert_ne by congruence. split; assumption.
  - intros j q Hq.
    destruct (alter_adicionar_lookup r i j _ q Hq) as (p0 & P0 & _ & _ & _ & D).
    destruct D as [[-> Ec]|[N ->]].
    + rewrite Ec. apply NoDup_app. split; [exact (C6 i p0 P0)|]. split.
      * intros y Hy Hy'. apply list_elem_of_singleton in Hy'. subst y.
        exact (Nc i p0 P0 Hy).
      * apply NoDup_singleton.
    + exact (C6 j p0 P0).
  - intros q Hq. apply list_elem_of_lookup in Hq. destruct Hq as [j Hq].
    destruct (alter_adicionar_lookup r i j _ q Hq) as (p0 & P0 & _ & _ & Ed & _).
    rewrite Ed. apply C7. eapply list_elem_of_lookup_2. exact P0.
Qed.

Lemma menu_normal (c c' : Console) (opcao : string) :
  menu c = (Normal opcao, c') -> stdin c = opcao :: stdin c'.
Proof.
  unfold menu. intros H. do 8 pula H.
  apply input_normal in H. destruct H as [H _].
  repeat match goal with
         | Hp : print _ _ = (Normal _, _) |- _ =>
             apply print_normal in Hp; destruct Hp as [Hp _]
         end.
  congruence.
Qed.

(** A turn of the loop that ends normally has read the option, and then
    only lines that follow it. *)
Lemma iteracao_resto (B : Builtins) (b : Banco) (c c' : Console)
    (r : Banco * bool) :
  iteracao B b c = (Normal r, c') ->
  exists (opcao : string) (resto : list string),
    stdin c = opcao :: resto /\ stdin c' `suffix_of` resto.
Proof.
  unfold iteracao. intros H. passo H as opcao c1 Hm.
  apply menu_normal in Hm. exists opcao, (stdin c1). split; [exact Hm|].
  revert H.
  repeat match goal with
         | |- (if ?x then _ else _) _ = _ -> _ => destruct x
         end;
    intros H.
  - refine (nc_bind _ _ _ _ _ _ _ H); [apply nc_criar_cliente | intros ?; apply nc_ret].
  - refine (nc_bind _ _ _ _ _ _ _ H); [apply nc_criar_conta | intros ?; apply nc_ret].
  - refine (nc_bind _ _ _ _ _ _ _ H); [apply nc_listar_contas | intros ?; apply nc_ret].
  - refine (nc_bind _ _ _ _ _ _ _ H); [apply nc_movimentar | intros ?; apply nc_ret].
  - refine (nc_bind _ _ _ _ _ _ _ H); [apply nc_movimentar | intros ?; apply nc_ret].
  - refine (nc_bind _ _ _ _ _ _ _ H); [apply nc_ver_extrato | intros ?; apply nc_ret].
  - refine (nc_bind _ _ _ _ _ _ _ H); [apply nc_print | intros ?; apply nc_ret].
  - refine (nc_bind _ _ _ _ _ _ _ H); [apply nc_print | intros ?; apply nc_ret].
Qed.

Lemma iteracao_consome (B : Builtins) (b : Banco) (c c' : Console)
    (r : Banco * bool) :
  iteracao B b c = (Normal r, c') -> (length (stdin c') < length (stdin c))%nat.
Proof.
  intros H. destruct (iteracao_resto B b c c' r H) as (opcao & resto & E & N).
  rewrite E. cbn [length]. apply suffix_length in N. lia.
Qed.

(** What a turn of the loop can do to the state. *)
Lemma iteracao_normal (B : Builtins) (b b' : Banco) (k : bool) (c c' : Console) :
  iteracao B b c = (Normal (b', k), c') ->
  b' = b
  \/ (exists (x n e : string) (d : Data),
        filtrar_cliente_por_cpf x (clientes b) = None
        /\ data_valida d = true
        /\ b' = {| clientes := clientes b ++ [PessoaFisica.init x n d e];
                   contas_main := contas_main b;
                   mem := mem b |})
  \/ (exists (x : string) (i : nat) (p : PessoaFisica),
        filtrar_cliente_por_cpf x (clientes b) = Some (i, p)
        /\ let r : ref := fresh (dom (mem b)) in
           b' = {| clientes := alter (PessoaFisica.adicionar_conta r) i (clientes b);
                   contas_main := contas_main b ++ [r];
                   mem := <[r := OCorrente
                                    (ContaCorrente.nova_conta i
                                       (Z.of_nat (length (contas_main b)) + 1))]>
                            (mem b) |})
  \/ (exists (x : string) (i : nat) (p : PessoaFisica) (r : ref) (o : Objeto)
             (ch : Chamada),
        filtrar_cliente_por_cpf x (clientes b) = Some (i, p)
        /\ r ∈ contas (como_cliente p)
        /\ mem b !! r = Some o
        /\ b' = {| clientes := clientes b;
                   contas_main := contas_main b;
                   mem := <[r := estado (chamar ch o)]> (mem b) |}).
Proof.
  unfold iteracao. intros H. passo H as opcao c1 Hm. revert H.
  repeat match goal with
         | |- (if ?x then _ else _) _ = _ -> _ => destruct x
         end;
    intros H.
  - passo H as b1 c2 H1. fim H. injection H as E1 E2. subst.
    apply criar_cliente_normal in H1.
    destruct H1 as [H1|H1]; [left; exact H1 | right; left; exact H1].
  - passo H as b1 c2 H1. fim H. injection H as E1 E2. subst.
    apply criar_conta_normal in H1.
    destruct H1 as [H1|H1]; [left; exact H1 | right; right; left; exact H1].
  - passo H as b1 c2 H1. fim H. injection H as E1 E2. subst.
    apply listar_contas_normal in H1. left. exact H1.
  - passo H as b1 c2 H1. fim H. injection H as E1 E2. subst.
    apply movimentar_normal in H1. destruct H1 as [H1|H1]; [left; exact H1|].
    destruct H1 as (x & i & p & r & o & valor & F & R & M & E).
    right. right. right. exists x, i, p, r, o, (Depositar valor).
    repeat (split; [assumption|]). exact E.
  - passo H as b1 c2 H1. fim H. injection H as E1 E2. subst.
    apply movimentar_normal in H1. destruct H1 as [H1|H1]; [left; exact H1|].
    destruct H1 as (x & i & p & r & o & valor & F & R & M & E).
    right. right. right. exists x, i, p, r, o, (Sacar valor).
    repeat (split; [assumption|]). exact E.
  - passo H as b1 c2 H1. fim H. injection H as E1 E2. subst.
    apply ver_extrato_normal in H1. left. exact H1.
  - pula H. fim H. injection H as E1 E2. subst. left. reflexivity.
  - pula H. fim H. injection H as E1 E2. subst. left. reflexivity.
Qed.

Lemma iteracao_consistente (B : Builtins) (b b' : Banco) (k : bool) (c c' : Console) :
  consistente b -> iteracao B b c = (Normal (b', k), c') -> consistente b'.
Proof.
  intros C H. apply iteracao_normal in H.
  destruct H as [->|[H|[H|H]]].
  - exact C.
  - destruct H as (x & n & e & d & F & V & ->).
    apply consistente_criar_cliente; assumption.
  - destruct H as (x & i & p & F & ->).
    eapply consistente_criar_conta; eassumption.
  - destruct H as (x & i & p & r & o & ch & F & R & M & ->).
    apply filtrar_some in F. destruct F as [P _].
    eapply consistente_movimentar; eassumption.
Qed.

Lemma alcancavel_consistente (B : Builtins) (b : Banco) :
  alcancavel B b -> consistente b.
Proof.
  induction 1 as [|b b' c c' _ IH H].
  - apply consistente_vazio.
  - eapply iteracao_consistente; eassumption.
Qed.

(** ** The exceptions of [main] *)

Lemma sg_ret {A : Type} (a : A) : so_fim_ou_overflow (mret a : IO A).
Proof. intros c c' e H. discriminate H. Qed.

Lemma sg_print (l : string) : so_fim_ou_overflow (print l).
Proof. intros c c' e H. discriminate H. Qed.

Lemma sg_input (p : string) : so_fim_ou_overflow (input p).
Proof.
  intros c c' e H. unfold input in H.
  destruct (stdin c); [|discriminate H].
  injection H as <- <-. left. split; reflexivity.
Qed.

Lemma sg_overflow {A : Type} : so_fim_ou_overflow (levantar OverflowError : IO A).
Proof. intros c c' e H. injection H as <- _. right. reflexivity. Qed.

Lemma sg_bind {A C : Type} (m : IO A) (f : A -> IO C) :
  so_fim_ou_overflow m ->
  (forall a c c1, m c = (Normal a, c1) -> so_fim_ou_overflow (f a)) ->
  so_fim_ou_overflow (m ≫= f).
Proof.
  intros Hm Hf c c' e H. unfold mbind, io_bind in H.
  destruct (m c) as [[a|e'] c1] eqn:E.
  - exact (Hf a c c1 E c1 c' e H).
  - injection H as <- <-. exact (Hm c c1 e' E).
Qed.

Lemma sg_seq {A C : Type} (m : IO A) (k : IO C) :
  so_fim_ou_overflow m -> so_fim_ou_overflow k ->
  so_fim_ou_overflow (m ≫= fun _ => k).
Proof. intros Hm Hk. apply sg_bind; [exact Hm | intros _ _ _ _; exact Hk]. Qed.

Lemma sg_para_cada {A : Type} (f : A -> IO unit) (l : list A) :
  (forall a, a ∈ l -> so_fim_ou_overflow (f a)) ->
  so_fim_ou_overflow (para_cada f l).
Proof.
  induction l as [|x l IH]; intros Hf; cbn [para_cada].
  - apply sg_ret.
  - apply sg_seq.
    + apply Hf. apply list_elem_of_here.
    + apply IH. intros a Ha. apply Hf. apply list_elem_of_further. exact Ha.
Qed.

Lemma sg_objeto (b : Banco) (r : ref) :
  is_Some (mem b !! r) -> so_fim_ou_overflow (objeto b r).
Proof. intros [o H]. unfold objeto. rewrite H. apply sg_ret. Qed.

Lemma sg_str_da_conta (b : Banco) (r : ref) :
  is_Some (mem b !! r) -> so_fim_ou_overflow (str_da_conta b r).
Proof.
  intros H. unfold str_da_conta. apply sg_bind; [apply sg_objeto; exact H|].
  intros; apply sg_ret.
Qed.

Lemma sg_get_conta_cliente (B : Builtins) (b : Banco) (p : PessoaFisica) :
  (forall r, r ∈ contas (como_cliente p) -> is_Some (mem b !! r)) ->
  so_fim_ou_overflow (get_conta_cliente B b p).
Proof.
  intros Hm. unfold get_conta_cliente.
  destruct (contas (como_cliente p)) as [|r1 [|r2 l]] eqn:E.
  - apply sg_seq; [apply sg_print | apply sg_ret].
  - apply sg_ret.
  - apply sg_seq; [apply sg_print|]. apply sg_seq.
    + apply sg_para_cada. intros [j r] Hj. cbn [snd fst].
      apply sg_bind; [|intros; apply sg_print].
      apply sg_str_da_conta. apply Hm.
      apply list_elem_of_lookup in Hj. destruct Hj as [n Hn].
      rewrite list_lookup_imap in Hn.
      destruct ((r1 :: r2 :: l) !! n) as [r'|] eqn:L; [|discriminate Hn].
      injection Hn as _ <-. eapply list_elem_of_lookup_2. exact L.
    + apply sg_bind; [apply sg_input|]. intros linha _ _ _.
      destruct (py_int B linha) as [n|].
      * destruct (_ && _); [apply sg_ret|].
        apply sg_seq; [apply sg_print | apply sg_ret].
      * apply sg_seq; [apply sg_print | apply sg_ret].
Qed.

Lemma sg_ler_data (B : Builtins) (s : string) : so_fim_ou_overflow (ler_data B s).
Proof.
  unfold ler_data.
  assert (P : so_fim_ou_overflow
                (print "Formato de data inválido. Usando data padrão." ;;
                 mret data_padrao))
    by (apply sg_seq; [apply sg_print | apply sg_ret]).
  destruct (split "-" s) as [|f1 [|f2 [|f3 [|f4 l]]]]; try exact P.
  destruct (py_int B f1); [|exact P].
  destruct (py_int B f2); [|exact P].
  destruct (py_int B f3); [|exact P].
  destruct (date _ _ _); [apply sg_ret | exact P | apply sg_overflow].
Qed.

Lemma sg_criar_cliente (B : Builtins) (b : Banco) :
  so_fim_ou_overflow (criar_cliente B b).
Proof.
  unfold criar_cliente. apply sg_seq; [apply sg_print|].
  apply sg_bind; [apply sg_input|]. intros x _ _ _.
  destruct (filtrar_cliente_por_cpf x (clientes b)).
  - apply sg_seq; [apply sg_print | apply sg_ret].
  - apply sg_bind; [apply sg_input|]. intros n _ _ _.
    apply sg_bind; [apply sg_input|]. intros s _ _ _.
    apply sg_bind; [apply sg_ler_data|]. intros d _ _ _.
    apply sg_bind; [apply sg_input|]. intros e _ _ _.
    apply sg_seq; [apply sg_print | apply sg_ret].
Qed.

Lemma sg_criar_conta (b : Banco) : so_fim_ou_overflow (criar_conta b).
Proof.
  unfold criar_conta. apply sg_seq; [apply sg_print|].
  apply sg_bind; [apply sg_input|]. intros x _ _ _.
  destruct (filtrar_cliente_por_cpf x (clientes b)) as [[i p]|];
    (apply sg_seq; [apply sg_print | apply sg_ret]).
Qed.

Lemma contas_com_objeto (b : Banco) (x : string) (i : nat) (p : PessoaFisica) :
  consistente b ->
  filtrar_cliente_por_cpf x (clientes b) = Some (i, p) ->
  forall r, r ∈ contas (como_cliente p) -> is_Some (mem b !! r).
Proof.
  intros C F r R. apply filtrar_some in F. destruct F as [P _].
  destruct (cs_dono b C i p r P R) as (cc & M & _). eexists. exact M.
Qed.

Lemma sg_listar_contas (b : Banco) :
  consistente b -> so_fim_ou_overflow (listar_contas b).
Proof.
  intros C. unfold listar_contas.
  apply sg_bind; [apply sg_input|]. intros x _ _ _.
  destruct (filtrar_cliente_por_cpf x (clientes b)) as [[i p]|] eqn:F.
  - pose proof (contas_com_objeto b x i p C F) as Hm.
    destruct (contas (como_cliente p)) as [|r l].
    + apply sg_seq; [apply sg_print | apply sg_ret].
    + apply sg_seq; [apply sg_print|]. apply sg_seq; [|apply sg_ret].
      apply sg_para_cada. intros r' Hr.
      apply sg_bind; [|intros; apply sg_print].
      apply sg_str_da_conta. apply Hm. exact Hr.
  - apply sg_seq; [apply sg_print | apply sg_ret].
Qed.

Lemma sg_movimentar (B : Builtins) (prompt : string)
    (metodo : float -> Objeto -> Res Objeto bool) (b : Banco) :
  consistente b -> so_fim_ou_overflow (movimentar B prompt metodo b).
Proof.
  intros C. unfold movimentar.
  apply sg_bind; [apply sg_input|]. intros x _ _ _.
  destruct (filtrar_cliente_por_cpf x (clientes b)) as [[i p]|] eqn:F.
  - pose proof (contas_com_objeto b x i p C F) as Hm.
    apply sg_bind; [apply sg_get_conta_cliente; exact Hm|].
    intros [r|] k k' Hg; [|apply sg_ret].
    apply get_conta_cliente_in in Hg.
    apply sg_bind; [apply sg_input|]. intros linha _ _ _.
    destruct (py_float B linha) as [valor|].
    + apply sg_bind; [apply sg_objeto; apply Hm; exact Hg|]. intros o _ _ _.
      apply sg_seq; [|apply sg_ret].
      apply sg_para_cada. intros; apply sg_print.
    + apply sg_seq; [apply sg_print | apply sg_ret].
  - apply sg_seq; [apply sg_print | apply sg_ret].
Qed.

Lemma sg_ver_extrato (B : Builtins) (b : Banco) :
  consistente b -> so_fim_ou_overflow (ver_extrato B b).
Proof.
  intros C. unfold ver_extrato.
  apply sg_bind; [apply sg_input|]. intros x _ _ _.
  destruct (filtrar_cliente_por_cpf x (clientes b)) as [[i p]|] eqn:F.
  - pose proof (contas_com_objeto b x i p C F) as Hm.
    apply sg_bind; [apply sg_get_conta_cliente; exact Hm|].
    intros [r|] k k' Hg; [|apply sg_ret].
    apply get_conta_cliente_in in Hg.
    apply sg_bind; [apply sg_objeto; apply Hm; exact Hg|]. intros o _ _ _.
    do 5 (apply sg_seq; [apply sg_print|]).
    destruct o; [apply sg_ret|].
    do 2 (apply sg_seq; [apply sg_print|]). apply sg_ret.
  - apply sg_seq; [apply sg_print | apply sg_ret].
Qed.

Lemma sg_menu : so_fim_ou_overflow menu.
Proof. unfold menu. do 8 (apply sg_seq; [apply sg_print|]). apply sg_input. Qed.

Lemma sg_iteracao (B : Builtins) (b : Banco) :
  consistente b -> so_fim_ou_overflow (iteracao B b).
Proof.
  intros C. unfold iteracao. apply sg_bind; [apply sg_menu|].
  intros opcao _ _ _.
  repeat match goal with
         | |- so_fim_ou_overflow (if ?x then _ else _) => destruct x
         end.
  - apply sg_bind; [apply sg_criar_cliente | intros; apply sg_ret].
  - apply sg_bind; [apply sg_criar_conta | intros; apply sg_ret].
  - apply sg_bind; [apply sg_listar_contas; exact C | intros; apply sg_ret].
  - apply sg_bind; [apply sg_movimentar; exact C | intros; apply sg_ret].
  - apply sg_bind; [apply sg_movimentar; exact C | intros; apply sg_ret].
  - apply sg_bind; [apply sg_ver_extrato; exact C | intros; apply sg_ret].
  - apply sg_seq; [apply sg_print | apply sg_ret].
  - apply sg_seq; [apply sg_print | apply sg_ret].
Qed.

(** ** The loop *)

Lemma menu_opcao (c c' : Console) (opcao : string) :
  menu c = (Normal opcao, c') -> exists resto, stdin c = opcao :: resto.
Proof. intros H. apply menu_normal in H. eexists. exact H. Qed.

(** The option read decides what a turn may do. *)
Lemma iteracao_opcao (B : Builtins) (b b' : Banco) (k : bool) (c c' : Console) :
  iteracao B b c = (Normal (b', k), c') ->
  exists (opcao : string) (resto : list string),
    stdin c = opcao :: resto
    /\ (k = false <-> opcao = "0")
    /\ (opcao <> "1" -> opcao <> "2" -> opcao <> "4" -> opcao <> "5" -> b' = b).
Proof.
  unfold iteracao. intros H. passo H as opcao c1 Hm.
  destruct (menu_opcao _ _ _ Hm) as [resto E].
  exists opcao, resto. split; [exact E|]. revert H.
  repeat match goal with
         | |- (if String.eqb ?x ?y then _ else _) _ = _ -> _ =>
             destruct (String.eqb_spec x y)
         end;
    intros H; subst.
  - passo H as b1 c2 H1. fim H. injection H as E1 E2. subst.
    split; [split; discriminate | congruence].
  - passo H as b1 c2 H1. fim H. injection H as E1 E2. subst.
    split; [split; discriminate | congruence].
  - passo H as b1 c2 H1. fim H. injection H as E1 E2. subst.
    apply listar_contas_normal in H1. split; [split; discriminate | auto].
  - passo H as b1 c2 H1. fim H. injection H as E1 E2. subst.
    split; [split; discriminate | congruence].
  - passo H as b1 c2 H1. fim H. injection H as E1 E2. subst.
    split; [split; discriminate | congruence].
  - passo H as b1 c2 H1. fim H. injection H as E1 E2. subst.
    apply ver_extrato_normal in H1. split; [split; discriminate | auto].
  - pula H. fim H. injection H as E1 E2. subst. split; [split; reflexivity | auto].
  - pula H. fim H. injection H as E1 E2. subst.
    split; [split; [discriminate | congruence] | auto].
Qed.

Lemma laco_resultado (B : Builtins) (turnos : nat) (b : Banco) (c c' : Console)
    (r : Resultado (option Banco)) :
  alcancavel B b ->
  (length (stdin c) < turnos)%nat ->
  laco B turnos b c = (r, c') ->
  (exists b' : Banco, r = Normal (Some b') /\ alcancavel B b')
  \/ (r = Levanta EOFError /\ stdin c' = [])
  \/ r = Levanta OverflowError.
Proof.
  revert b c. induction turnos as [|n IH]; intros b c A L H; [lia|].
  cbn [laco] in H. unfold mbind, io_bind in H.
  destruct (iteracao B b c) as [[[b1 k]|e] c1] eqn:E.
  - pose proof (iteracao_consome B b c c1 (b1, k) E) as Lc.
    destruct k.
    + apply (IH b1 c1); [|lia|exact H].
      eapply alcancavel_turno; eassumption.
    + injection H as <- <-. left. exists b1. split; [reflexivity|].
      destruct (iteracao_opcao B b b1 false c c1 E) as (op & resto & _ & [K _] & U).
      rewrite (K eq_refl) in U. rewrite U by discriminate. exact A.
  - injection H as <- <-.
    destruct (sg_iteracao B b (alcancavel_consistente B b A) c c1 e E)
      as [[-> S]| ->].
    + right. left. split; [reflexivity | exact S].
    + right. right. reflexivity.
Qed.

(** The loop is left only after the option [0] was read. *)
Lemma laco_sai_com_zero (B : Builtins) (turnos : nat) (b b' : Banco)
    (c c' : Console) :
  laco B turnos b c = (Normal (Some b'), c') -> "0" ∈ stdin c.
Proof.
  revert b c. induction turnos as [|n IH]; intros b c H; [discriminate H|].
  cbn [laco] in H. unfold mbind, io_bind in H.
  destruct (iteracao B b c) as [[[b1 k]|e] c1] eqn:E; [|discriminate H].
  destruct (iteracao_resto B b c c1 (b1, k) E) as (opcao & resto & S1 & N).
  destruct (iteracao_opcao B b b1 k c c1 E) as (op & rs & S2 & K & _).
  rewrite S1 in S2. injection S2 as <- <-. rewrite S1.
  destruct k.
  - apply IH in H. apply list_elem_of_further.
    destruct N as [pre ->]. apply elem_of_app. right. exact H.
  - destruct K as [K _]. rewrite <- (K eq_refl). apply list_elem_of_here.
Qed.

Lemma banco_de_exemplo_alcancavel : alcancavel builtins_de_exemplo banco_de_exemplo.
Proof.
  unfold banco_de_exemplo, main.
  destruct (laco builtins_de_exemplo 100 banco_vazio
                 (mkConsole sessao_de_exemplo [])) as [r c'] eqn:E.
  assert (L : (length (stdin (mkConsole sessao_de_exemplo [])) < 100)%nat)
    by (vm_compute; lia).
  destruct (laco_resultado builtins_de_exemplo 100 banco_vazio _ c' r
              (alcancavel_inicio _) L E)
    as [(b' & -> & A)|[[-> _]| ->]].
  - exact A.
  - apply alcancavel_inicio.
  - apply alcancavel_inicio.
Qed.

(** ** Computations that only write *)

Lemma nl_ret {A : Type} (a : A) : nao_le (mret a : IO A).
Proof. intros c c' r H. injection H as _ <-. reflexivity. Qed.

Lemma nl_levantar {A : Type} (e : Excecao) : nao_le (levantar e : IO A).
Proof. intros c c' r H. injection H as _ <-. reflexivity. Qed.

Lemma nl_print (l : string) : nao_le (print l).
Proof. intros c c' r H. injection H as _ <-. reflexivity. Qed.

Lemma nl_bind {A C : Type} (m : IO A) (f : A -> IO C) :
  nao_le m -> (forall a, nao_le (f a)) -> nao_le (m ≫= f).
Proof.
  intros Hm Hf c c' r H. unfold mbind, io_bind in H.
  destruct (m c) as [[a|e] c1] eqn:E.
  - rewrite (Hf a c1 c' r H). exact (Hm c c1 _ E).
  - injection H as _ <-. exact (Hm c c1 _ E).
Qed.

Lemma nl_para_cada {A : Type} (f : A -> IO unit) (l : list A) :
  (forall a, nao_le (f a)) -> nao_le (para_cada f l).
Proof.
  intros Hf. induction l as [|x l IH]; cbn [para_cada].
  - apply nl_ret.
  - apply nl_bind; [apply Hf | intros _; exact IH].
Qed.

Lemma nl_str_da_conta (b : Banco) (r : ref) : nao_le (str_da_conta b r).
Proof.
  unfold str_da_conta. apply nl_bind.
  - unfold objeto. destruct (mem b !! r); [apply nl_ret | apply nl_levantar].
  - intros o. apply nl_ret.
Qed.

(** The choice among two accounts or more. *)
Lemma get_conta_cliente_escolha (B : Builtins) (b : Banco) (p : PessoaFisica)
    (c c' : Console) (res : option ref) :
  (2 <= length (contas (como_cliente p)))%nat ->
  get_conta_cliente B b p c = (Normal res, c') ->
  exists linha : string,
    stdin c = linha :: stdin c'
    /\ res = match py_int B linha with
             | Some n =>
                 if (1 <=? n) && (n <=? Z.of_nat (length (contas (como_cliente p))))
                 then contas (como_cliente p) !! Z.to_nat (n - 1)
                 else None
             | None => None
             end.
Proof.
  unfold get_conta_cliente.
  destruct (contas (como_cliente p)) as [|r1 [|r2 l]] eqn:E; intros L H;
    [cbn in L; lia | cbn in L; lia |].
  passo H as u1 c1 H1. apply print_normal in H1. destruct H1 as [S1 _].
  passo H as u2 c2 H2.
  assert (S2 : stdin c2 = stdin c1).
  { refine (nl_para_cada _ _ _ _ _ _ H2). intros [i r].
    apply nl_bind; [apply nl_str_da_conta | intros s; apply nl_print]. }
  passo H as linha c3 H3. apply input_normal in H3. destruct H3 as [S3 _].
  assert (Sc : stdin c = linha :: stdin c3).
  { rewrite <- S3, S2. rewrite S1. reflexivity. }
  exists linha. destruct (py_int B linha) as [n|].
  - assert (Q : (1 <=? n) && (n <=? Z.of_nat (length (r1 :: r2 :: l)))
                = (0 <=? n - 1) && (n - 1 <? Z.of_nat (length (r1 :: r2 :: l)))).
    { apply eq_true_iff_eq.
      rewrite !andb_true_iff, !Z.leb_le, Z.ltb_lt. lia. }
    rewrite Q.
    destruct ((0 <=? n - 1) && (n - 1 <? Z.of_nat (length (r1 :: r2 :: l)))).
    + fim H. subst res. split; [|reflexivity]. congruence.
    + pula H. apply print_normal in Hp. destruct Hp as [Sp _].
      fim H. subst res. split; [|reflexivity]. rewrite Sc. congruence.
  - pula H. apply print_normal in Hp. destruct Hp as [Sp _].
    fim H. subst res. split; [|reflexivity]. rewrite Sc. congruence.
Qed.

(** ** The menu program: selection of an account *)

(** X5.  [get_conta_cliente], when it returns: the account returned is one
    of the client's.  A client without accounts gets [None] and nothing is
    read; a client with one account gets it, and nothing is read or written;
    otherwise exactly one line is read, and position [n] of the list is
    returned when [int] of the line is [n] with [1 <= n <= len(contas)],
    [None] in every other case. *)
Theorem X5_get_conta_cliente :
  forall (B : Builtins) (b : Banco) (pessoa : PessoaFisica) (c c' : Console)
         (res : option ref),
    get_conta_cliente B b pessoa c = (Normal res, c') ->
    (forall r : ref, res = Some r -> r ∈ contas (como_cliente pessoa))
    /\ match contas (como_cliente pessoa) with
       | [] => res = None /\ stdin c' = stdin c
       | [r] => res = Some r /\ c' = c
       | varias =>
           exists linha : string,
             stdin c = linha :: stdin c'
             /\ res = match py_int B linha with
                      | Some n =>
                          if (1 <=? n) && (n <=? Z.of_nat (length varias))
                          then varias !! Z.to_nat (n - 1)
                          else None
                      | None => None
                      end
       end.
Proof.
  intros B b pessoa c c' res H. split.
  - intros r ->. eapply get_conta_cliente_in. exact H.
  - destruct (contas (como_cliente pessoa)) as [|r1 [|r2 l]] eqn:E.
    + unfold get_conta_cliente in H. rewrite E in H.
      pula H. apply print_normal in Hp. destruct Hp as [Sp _].
      fim H. subst. split; [reflexivity | exact Sp].
    + unfold get_conta_cliente in H. rewrite E in H.
      fim H. subst. split; reflexivity.
    + rewrite <- E. apply (get_conta_cliente_escolha B b pessoa c c' res).
      * rewrite E. cbn [length]. lia.
      * exact H.
Qed.

(** Ana has two accounts; asked which one, the user answers [2]. *)
Lemma X5_get_conta_cliente_witness :
  let c := mkConsole ["2"] [] in
  let r := get_conta_cliente builtins_de_exemplo banco_de_exemplo ana c in
  r.1 = Normal (Some 2%nat)
  /\ 2%nat ∈ contas (como_cliente ana)
  /\ exists linha : string,
       stdin c = linha :: stdin r.2
       /\ Some 2%nat
          = match py_int builtins_de_exemplo linha with
            | Some n =>
                if (1 <=? n) && (n <=? Z.of_nat (length (contas (como_cliente ana))))
                then contas (como_cliente ana) !! Z.to_nat (n - 1)
                else None
            | None => None
            end.
Proof.
  cbv zeta.
  pose proof (X5_get_conta_cliente builtins_de_exemplo banco_de_exemplo ana
                (mkConsole ["2"] [])
                (get_conta_cliente builtins_de_exemplo banco_de_exemplo ana
                   (mkConsole ["2"] [])).2
                (Some 2%nat)) as H.
  destruct H as [H1 H2].
  - vm_compute. reflexivity.
  - split; [vm_compute; reflexivity|]. split; [apply H1; reflexivity|].
    exact H2.
Defined.

(** ** The menu program: the loop *)

(** X6.  [main] on an input of fewer lines than the turns allowed: it ends,
    either by returning, in a state the loop reaches, after the option [0],
    or by [EOFError] with the whole input read, or by the [OverflowError] of
    [date].  It raises nothing else; no reference to an account is ever
    dangling. *)
Theorem X6_main_termina :
  forall (B : Builtins) (turnos : nat) (c c' : Console)
         (r : Resultado (option Banco)),
    (length (stdin c) < turnos)%nat ->
    main B turnos c = (r, c') ->
    (exists b : Banco, r = Normal (Some b) /\ alcancavel B b /\ "0" ∈ stdin c)
    \/ (r = Levanta EOFError /\ stdin c' = [])
    \/ r = Levanta OverflowError.
Proof.
  intros B turnos c c' r L H. unfold main in H.
  destruct (laco_resultado B turnos banco_vazio c c' r (alcancavel_inicio B) L H)
    as [(b & -> & A)|[K|K]].
  - left. exists b. split; [reflexivity|]. split; [exact A|].
    eapply laco_sai_com_zero. exact H.
  - right. left. exact K.
  - right. right. exact K.
Qed.

(** The session of the examples ends by the option [0]; cut after the
    creation of the first client it ends by [EOFError]. *)
Lemma X6_main_termina_witness :
  (exists b : Banco,
     (main builtins_de_exemplo 100 (mkConsole sessao_de_exemplo [])).1
     = Normal (Some b)
     /\ alcancavel builtins_de_exemplo b /\ "0" ∈ sessao_de_exemplo)
  /\ (main builtins_de_exemplo 100 (mkConsole (take 5 sessao_de_exemplo) [])).1
     = Levanta EOFError.
Proof.
  split.
  - destruct (X6_main_termina builtins_de_exemplo 100
                (mkConsole sessao_de_exemplo [])
                (main builtins_de_exemplo 100 (mkConsole sessao_de_exemplo [])).2
                (main builtins_de_exemplo 100 (mkConsole sessao_de_exemplo [])).1)
      as [(b & E & A & Z)|[[E _]|E]].
    + vm_compute. lia.
    + apply surjective_pairing.
    + exists b. split; [exact E|]. split; [exact A | exact Z].
    + vm_compute in E. discriminate E.
    + vm_compute in E. discriminate E.
  - vm_compute. reflexivity.
Defined.

(** X7.  A turn of the loop of [main] that completes has read the option and
    then only lines that follow it.  The loop is left exactly when the
    option is [0].  Only the options [1], [2], [4] and [5] can change the
    state: listing the accounts, showing the statement, leaving, and an
    unknown option leave every client and every account as they were. *)
Theorem X7_turno_do_menu :
  forall (B : Builtins) (b b' : Banco) (continua : bool) (c c' : Console),
    iteracao B b c = (Normal (b', continua), c') ->
    exists (opcao : string) (resto : list string),
      stdin c = opcao :: resto
      /\ stdin c' `suffix_of` resto
      /\ (continua = false <-> opcao = "0")
      /\ (opcao <> "1" -> opcao <> "2" -> opcao <> "4" -> opcao <> "5" -> b' = b).
Proof.
  intros B b b' k c c' H.
  destruct (iteracao_resto B b c c' (b', k) H) as (opcao & resto & S1 & N).
  destruct (iteracao_opcao B b b' k c c' H) as (op & rs & S2 & K & U).
  rewrite S1 in S2. injection S2 as <- <-.
  exists opcao, resto. repeat (split; [assumption|]). exact U.
Qed.

(** The statement of Bia's account is asked for: the state is the same. *)
Lemma X7_turno_do_menu_witness :
  let c := mkConsole ["6"; "222"; "0"] [] in
  let r := iteracao builtins_de_exemplo banco_de_exemplo c in
  r.1 = Normal (banco_de_exemplo, true)
  /\ exists (opcao : string) (resto : list string),
       stdin c = opcao :: resto
       /\ stdin r.2 `suffix_of` resto
       /\ (true = false <-> opcao = "0")
       /\ (opcao <> "1" -> opcao <> "2" -> opcao <> "4" -> opcao <> "5" ->
           banco_de_exemplo = banco_de_exemplo).
Proof.
  cbv zeta. split; [vm_compute; reflexivity|].
  apply (X7_turno_do_menu builtins_de_exemplo banco_de_exemplo banco_de_exemplo
           true (mkConsole ["6"; "222"; "0"] [])).
  vm_compute. reflexivity.
Defined.

(** ** The menu program: what holds of every state it reaches *)

(** X8.  In every state of [main] no two clients have the same CPF, so each
    client is the one [filtrar_cliente_por_cpf] finds for its CPF. *)
Theorem X8_cpf_unico :
  forall (B : Builtins) (b : Banco),
    alcancavel B b ->
    NoDup (cpf <$> clientes b)
    /\ forall (i : nat) (p : PessoaFisica),
         clientes b !! i = Some p ->
         filtrar_cliente_por_cpf (cpf p) (clientes b) = Some (i, p).
Proof.
  intros B b A. apply alcancavel_consistente in A.
  destruct A as [N _ _ _ _ _ _]. split; [exact N|].
  intros i p H. rewrite filtrar_list_find. apply list_find_Some.
  split; [exact H|]. split; [reflexivity|].
  intros j q Hj L E.
  assert (J : (cpf <$> clientes b) !! j = Some (cpf p))
    by (rewrite list_lookup_fmap, Hj; cbn; congruence).
  assert (I : (cpf <$> clientes b) !! i = Some (cpf p))
    by (rewrite list_lookup_fmap, H; reflexivity).
  pose proof (NoDup_lookup _ _ _ _ N J I). lia.
Qed.

Lemma X8_cpf_unico_witness :
  alcancavel builtins_de_exemplo banco_de_exemplo
  /\ NoDup (cpf <$> clientes banco_de_exemplo)
  /\ filtrar_cliente_por_cpf (cpf ana) (clientes banco_de_exemplo)
     = Some (0%nat, ana).
Proof.
  split; [exact banco_de_exemplo_alcancavel|].
  destruct (X8_cpf_unico builtins_de_exemplo banco_de_exemplo
              banco_de_exemplo_alcancavel) as [N F].
  split; [exact N|]. apply F. vm_compute. reflexivity.
Defined.

(** X9.  In every state of [main] the list [contas] holds each account
    object once, and the account at position [i] is a [ContaCorrente] with
    the number [i + 1], the agency [0001], the overdraft [500.0] and the
    limit of [3] withdrawals: the numbers are [1, 2, ...] in the order of
    creation, and no two accounts have the same number. *)
Theorem X9_numeracao_das_contas :
  forall (B : Builtins) (b : Banco),
    alcancavel B b ->
    NoDup (contas_main b)
    /\ (forall r : ref, r ∈ contas_main b <-> is_Some (mem b !! r))
    /\ forall (i : nat) (r : ref),
         contas_main b !! i = Some r ->
         exists cc : ContaCorrente,
           mem b !! r = Some (OCorrente cc)
           /\ numero (base cc) = Z.of_nat i + 1
           /\ agencia (base cc) = "0001"
           /\ limite cc = F64.of_Z 500
           /\ limite_saques cc = 3.
Proof.
  intros B b A. apply alcancavel_consistente in A.
  destruct A as [_ N D C _ _ _]. split; [exact N|]. split; [exact D|].
  intros i r H. destruct (C i r H) as (cc & M & E1 & E2 & E3 & E4 & _).
  exists cc. repeat (split; [assumption|]). exact E4.
Qed.

Lemma X9_numeracao_das_contas_witness :
  alcancavel builtins_de_exemplo banco_de_exemplo
  /\ contas_main banco_de_exemplo !! 2%nat = Some 2%nat
  /\ exists cc : ContaCorrente,
       mem banco_de_exemplo !! 2%nat = Some (OCorrente cc)
       /\ numero (base cc) = 3
       /\ agencia (base cc) = "0001"
       /\ limite cc = F64.of_Z 500
       /\ limite_saques cc = 3.
Proof.
  split; [exact banco_de_exemplo_alcancavel|].
  split; [vm_compute; reflexivity|].
  destruct (X9_numeracao_das_contas builtins_de_exemplo banco_de_exemplo
              banco_de_exemplo_alcancavel) as (_ & _ & C).
  apply (C 2%nat 2%nat). vm_compute. reflexivity.
Defined.

(** X10.  In every state of [main] the accounts of the clients are the
    accounts of the list [contas]: each account of a client is registered
    and has that client as its [cliente]; each registered account is in the
    list of some client; no account is in the lists of two clients, or twice
    in one list. *)
Theorem X10_titularidade :
  forall (B : Builtins) (b : Banco),
    alcancavel B b ->
    (forall (i : nat) (p : PessoaFisica) (r : ref),
       clientes b !! i = Some p -> r ∈ contas (como_cliente p) ->
       r ∈ contas_main b
       /\ exists cc : ContaCorrente,
            mem b !! r = Some (OCorrente cc) /\ cliente (base cc) = i)
    /\ (forall r : ref,
          r ∈ contas_main b ->
          exists (i : nat) (p : PessoaFisica),
            clientes b !! i = Some p /\ r ∈ contas (como_cliente p))
    /\ (forall (i j : nat) (p q : PessoaFisica) (r : ref),
          clientes b !! i = Some p -> clientes b !! j = Some q ->
          r ∈ contas (como_cliente p) -> r ∈ contas (como_cliente q) -> i = j)
    /\ (forall (i : nat) (p : PessoaFisica),
          clientes b !! i = Some p -> NoDup (contas (como_cliente p))).
Proof.
  intros B b A. apply alcancavel_consistente in A.
  destruct A as [_ _ D C O S _]. split; [|split; [|split]].
  - intros i p r Hp Hr. destruct (O i p r Hp Hr) as (cc & M & E).
    split.
    + apply D. rewrite M. eexists. reflexivity.
    + exists cc. split; assumption.
  - intros r Hr. apply list_elem_of_lookup in Hr. destruct Hr as [k Hk].
    destruct (C k r Hk) as (cc & _ & _ & _ & _ & _ & _ & _ & p & Hp & Hr).
    exists (cliente (base cc)), p. split; assumption.
  - intros i j p q r Hp Hq Rp Rq.
    destruct (O i p r Hp Rp) as (cc & M & E).
    destruct (O j q r Hq Rq) as (cc' & M' & E').
    rewrite M in M'. injection M' as <-. congruence.
  - exact S.
Qed.

Lemma X10_titularidade_witness :
  alcancavel builtins_de_exemplo banco_de_exemplo
  /\ clientes banco_de_exemplo !! 0%nat = Some ana
  /\ 2%nat ∈ contas (como_cliente ana)
  /\ 2%nat ∈ contas_main banco_de_exemplo
  /\ exists cc : ContaCorrente,
       mem banco_de_exemplo !! 2%nat = Some (OCorrente cc)
       /\ cliente (base cc) = 0%nat.
Proof.
  split; [exact banco_de_exemplo_alcancavel|].
  assert (H1 : clientes banco_de_exemplo !! 0%nat = Some ana)
    by (vm_compute; reflexivity).
  assert (H2 : 2%nat ∈ contas (como_cliente ana))
    by (apply (list_elem_of_lookup_2 _ 1%nat); vm_compute; reflexivity).
  split; [exact H1|]. split; [exact H2|].
  destruct (X10_titularidade builtins_de_exemplo banco_de_exemplo
              banco_de_exemplo_alcancavel) as (O & _).
  exact (O 0%nat ana 2%nat H1 H2).
Defined.

(** X11.  In every state of [main] every account object is a
    [ContaCorrente] whose balance is the signed sum of its history and whose
    counter of withdrawals is the number of [Saque] entries of its history.
    That number is at most [3]: the counter is never reset, so through the
    menu an account makes three withdrawals in all. *)
Theorem X11_contas_do_menu :
  forall (B : Builtins) (b : Banco) (r : ref) (o : Objeto),
    alcancavel B b ->
    mem b !! r = Some o ->
    exists cc : ContaCorrente,
      o = OCorrente cc
      /\ saldo (base cc) = soma_assinada (transacoes (historico (base cc)))
      /\ numero_saques_realizados cc
         = n_saques (transacoes (historico (base cc)))
      /\ 0 <= n_saques (transacoes (historico (base cc))) <= 3.
Proof.
  intros B b r o A M. apply alcancavel_consistente in A.
  destruct A as [_ _ D C _ _ _].
  assert (R : r ∈ contas_main b) by (apply D; rewrite M; eexists; reflexivity).
  apply list_elem_of_lookup in R. destruct R as [k Hk].
  destruct (C k r Hk) as (cc & M' & _ & _ & _ & L & K & [E N] & _).
  rewrite M in M'. injection M' as ->. exists cc.
  split; [reflexivity|]. split; [exact K|]. split; [exact E|].
  rewrite <- E. rewrite L in N. lia.
Qed.

Lemma X11_contas_do_menu_witness :
  alcancavel builtins_de_exemplo banco_de_exemplo
  /\ exists cc : ContaCorrente,
       mem banco_de_exemplo !! 2%nat = Some (OCorrente cc)
       /\ saldo (base cc) = soma_assinada (transacoes (historico (base cc)))
       /\ numero_saques_realizados cc
          = n_saques (transacoes (historico (base cc)))
       /\ 0 <= n_saques (transacoes (historico (base cc))) <= 3.
Proof.
  split; [exact banco_de_exemplo_alcancavel|].
  destruct (mem banco_de_exemplo !! 2%nat) as [o|] eqn:M;
    [|vm_compute in M; discriminate M].
  destruct (X11_contas_do_menu builtins_de_exemplo banco_de_exemplo 2%nat o
              banco_de_exemplo_alcancavel M) as (cc & -> & H).
  exists cc. split; [reflexivity | exact H].
Defined.

(** X12.  In every state of [main] the date of birth of every client is a
    date of the calendar: the year in [1..9999], the month in [1..12], the
    day within the month. *)
Theorem X12_datas_validas :
  forall (B : Builtins) (b : Banco) (p : PessoaFisica),
    alcancavel B b ->
    p ∈ clientes b ->
    let d := data_nascimento p in
    1 <= ano d <= 9999 /\ 1 <= mes d <= 12
    /\ 1 <= dia d <= dias_no_mes (ano d) (mes d).
Proof.
  intros B b p A H d. apply alcancavel_consistente in A.
  destruct A as [_ _ _ _ _ _ V]. specialize (V p H). fold d in V.
  unfold data_valida in V. rewrite !andb_true_iff, !Z.leb_le in V. lia.
Qed.

(** Bia typed [31-04-2001], which is no date: hers is the default one. *)
Lemma X12_datas_validas_witness :
  let bia := mkPessoaFisica {| endereco := "Rua B, 2"; contas := [1%nat] |}
               "222" "Bia" (mkData 2000 1 1) in
  alcancavel builtins_de_exemplo banco_de_exemplo
  /\ bia ∈ clientes banco_de_exemplo
  /\ 1 <= 2000 <= 9999 /\ 1 <= 1 <= 12 /\ 1 <= 1 <= dias_no_mes 2000 1.
Proof.
  cbv zeta. split; [exact banco_de_exemplo_alcancavel|].
  assert (H : mkPessoaFisica {| endereco := "Rua B, 2"; contas := [1%nat] |}
                "222" "Bia" (mkData 2000 1 1) ∈ clientes banco_de_exemplo)
    by (apply (list_elem_of_lookup_2 _ 1%nat); vm_compute; reflexivity).
  split; [exact H|].
  exact (X12_datas_validas builtins_de_exemplo banco_de_exemplo _
           banco_de_exemplo_alcancavel H).
Defined.

(** ** The menu program: what a turn keeps *)

(** X13.  A turn of the loop of [main] takes nothing away.  Every client
    stays at its position with the same CPF, name, date of birth and
    address, and its accounts in the same order, new ones after them; the
    list [contas] grows at its end; every account object stays, with the
    same number, agency, holder, limits and class, and its history as it
    was, new entries after the old ones. *)
Theorem X13_turno_nada_remove :
  forall (B : Builtins) (b b' : Banco) (continua : bool) (c c' : Console),
    iteracao B b c = (Normal (b', continua), c') ->
    (forall (i : nat) (p : PessoaFisica),
       clientes b !! i = Some p ->
       exists p' : PessoaFisica,
         clientes b' !! i = Some p'
         /\ cpf p' = cpf p /\ nome p' = nome p
         /\ data_nascimento p' = data_nascimento p
         /\ endereco (como_cliente p') = endereco (como_cliente p)
         /\ exists novas : list ref,
              contas (como_cliente p') = contas (como_cliente p) ++ novas)
    /\ (exists novas : list ref, contas_main b' = contas_main b ++ novas)
    /\ (forall (r : ref) (o : Objeto),
          mem b !! r = Some o ->
          exists o' : Objeto,
            mem b' !! r = Some o'
            /\ identidade o' = identidade o
            /\ mesma_classe o o' = true
            /\ exists novas : list Transacao,
                 transacoes (historico (Objeto.conta o'))
                 = transacoes (historico (Objeto.conta o)) ++ novas).
Proof.
  intros B b b' k c c' H.
  assert (P0 : forall p : PessoaFisica,
             cpf p = cpf p /\ nome p = nome p
             /\ data_nascimento p = data_nascimento p
             /\ endereco (como_cliente p) = endereco (como_cliente p)
             /\ exists novas : list ref,
                  contas (como_cliente p) = contas (como_cliente p) ++ novas).
  { intros p. repeat (split; [reflexivity|]). exists []. symmetry. apply app_nil_r. }
  assert (O0 : forall o : Objeto,
             identidade o = identidade o /\ mesma_classe o o = true
             /\ exists novas : list Transacao,
                  transacoes (historico (Objeto.conta o))
                  = transacoes (historico (Objeto.conta o)) ++ novas).
  { intros o. split; [reflexivity|]. split; [destruct o; reflexivity|].
    exists []. symmetry. apply app_nil_r. }
  apply iteracao_normal in H. destruct H as [->|[H|[H|H]]].
  - split; [|split].
    + intros i p Hp. exists p. split; [exact Hp | apply P0].
    + exists []. symmetry. apply app_nil_r.
    + intros r o M. exists o. split; [exact M | apply O0].
  - destruct H as (x & n & e & d & _ & _ & ->). cbn [clientes contas_main mem].
    split; [|split].
    + intros i p Hp. exists p. split; [|apply P0].
      apply lookup_app_l_Some. exact Hp.
    + exists []. symmetry. apply app_nil_r.
    + intros r o M. exists o. split; [exact M | apply O0].
  - destruct H as (x & i & p & _ & ->). cbn [clientes contas_main mem].
    split; [|split].
    + intros j q Hq. destruct (decide (i = j)) as [<-|N].
      * exists (PessoaFisica.adicionar_conta (fresh (dom (mem b))) q).
        split; [rewrite list_lookup_alter_eq, Hq; reflexivity|].
        repeat (split; [reflexivity|]).
        exists [fresh (dom (mem b))]. reflexivity.
      * exists q. split; [|apply P0].
        rewrite list_lookup_alter_ne by exact N. exact Hq.
    + eexists. reflexivity.
    + intros r o M. exists o. split; [|apply O0].
      rewrite lookup_insert_ne; [exact M|].
      intros E. pose proof (is_fresh (dom (mem b))) as F.
      rewrite E in F. apply F. apply elem_of_dom. rewrite M. eexists. reflexivity.
  - destruct H as (x & i & p & r & o & ch & _ & _ & M & ->).
    cbn [clientes contas_main mem]. split; [|split].
    + intros j q Hq. exists q. split; [exact Hq | apply P0].
    + exists []. symmetry. apply app_nil_r.
    + intros r0 o0 M0. destruct (decide (r = r0)) as [<-|N].
      * rewrite M in M0. injection M0 as <-.
        exists (estado (chamar ch o)).
        split; [apply lookup_insert_eq|].
        destruct (operar_identidade (Validada ch) o) as [I K].
        split; [exact I|]. split; [exact K|].
        exact (operar_historico (Validada ch) o).
      * exists o0. split; [|apply O0].
        rewrite lookup_insert_ne by exact N. exact M0.
Qed.

(** Thirty more are withdrawn from the third account, which is Ana's. *)
Lemma X13_turno_nada_remove_witness :
  let c := mkConsole ["5"; "111"; "2"; "30"] [] in
  let r := iteracao builtins_de_exemplo banco_de_exemplo c in
  exists b' : Banco,
    r.1 = Normal (b', true)
    /\ contas_main b' = contas_main banco_de_exemplo
    /\ exists (o o' : Objeto),
         mem banco_de_exemplo !! 2%nat = Some o
         /\ mem b' !! 2%nat = Some o'
         /\ identidade o' = identidade o
         /\ transacoes (historico (Objeto.conta o'))
            = transacoes (historico (Objeto.conta o)) ++ [Saque (F64.of_Z 30)].
Proof.
  cbv zeta.
  destruct (iteracao builtins_de_exemplo banco_de_exemplo
              (mkConsole ["5"; "111"; "2"; "30"] [])) as [[[b' k]|e] c'] eqn:E;
    [|vm_compute in E; discriminate E].
  assert (K : k = true) by (vm_compute in E; congruence). subst k.
  exists b'. split; [reflexivity|].
  destruct (X13_turno_nada_remove builtins_de_exemplo banco_de_exemplo b' true
              _ c' E) as (_ & _ & O).
  split; [vm_compute in E; injection E as <- _; reflexivity|].
  destruct (mem banco_de_exemplo !! 2%nat) as [o|] eqn:M;
    [|vm_compute in M; discriminate M].
  destruct (O 2%nat o M) as (o' & M' & I & _ & _).
  exists o, o'. split; [reflexivity|]. split; [exact M'|]. split; [exact I|].
  vm_compute in E. injection E as <- _.
  vm_compute in M. injection M as <-.
  vm_compute in M'. injection M' as <-.
  vm_compute. reflexivity.
Defined.

(** ** The date of birth *)


(** ** Turns of the loop, run *)

Lemma para_cada_print (l : list string) (c : Console) :
  para_cada print l c
  = (Normal tt, {| stdin := stdin c; stdout := stdout c ++ (Escreve <$> l) |}).
Proof.
  revert c. induction l as [|x l IH]; intros c.
  - cbn. rewrite app_nil_r. destruct c; reflexivity.
  - cbn [para_cada]. unfold mbind, io_bind.
    unfold print at 1. rewrite IH. cbn [stdin stdout fmap list_fmap].
    rewrite <- app_assoc. reflexivity.
Qed.

Lemma menu_le (opcao : string) (resto : list string) (saida : list Evento) :
  menu {| stdin := opcao :: resto; stdout := saida |}
  = (Normal opcao, {| stdin := resto; stdout := saida ++ tela_do_menu |}).
Proof.
  unfold menu, mbind, io_bind, print, input. cbn [stdin stdout].
  rewrite <- !app_assoc. reflexivity.
Qed.

Lemma movimentar_uma_conta (B : Builtins)
    (metodo : float -> Objeto -> Res Objeto bool) (prompt : string) (b : Banco)
    (x linha : string) (resto : list string) (saida0 : list Evento)
    (i : nat) (p : PessoaFisica) (r : ref) (o : Objeto) (v : float) :
  filtrar_cliente_por_cpf x (clientes b) = Some (i, p) ->
  contas (como_cliente p) = [r] ->
  mem b !! r = Some o ->
  py_float B linha = Some v ->
  movimentar B prompt metodo b {| stdin := x :: linha :: resto; stdout := saida0 |}
  = (Normal {| clientes := clientes b; contas_main := contas_main b;
               mem := <[r := estado (metodo v o)]> (mem b) |},
     {| stdin := resto;
        stdout := saida0 ++ [Pergunta "CPF do titular: "; Pergunta prompt]
                    ++ (Escreve <$> saida (metodo v o)) |}).
Proof.
  intros F C M V.
  unfold movimentar, mbind, io_bind. unfold input at 1. cbn [stdin stdout].
  rewrite F. unfold get_conta_cliente. rewrite C.
  unfold mret at 1, io_ret. unfold input at 1. cbn [stdin stdout].
  rewrite V. unfold objeto. rewrite M. unfold mret at 1, io_ret.
  rewrite para_cada_print. cbn [stdin stdout]. unfold mret, io_ret.
  rewrite <- !app_assoc. reflexivity.
Qed.

(** X15.  A deposit or a withdrawal through the menu, for a client with one
    account: the turn reads the option, the CPF and the amount, asks the two
    questions, calls [depositar] or [sacar] of the account with the amount
    that [float] gives, and writes what the method prints; the method's
    verdict is dropped, and the loop goes on. *)
Theorem X15_movimento_pelo_menu :
  forall (B : Builtins) (b : Banco) (c : Console) (opcao x linha : string)
         (resto : list string) (i : nat) (p : PessoaFisica) (r : ref)
         (o : Objeto) (valor : float),
    opcao = "4" \/ opcao = "5" ->
    stdin c = opcao :: x :: linha :: resto ->
    filtrar_cliente_por_cpf x (clientes b) = Some (i, p) ->
    contas (como_cliente p) = [r] ->
    mem b !! r = Some o ->
    py_float B linha = Some valor ->
    let res :=
      if String.eqb opcao "4" then Objeto.depositar valor o
      else Objeto.sacar valor o in
    let prompt :=
      if String.eqb opcao "4" then "Valor do depósito: R$ "
      else "Valor do saque: R$ " in
    iteracao B b c
    = (Normal ({| clientes := clientes b; contas_main := contas_main b;
                  mem := <[r := estado res]> (mem b) |}, true),
       {| stdin := resto;
          stdout := stdout c ++ tela_do_menu
                      ++ [Pergunta "CPF do titular: "; Pergunta prompt]
                      ++ (Escreve <$> saida res) |}).
Proof.
  intros B b c opcao x linha resto i p r o valor Hop S F C M V res prompt.
  subst res prompt. destruct c as [inp out]. cbn [stdin stdout] in *. subst inp.
  unfold iteracao. unfold mbind at 1, io_bind at 1. rewrite menu_le.
  destruct Hop as [-> | ->]; cbn [String.eqb Ascii.eqb Bool.eqb].
  - unfold depositar_main, mbind, io_bind.
    rewrite (movimentar_uma_conta B Objeto.depositar _ b x linha resto _ i p r o valor)
      by assumption.
    unfold mret, io_ret. rewrite <- !app_assoc. reflexivity.
  - unfold sacar_main, mbind, io_bind.
    rewrite (movimentar_uma_conta B Objeto.sacar _ b x linha resto _ i p r o valor)
      by assumption.
    unfold mret, io_ret. rewrite <- !app_assoc. reflexivity.
Qed.

(** Fifty are deposited in Bia's account, her only one. *)
Lemma X15_movimento_pelo_menu_witness :
  let c := mkConsole ["4"; "222"; "50"; "0"] [] in
  exists (o : Objeto) (p : PessoaFisica),
    mem banco_de_exemplo !! 1%nat = Some o
    /\ filtrar_cliente_por_cpf "222" (clientes banco_de_exemplo) = Some (1%nat, p)
    /\ iteracao builtins_de_exemplo banco_de_exemplo c
       = (Normal ({| clientes := clientes banco_de_exemplo;
                     contas_main := contas_main banco_de_exemplo;
                     mem := <[1%nat := estado (Objeto.depositar (F64.of_Z 50) o)]>
                              (mem banco_de_exemplo) |}, true),
          {| stdin := ["0"];
             stdout := tela_do_menu
                         ++ [Pergunta "CPF do titular: ";
                             Pergunta "Valor do depósito: R$ "]
                         ++ [Escreve "Depósito realizado com sucesso."] |}).
Proof.
  cbv zeta.
  destruct (mem banco_de_exemplo !! 1%nat) as [o|] eqn:M;
    [|vm_compute in M; discriminate M].
  destruct (filtrar_cliente_por_cpf "222" (clientes banco_de_exemplo))
    as [[i p]|] eqn:F; [|vm_compute in F; discriminate F].
  assert (I : i = 1%nat) by (vm_compute in F; congruence). subst i.
  exists o, p. split; [reflexivity|]. split; [reflexivity|].
  assert (S : saida (Objeto.depositar (F64.of_Z 50) o)
              = ["Depósito realizado com sucesso."]).
  { vm_compute in M. injection M as <-. vm_compute. reflexivity. }
  change [Escreve "Depósito realizado com sucesso."]
    with (Escreve <$> ["Depósito realizado com sucesso."]).
  rewrite <- S.
  apply (X15_movimento_pelo_menu builtins_de_exemplo banco_de_exemplo
           (mkConsole ["4"; "222"; "50"; "0"] []) "4" "222" "50" ["0"]
           1%nat p 1%nat o (F64.of_Z 50)).
  - left. reflexivity.
  - reflexivity.
  - exact F.
  - vm_compute in F. injection F as <-. reflexivity.
  - exact M.
  - vm_compute. reflexivity.
Defined.

(** X16.  A turn that refuses the CPF typed in: option [1] with the CPF of a
    client that exists, or one of the options [2] to [6] with a CPF that no
    client has.  The turn reads the option and the CPF and nothing more,
    ends by the line of the error, changes nothing, and the loop goes on. *)
Theorem X16_cpf_recusado :
  forall (B : Builtins) (b : Banco) (c : Console) (opcao x : string)
         (resto : list string),
    stdin c = opcao :: x :: resto ->
    (opcao = "1" /\ is_Some (filtrar_cliente_por_cpf x (clientes b)))
    \/ (opcao ∈ ["2"; "3"; "4"; "5"; "6"]
        /\ filtrar_cliente_por_cpf x (clientes b) = None) ->
    exists saida : list Evento,
      iteracao B b c
      = (Normal (b, true),
         {| stdin := resto;
            stdout := stdout c ++ tela_do_menu ++ saida
                        ++ [Escreve (erro_de_cpf opcao)] |}).
Proof.
  intros B b c opcao x resto S H.
  destruct c as [inp out]. cbn [stdin stdout] in *. subst inp.
  unfold iteracao. unfold mbind at 1, io_bind at 1. rewrite menu_le.
  destruct H as [[-> [[i p] F]]|[Hop F]].
  - cbn [String.eqb Ascii.eqb Bool.eqb].
    exists [Escreve "--- Novo Cliente (Pessoa Física) ---";
            Pergunta "CPF (só números): "].
    unfold criar_cliente, mbind, io_bind, print, input. cbn [stdin stdout].
    rewrite F. unfold mret, io_ret. cbn [stdin stdout].
    rewrite <- !app_assoc. reflexivity.
  - repeat (apply elem_of_cons in Hop; destruct Hop as [->|Hop]);
      [..|apply elem_of_nil in Hop; destruct Hop];
      cbn [String.eqb Ascii.eqb Bool.eqb].
    + exists [Escreve "--- Nova Conta Corrente ---"; Pergunta "CPF do titular: "].
      unfold criar_conta, mbind, io_bind, print, input. cbn [stdin stdout].
      rewrite F. unfold mret, io_ret. cbn [stdin stdout].
      rewrite <- !app_assoc. reflexivity.
    + exists [Pergunta "CPF do titular: "].
      unfold listar_contas, mbind, io_bind, print, input. cbn [stdin stdout].
      rewrite F. unfold mret, io_ret. cbn [stdin stdout].
      rewrite <- !app_assoc. reflexivity.
    + exists [Pergunta "CPF do titular: "].
      unfold depositar_main, movimentar, mbind, io_bind, print, input.
      cbn [stdin stdout].
      rewrite F. unfold mret, io_ret. cbn [stdin stdout].
      rewrite <- !app_assoc. reflexivity.
    + exists [Pergunta "CPF do titular: "].
      unfold sacar_main, movimentar, mbind, io_bind, print, input.
      cbn [stdin stdout].
      rewrite F. unfold mret, io_ret. cbn [stdin stdout].
      rewrite <- !app_assoc. reflexivity.
    + exists [Pergunta "CPF do titular: "].
      unfold ver_extrato, mbind, io_bind, print, input. cbn [stdin stdout].
      rewrite F. unfold mret, io_ret. cbn [stdin stdout].
      rewrite <- !app_assoc. reflexivity.
Qed.

(** A second client with the CPF of Ana is refused. *)
Lemma X16_cpf_recusado_witness :
  exists saida : list Evento,
    iteracao builtins_de_exemplo banco_de_exemplo (mkConsole ["1"; "111"; "Eva"] [])
    = (Normal (banco_de_exemplo, true),
       {| stdin := ["Eva"];
          stdout := tela_do_menu ++ saida
                      ++ [Escreve "Erro: Já existe um cliente com este CPF."] |}).
Proof.
  apply (X16_cpf_recusado builtins_de_exemplo banco_de_exemplo
           (mkConsole ["1"; "111"; "Eva"] []) "1" "111" ["Eva"]).
  - reflexivity.
  - left. split; [reflexivity|]. vm_compute. eexists. reflexivity.
Defined.

(** X17.  Option [2] with the CPF of a client: the turn reads the option and
    the CPF; a new [ContaCorrente] comes into being, an object that no
    reference denoted before, with the number [len(contas) + 1] and the
    client as holder; it is put at the end of [contas] and at the end of the
    client's own list; the other clients and the other accounts are as they
    were. *)
Theorem X17_nova_conta_pelo_menu :
  forall (B : Builtins) (b : Banco) (c : Console) (x : string)
         (resto : list string) (i : nat) (p : PessoaFisica),
    stdin c = "2" :: x :: resto ->
    filtrar_cliente_por_cpf x (clientes b) = Some (i, p) ->
    exists (r : ref) (b' : Banco) (c' : Console),
      iteracao B b c = (Normal (b', true), c')
      /\ stdin c' = resto
      /\ mem b !! r = None
      /\ mem b' = <[r := OCorrente
                           (ContaCorrente.nova_conta i
                              (Z.of_nat (length (contas_main b)) + 1))]> (mem b)
      /\ contas_main b' = contas_main b ++ [r]
      /\ clientes b' !! i = Some (PessoaFisica.adicionar_conta r p)
      /\ contas (como_cliente (PessoaFisica.adicionar_conta r p))
         = contas (como_cliente p) ++ [r]
      /\ (forall j : nat, j <> i -> clientes b' !! j = clientes b !! j)
      /\ last (stdout c')
         = Some (Escreve ("Conta Corrente "
                            +:+ str_int (Z.of_nat (length (contas_main b)) + 1)
                            +:+ " criada para " +:+ nome p +:+ ".")).
Proof.
  intros B b c x resto i p S F.
  destruct c as [inp out]. cbn [stdin stdout] in *. subst inp.
  exists (fresh (dom (mem b))).
  unfold iteracao. unfold mbind at 1, io_bind at 1. rewrite menu_le.
  cbn [String.eqb Ascii.eqb Bool.eqb].
  unfold criar_conta, mbind, io_bind, print, input. cbn [stdin stdout].
  rewrite F. unfold mret, io_ret. cbn [stdin stdout].
  eexists. eexists. split; [reflexivity|]. cbn [stdin stdout clientes contas_main mem].
  apply filtrar_some in F. destruct F as [P _].
  split; [reflexivity|]. split.
  { apply not_elem_of_dom. apply is_fresh. }
  split; [reflexivity|]. split; [reflexivity|]. split.
  { rewrite list_lookup_alter_eq, P. reflexivity. }
  split; [reflexivity|]. split.
  { intros j N. apply list_lookup_alter_ne. congruence. }
  rewrite last_snoc. reflexivity.
Qed.

(** Bia opens a second account: it is the fourth of the bank. *)
Lemma X17_nova_conta_pelo_menu_witness :
  exists (p : PessoaFisica) (r : ref) (b' : Banco) (c' : Console),
    filtrar_cliente_por_cpf "222" (clientes banco_de_exemplo) = Some (1%nat, p)
    /\ iteracao builtins_de_exemplo banco_de_exemplo (mkConsole ["2"; "222"] [])
       = (Normal (b', true), c')
    /\ mem banco_de_exemplo !! r = None
    /\ mem b' !! r = Some (OCorrente (ContaCorrente.nova_conta 1%nat 4))
    /\ contas_main b' = contas_main banco_de_exemplo ++ [r]
    /\ last (stdout c') = Some (Escreve "Conta Corrente 4 criada para Bia.").
Proof.
  destruct (filtrar_cliente_por_cpf "222" (clientes banco_de_exemplo))
    as [[i p]|] eqn:F; [|vm_compute in F; discriminate F].
  assert (I : i = 1%nat) by (vm_compute in F; congruence). subst i.
  destruct (X17_nova_conta_pelo_menu builtins_de_exemplo banco_de_exemplo
              (mkConsole ["2"; "222"] []) "222" [] 1%nat p eq_refl F)
    as (r & b' & c' & E & _ & N & M & R & _ & _ & _ & L).
  exists p, r, b', c'. split; [reflexivity|]. split; [exact E|].
  split; [exact N|]. split.
  - rewrite M, lookup_insert_eq. reflexivity.
  - split; [exact R|]. rewrite L.
    vm_compute in F. injection F as <-. vm_compute. reflexivity.
Defined.

Lemma nl_ler_data (B : Builtins) (s : string) : nao_le (ler_data B s).
Proof.
  unfold ler_data.
  assert (P : nao_le (print "Formato de data inválido. Usando data padrão." ;;
                      (mret data_padrao : IO Data))).
  { apply nl_bind; [apply nl_print | intros _; apply nl_ret]. }
  destruct (split "-" s) as [|f1 [|f2 [|f3 [|f4 l]]]]; try exact P.
  destruct (py_int B f1); [|exact P].
  destruct (py_int B f2); [|exact P].
  destruct (py_int B f3); [|exact P].
  destruct (date _ _ _); [apply nl_ret | exact P | apply nl_levantar].
Qed.

Lemma filtrar_novo (x : string) (l : list PessoaFisica) (p : PessoaFisica) :
  filtrar_cliente_por_cpf x l = None -> cpf p = x ->
  filtrar_cliente_por_cpf x (l ++ [p]) = Some (length l, p).
Proof.
  rewrite !filtrar_list_find. intros N E. apply list_find_app_Some. right.
  split; [lia|]. split; [exact N|]. rewrite Nat.sub_diag.
  cbn. rewrite decide_True by exact E. reflexivity.
Qed.

(** X18.  Option [1] with a CPF that no client has, when the reading of the
    date gives a date: the turn reads the option and the four answers; the
    new client comes at the end of [clientes], without accounts, and is from
    then on the one found for its CPF; the clients there were and the
    accounts are as before. *)
Theorem X18_novo_cliente_pelo_menu :
  forall (B : Builtins) (b : Banco) (c : Console)
         (x nome_completo dt_nasc_str ender : string) (resto : list string)
         (d : Data),
    stdin c = "1" :: x :: nome_completo :: dt_nasc_str :: ender :: resto ->
    filtrar_cliente_por_cpf x (clientes b) = None ->
    (forall c0 : Console, (ler_data B dt_nasc_str c0).1 = Normal d) ->
    let novo := PessoaFisica.init x nome_completo d ender in
    exists c' : Console,
      iteracao B b c
      = (Normal ({| clientes := clientes b ++ [novo];
                    contas_main := contas_main b;
                    mem := mem b |}, true), c')
      /\ stdin c' = resto
      /\ last (stdout c')
         = Some (Escreve ("Cliente '" +:+ nome_completo +:+ "' criado com sucesso!"))
      /\ contas (como_cliente novo) = []
      /\ filtrar_cliente_por_cpf x (clientes b ++ [novo])
         = Some (length (clientes b), novo).
Proof.
  intros B b c x n s e resto d S F L novo. subst novo.
  destruct c as [inp out]. cbn [stdin stdout] in *. subst inp.
  unfold iteracao. unfold mbind at 1, io_bind at 1. rewrite menu_le.
  cbn [String.eqb Ascii.eqb Bool.eqb].
  unfold criar_cliente. unfold mbind at 1, io_bind at 1.
  unfold mbind at 1, io_bind at 1. unfold print at 1.
  unfold mbind at 1, io_bind at 1. unfold input at 1. cbn [stdin stdout].
  rewrite F.
  unfold mbind at 1, io_bind at 1. unfold input at 1. cbn [stdin stdout].
  unfold mbind at 1, io_bind at 1. unfold input at 1. cbn [stdin stdout].
  unfold mbind at 1, io_bind at 1.
  match goal with
  | |- context [ler_data B s ?k] =>
      pose proof (L k) as Lk;
      pose proof (nl_ler_data B s k) as Nk;
      destruct (ler_data B s k) as [r c2] eqn:E
  end.
  cbn [fst] in Lk. subst r. specialize (Nk _ _ eq_refl). cbn [stdin] in Nk.
  destruct c2 as [inp2 out2]. cbn [stdin] in Nk. subst inp2.
  unfold mbind, io_bind, input, print, mret, io_ret. cbn [stdin stdout].
  eexists. split; [reflexivity|]. cbn [stdin stdout].
  split; [reflexivity|]. split; [apply last_snoc|]. split; [reflexivity|].
  apply filtrar_novo; [exact F | reflexivity].
Qed.

(** Eva becomes the third client of the bank. *)
Lemma X18_novo_cliente_pelo_menu_witness :
  let novo := PessoaFisica.init "333" "Eva" (mkData 1999 12 31) "Rua C, 3" in
  exists c' : Console,
    iteracao builtins_de_exemplo banco_de_exemplo
      (mkConsole ["1"; "333"; "Eva"; "31-12-1999"; "Rua C, 3"; "0"] [])
    = (Normal ({| clientes := clientes banco_de_exemplo ++ [novo];
                  contas_main := contas_main banco_de_exemplo;
                  mem := mem banco_de_exemplo |}, true), c')
    /\ stdin c' = ["0"]
    /\ last (stdout c') = Some (Escreve "Cliente 'Eva' criado com sucesso!")
    /\ contas (como_cliente novo) = []
    /\ filtrar_cliente_por_cpf "333" (clientes banco_de_exemplo ++ [novo])
       = Some (length (clientes banco_de_exemplo), novo).
Proof.
  apply (X18_novo_cliente_pelo_menu builtins_de_exemplo banco_de_exemplo
           (mkConsole ["1"; "333"; "Eva"; "31-12-1999"; "Rua C, 3"; "0"] [])
           "333" "Eva" "31-12-1999" "Rua C, 3" ["0"] (mkData 1999 12 31)).
  - reflexivity.
  - vm_compute. reflexivity.
  - intros c0. reflexivity.
Defined.

(** ** Listing and statement *)

Lemma para_cada_escreve {A : Type} (f : A -> IO unit) (g : A -> string)
    (l : list A) (c : Console) :
  (forall (a : A) (k : Console),
     a ∈ l ->
     f a k = (Normal tt, {| stdin := stdin k; stdout := stdout k ++ [Escreve (g a)] |})) ->
  para_cada f l c
  = (Normal tt, {| stdin := stdin c; stdout := stdout c ++ (Escreve <$> (g <$> l)) |}).
Proof.
  revert c. induction l as [|x l IH]; intros c H.
  - cbn. rewrite app_nil_r. destruct c; reflexivity.
  - cbn [para_cada]. unfold mbind, io_bind.
    rewrite (H x c) by apply list_elem_of_here.
    rewrite IH by (intros a k Ha; apply H; apply list_elem_of_further; exact Ha).
    cbn [stdin stdout fmap list_fmap]. rewrite <- app_assoc. reflexivity.
Qed.

(** An account of a client, in a consistent state. *)
Lemma conta_do_cliente (b : Banco) (i : nat) (p : PessoaFisica) (r : ref) :
  consistente b ->
  clientes b !! i = Some p -> r ∈ contas (como_cliente p) ->
  exists cc : ContaCorrente,
    mem b !! r = Some (OCorrente cc)
    /\ cliente (base cc) = i
    /\ agencia (base cc) = "0001"
    /\ limite cc = F64.of_Z 500.
Proof.
  intros [_ _ D C O _ _] Hp Hr.
  destruct (O i p r Hp Hr) as (cc & M & E).
  assert (R : r ∈ contas_main b) by (apply D; rewrite M; eexists; reflexivity).
  apply list_elem_of_lookup in R. destruct R as [k Hk].
  destruct (C k r Hk) as (cc' & M' & _ & A & L & _).
  rewrite M in M'. injection M' as <-.
  exists cc. repeat (split; [assumption|]). exact L.
Qed.

(** X19.  Option [3] for a client that has accounts, in a state of [main]:
    the turn reads the option and the CPF, and writes the heading and then
    one line for each account of the client, in the order of the client's
    list, with the agency [0001], the number of the account and, as holder,
    the name of that client.  The state is unchanged. *)
Theorem X19_listagem_das_contas :
  forall (B : Builtins) (b : Banco) (c : Console) (x : string)
         (resto : list string) (i : nat) (p : PessoaFisica),
    alcancavel B b ->
    stdin c = "3" :: x :: resto ->
    filtrar_cliente_por_cpf x (clientes b) = Some (i, p) ->
    contas (como_cliente p) <> [] ->
    iteracao B b c
    = (Normal (b, true),
       {| stdin := resto;
          stdout :=
            stdout c ++ tela_do_menu
              ++ [Pergunta "CPF do titular: ";
                  Escreve ("--- Contas de " +:+ nome p +:+ " ---")]
              ++ (Escreve
                    <$> ((fun r : ref =>
                            "  > Agência: 0001 | Conta: "
                              +:+ str_int (numero_de b r)
                              +:+ " | Titular: " +:+ nome p)
                           <$> contas (como_cliente p))) |}).
Proof.
  intros B b c x resto i p A S F N. apply alcancavel_consistente in A.
  destruct c as [inp out]. cbn [stdin stdout] in *. subst inp.
  unfold iteracao. unfold mbind at 1, io_bind at 1. rewrite menu_le.
  cbn [String.eqb Ascii.eqb Bool.eqb].
  unfold listar_contas. unfold mbind at 1, io_bind at 1.
  unfold mbind at 1, io_bind at 1. unfold input at 1. cbn [stdin stdout].
  rewrite F. apply filtrar_some in F. destruct F as [P _].
  destruct (contas (como_cliente p)) as [|r0 l] eqn:E; [congruence|].
  rewrite <- E in *. clear N.
  unfold mbind at 1, io_bind at 1. unfold print at 1. cbn [stdin stdout].
  unfold mbind at 1, io_bind at 1.
  rewrite (para_cada_escreve _
             (fun r : ref =>
                "  > Agência: 0001 | Conta: " +:+ str_int (numero_de b r)
                  +:+ " | Titular: " +:+ nome p)).
  - unfold mret, io_ret. cbn [stdin stdout]. rewrite <- !app_assoc. reflexivity.
  - intros r k Hr.
    destruct (conta_do_cliente b i p r A P Hr) as (cc & M & Ec & Ea & _).
    unfold str_da_conta, objeto, numero_de, mbind, io_bind. rewrite M.
    unfold mret at 1, io_ret. unfold mret at 1, io_ret.
    cbn [Objeto.conta]. rewrite Ec, P. unfold str_conta. rewrite Ea.
    reflexivity.
Qed.

(** Ana's accounts are the first and the third. *)
Lemma X19_listagem_das_contas_witness :
  alcancavel builtins_de_exemplo banco_de_exemplo
  /\ iteracao builtins_de_exemplo banco_de_exemplo (mkConsole ["3"; "111"] [])
     = (Normal (banco_de_exemplo, true),
        {| stdin := [];
           stdout :=
             tela_do_menu
               ++ [Pergunta "CPF do titular: ";
                   Escreve "--- Contas de Ana ---";
                   Escreve "  > Agência: 0001 | Conta: 1 | Titular: Ana";
                   Escreve "  > Agência: 0001 | Conta: 3 | Titular: Ana"] |}).
Proof.
  split; [exact banco_de_exemplo_alcancavel|].
  rewrite (X19_listagem_das_contas builtins_de_exemplo banco_de_exemplo
             (mkConsole ["3"; "111"] []) "111" [] 0%nat ana
             banco_de_exemplo_alcancavel).
  - vm_compute. reflexivity.
  - reflexivity.
  - vm_compute. reflexivity.
  - vm_compute. discriminate.
Defined.

(** X20.  Option [6] for a client with one account, in a state of [main]:
    the turn reads the option and the CPF and writes the statement of that
    account: its number, the name of the client, the report of its history,
    its balance, and, the account being a [ContaCorrente], the overdraft
    [500.00] and the sum of the balance and the overdraft, each amount with
    two decimals.  The state is unchanged. *)
Theorem X20_extrato_pelo_menu :
  forall (B : Builtins) (b : Banco) (c : Console) (x : string)
         (resto : list string) (i : nat) (p : PessoaFisica) (r : ref),
    alcancavel B b ->
    stdin c = "6" :: x :: resto ->
    filtrar_cliente_por_cpf x (clientes b) = Some (i, p) ->
    contas (como_cliente p) = [r] ->
    exists cc : ContaCorrente,
      mem b !! r = Some (OCorrente cc)
      /\ iteracao B b c
         = (Normal (b, true),
            {| stdin := resto;
               stdout :=
                 stdout c ++ tela_do_menu
                   ++ [Pergunta "CPF do titular: ";
                       Escreve (nl +:+ "--- Extrato da Conta "
                                  +:+ str_int (numero (base cc)) +:+ " ---");
                       Escreve ("Titular: " +:+ nome p);
                       Escreve (Historico.gerar_relatorio (historico (base cc)));
                       Escreve "---------------------------------";
                       Escreve ("Saldo Atual:     R$ " +:+ fmt2 (saldo (base cc)));
                       Escreve "Cheque Especial: R$ 500.00";
                       Escreve ("Disponível total: R$ "
                                  +:+ fmt2 (F64.add (saldo (base cc))
                                                    (F64.of_Z 500)))] |}).
Proof.
  intros B b c x resto i p r A S F C. apply alcancavel_consistente in A.
  destruct c as [inp out]. cbn [stdin stdout] in *. subst inp.
  pose proof (filtrar_some _ _ _ _ F) as [P _].
  destruct (conta_do_cliente b i p r A P) as (cc & M & _ & _ & L).
  { rewrite C. apply list_elem_of_here. }
  exists cc. split; [exact M|].
  unfold iteracao. unfold mbind at 1, io_bind at 1. rewrite menu_le.
  cbn [String.eqb Ascii.eqb Bool.eqb].
  unfold ver_extrato. unfold mbind at 1, io_bind at 1.
  unfold mbind at 1, io_bind at 1. unfold input at 1. cbn [stdin stdout].
  rewrite F. unfold get_conta_cliente. rewrite C.
  unfold mbind at 1, io_bind at 1. unfold mret at 1, io_ret.
  unfold objeto. rewrite M.
  unfold mbind, io_bind, mret, io_ret, print. cbn [stdin stdout Objeto.conta].
  rewrite L. rewrite <- !app_assoc. reflexivity.
Qed.

(** The statement of Bia's account, on which nothing was done. *)
Lemma X20_extrato_pelo_menu_witness :
  alcancavel builtins_de_exemplo banco_de_exemplo
  /\ (iteracao builtins_de_exemplo banco_de_exemplo (mkConsole ["6"; "222"] [])).1
     = Normal (banco_de_exemplo, true)
  /\ exists cc : ContaCorrente,
       mem banco_de_exemplo !! 1%nat = Some (OCorrente cc)
       /\ stdout (iteracao builtins_de_exemplo banco_de_exemplo
                    (mkConsole ["6"; "222"] [])).2
          = tela_do_menu
              ++ [Pergunta "CPF do titular: ";
                  Escreve (nl +:+ "--- Extrato da Conta 2 ---");
                  Escreve "Titular: Bia";
                  Escreve "Nenhuma transação realizada.";
                  Escreve "---------------------------------";
                  Escreve "Saldo Atual:     R$ 0.00";
                  Escreve "Cheque Especial: R$ 500.00";
                  Escreve "Disponível total: R$ 500.00"].
Proof.
  split; [exact banco_de_exemplo_alcancavel|].
  destruct (filtrar_cliente_por_cpf "222" (clientes banco_de_exemplo))
    as [[i p]|] eqn:F; [|vm_compute in F; discriminate F].
  assert (I : i = 1%nat) by (vm_compute in F; congruence). subst i.
  destruct (X20_extrato_pelo_menu builtins_de_exemplo banco_de_exemplo
              (mkConsole ["6"; "222"] []) "222" [] 1%nat p 1%nat
              banco_de_exemplo_alcancavel eq_refl F)
    as (cc & M & E).
  - vm_compute in F. injection F as <-. reflexivity.
  - split; [rewrite E; reflexivity|]. exists cc. split; [exact M|].
    rewrite E. cbn [snd stdout app].
    vm_compute in F. injection F as <-.
    vm_compute in M. injection M as <-. vm_compute. reflexivity.
Defined.
